(** * Card authorization engine: shallow embedding and verified properties

    The development follows the TypeScript sources:
    - [DataSecurityService] (PAN validation, masking, envelope encryption,
      recursive sanitization),
    - [RuleEngineService] (condition evaluator, fuzzy merchant matching,
      card rules, behavioural anomaly checks),
    - [BankingService] (two-account fund transfer inside a unit of work,
      balance and status lookups),
    - [EnrichmentService] (merchant name cleaning, category lookup and
      defaults of the enriched record),
    - [AuthorizationService] (the authorization flow: account validation,
      handling of card data, rule decisions, fund sweep, fail-safe).

    Modelling conventions, used throughout:
    - JavaScript strings are byte strings ([string]); case folding and the
      character classes of the regular expressions are the ASCII ones.
    - JavaScript numbers are exact rationals ([Q]); IEEE-754 rounding is not
      modelled.  [Math.sqrt] and the numeric coercion of non-numbers are
      entries of the environment record [Env].
    - A thrown exception is the [Throw] constructor of [result]; [try/catch]
      is a [match] on it.
    - Wall-clock readings ([Date.now], [evaluationTimeMs]) and logging are
      left out. *)

From Stdlib Require Import List String Ascii ZArith QArith Bool Lia Lqa.
From Stdlib Require Import Qround Permutation Sorted DecimalString.
From Stdlib Require Strings.Byte.
From stdpp Require Import gmap strings.
Import ListNotations.
Open Scope string_scope.
Open Scope list_scope.

(** ** JavaScript values, exceptions and string helpers *)

Module Js.

Inductive exn : Type :=
| TypeError (msg : string)
| Error (msg : string).

Inductive result (A : Type) : Type :=
| Ok (a : A)
| Throw (e : exn).
Arguments Ok {A} a.
Arguments Throw {A} e.

Definition bind {A B : Type} (m : result A) (k : A -> result B) : result B :=
  match m with
  | Ok a => k a
  | Throw e => Throw e
  end.

(** [try { body } catch (e) { handler e }] *)
Definition try_catch {A : Type} (body : result A) (handler : exn -> result A)
  : result A :=
  match body with
  | Ok a => Ok a
  | Throw e => handler e
  end.

(** [try { body } catch { fallback }] when both branches produce a value *)
Definition try_or {A : Type} (body : result A) (fallback : A) : A :=
  match body with
  | Ok a => a
  | Throw _ => fallback
  end.

(** JSON-shaped values.  An object is the list of its own enumerable
    properties in iteration order. *)
#[local] Unset Elimination Schemes.
Inductive value : Type :=
| VNull
| VBool (b : bool)
| VNum (q : Q)
| VStr (s : string)
| VArr (items : list value)
| VObj (fields : list (string * value)).
#[local] Set Elimination Schemes.

(** Truthiness ([!v], [a && b], [a || b]). *)
Definition truthy (v : value) : bool :=
  match v with
  | VNull => false
  | VBool b => b
  | VNum q => negb (Qeq_bool q 0)
  | VStr s => negb (s =? "")%string
  | VArr _ | VObj _ => true
  end.

Definition truthyStr (s : option string) : bool :=
  match s with
  | Some s => negb (s =? "")%string
  | None => false
  end.

Definition truthyNum (n : option Z) : bool :=
  match n with
  | Some n => negb (n =? 0)%Z
  | None => false
  end.

(** [typeof v === 'object' && v !== null] *)
Definition isNonNullObject (v : value) : bool :=
  match v with
  | VArr _ | VObj _ => true
  | _ => false
  end.

Fixpoint lookupField (k : string) (fields : list (string * value))
  : option value :=
  match fields with
  | [] => None
  | (k', v) :: rest => if (k' =? k)%string then Some v else lookupField k rest
  end.

(** Property read [v.k] for the property names used by the rule engine;
    [None] is [undefined]. *)
Definition getProp (v : value) (k : string) : option value :=
  match v with
  | VObj fields => lookupField k fields
  | _ => None
  end.

Definition truthyProp (o : option value) : bool :=
  match o with
  | Some v => truthy v
  | None => false
  end.

(** Decimal rendering of an array index, as a property key. *)
Definition indexKey (i : nat) : string :=
  NilEmpty.string_of_uint (Nat.to_uint i).

Section Indexed.
Context {A B : Type} (f : nat -> A -> B).

Fixpoint mapi_from (i : nat) (l : list A) : list B :=
  match l with
  | [] => []
  | x :: rest => f i x :: mapi_from (S i) rest
  end.

End Indexed.

(** Own enumerable properties of an array, as spread into an object
    ([{...arr}]) or listed by [Object.entries]. *)
Definition arrayEntries (items : list value) : list (string * value) :=
  mapi_from (fun i v => (indexKey i, v)) 0 items.

(** ASCII character classes of the regular expressions. *)
Definition isDigit (c : ascii) : bool :=
  (48 <=? nat_of_ascii c)%nat && (nat_of_ascii c <=? 57)%nat.

Definition isUpper (c : ascii) : bool :=
  (65 <=? nat_of_ascii c)%nat && (nat_of_ascii c <=? 90)%nat.

Definition isLower (c : ascii) : bool :=
  (97 <=? nat_of_ascii c)%nat && (nat_of_ascii c <=? 122)%nat.

Definition isLetter (c : ascii) : bool := isUpper c || isLower c.

(** [\w] *)
Definition isWord (c : ascii) : bool :=
  isLetter c || isDigit c || (nat_of_ascii c =? 95)%nat.

(** [\s] *)
Definition isSpace (c : ascii) : bool :=
  (nat_of_ascii c =? 32)%nat
  || ((9 <=? nat_of_ascii c)%nat && (nat_of_ascii c <=? 13)%nat).

Definition lowerChar (c : ascii) : ascii :=
  if isUpper c then ascii_of_nat (nat_of_ascii c + 32) else c.

Definition toLowerCase (s : string) : string :=
  string_of_list_ascii (map lowerChar (list_ascii_of_string s)).

Fixpoint startsWith (p s : list ascii) : bool :=
  match p, s with
  | [], _ => true
  | _ :: _, [] => false
  | a :: p', b :: s' => Ascii.eqb a b && startsWith p' s'
  end.

Fixpoint includesChars (needle hay : list ascii) : bool :=
  startsWith needle hay
  || match hay with
     | [] => false
     | _ :: rest => includesChars needle rest
     end.

(** [hay.includes(needle)] on strings *)
Definition includes (hay needle : string) : bool :=
  includesChars (list_ascii_of_string needle) (list_ascii_of_string hay).

(** [s.split(sep)] for a one-character separator *)
Fixpoint splitChars (sep : ascii) (cur : list ascii) (s : list ascii)
  : list (list ascii) :=
  match s with
  | [] => [rev cur]
  | c :: rest =>
      if Ascii.eqb c sep then rev cur :: splitChars sep [] rest
      else splitChars sep (c :: cur) rest
  end.

Definition split (sep : ascii) (s : string) : list string :=
  map string_of_list_ascii (splitChars sep [] (list_ascii_of_string s)).

(** [c.repeat(n)] *)
Definition repeatChar (c : ascii) (n : nat) : string :=
  string_of_list_ascii (repeat c n).

End Js.
Export Js.

(** [x ← m; k] sequences two computations that may throw. *)
#[global] Instance result_bind : MBind result := fun A B k m => bind m k.
#[global] Instance result_ret : MRet result := @Ok.

(** ** DataSecurityService *)

Module DataSecurityService.

Definition PCI_FIELDS : list string :=
  ["cardNumber"; "cvv"; "cardholderName"; "cardTrack1"; "cardTrack2"; "pin"].

Definition REDACTED : string := "[REDACTED]".

(** [/^\d{13,19}$/.test(pan)] *)
Definition testPanFormat (pan : string) : bool :=
  forallb isDigit (list_ascii_of_string pan)
  && (13 <=? String.length pan)%nat && (String.length pan <=? 19)%nat.

(** [Number(ch)] for a decimal digit character *)
Definition Number (c : ascii) : Z := (Z.of_nat (nat_of_ascii c) - 48)%Z.

(** One iteration of the Luhn loop: state is [(sum, shouldDouble)]. *)
Definition luhnStep (st : Z * bool) (d : Z) : Z * bool :=
  let '(sum, shouldDouble) := st in
  let digit :=
    if shouldDouble
    then (let digit := (d * 2)%Z in if (digit >? 9)%Z then (digit - 9)%Z else digit)
    else d in
  ((sum + digit)%Z, negb shouldDouble).

Definition isValidPan (pan : string) : bool :=
  if (pan =? "")%string || negb (testPanFormat pan) then false
  else
    let digits := map Number (list_ascii_of_string pan) in
    (* for (i = digits.length - 1; i >= 0; i--) *)
    let '(sum, _) := fold_left luhnStep (rev digits) (0%Z, false) in
    (sum mod 10 =? 0)%Z.

(** [pan.slice(0, n)] and [pan.slice(-n)] *)
Definition sliceFirst (n : nat) (s : string) : string := substring 0 n s.
Definition sliceLast (n : nat) (s : string) : string :=
  substring (String.length s - n) n s.

Definition maskPan (pan : string) : result string :=
  if negb (isValidPan pan) then Throw (Error "Invalid PAN format")
  else
    let last4 := sliceLast 4 pan in
    let prefix := sliceFirst 6 pan in
    let maskedMiddle := repeatChar "*" (String.length pan - 10) in
    Ok (prefix +:+ maskedMiddle +:+ last4).

(** *** Envelope encryption

    The block cipher (AES-256-CBC of the platform's crypto library) and the
    key read at start-up are the fields of [Cipher]; [cipherDecrypt] is
    [None] when the library rejects the ciphertext (bad padding or length).
    The random IV drawn by [crypto.randomBytes] is an argument of [encrypt]. *)

Record Cipher : Type := {
  ENCRYPTION_KEY : list Byte.byte;
  cipherEncrypt : list Byte.byte -> list Byte.byte -> list Byte.byte -> list Byte.byte;
  cipherDecrypt : list Byte.byte -> list Byte.byte -> list Byte.byte -> option (list Byte.byte)
}.

Definition ENCRYPTION_IV_LENGTH : nat := 16.

Definition hexChar (n : N) : ascii :=
  nth (N.to_nat n) (list_ascii_of_string "0123456789abcdef") "0"%char.

Definition hexVal (c : ascii) : option N :=
  let n := N_of_ascii c in
  if isDigit c then Some (n - 48)%N
  else if ((97 <=? n) && (n <=? 102))%N then Some (n - 87)%N
  else if ((65 <=? n) && (n <=? 70))%N then Some (n - 55)%N
  else None.

Definition hexOfByte (b : Byte.byte) : list ascii :=
  let n := Byte.to_N b in [hexChar (n / 16)%N; hexChar (n mod 16)%N].

(** [buf.toString('hex')] *)
Definition toHex (buf : list Byte.byte) : string :=
  string_of_list_ascii (flat_map hexOfByte buf).

(** [Buffer.from(s, 'hex')]: decoding stops at the first pair that is not
    two hexadecimal digits. *)
Fixpoint fromHexChars (cs : list ascii) : list Byte.byte :=
  match cs with
  | hi :: lo :: rest =>
      match hexVal hi, hexVal lo with
      | Some h, Some l =>
          match Byte.of_N (16 * h + l)%N with
          | Some b => b :: fromHexChars rest
          | None => []
          end
      | _, _ => []
      end
  | _ => []
  end.

Definition fromHex (s : string) : list Byte.byte :=
  fromHexChars (list_ascii_of_string s).

Definition encrypt (c : Cipher) (iv : list Byte.byte) (text : string)
  : result string :=
  (* createCipheriv rejects an IV that is not one block long *)
  if negb (length iv =? ENCRYPTION_IV_LENGTH)%nat
  then Throw (TypeError "Invalid initialization vector")
  else
    let encrypted :=
      toHex (cipherEncrypt c (ENCRYPTION_KEY c) iv (list_byte_of_string text)) in
    Ok (toHex iv +:+ ":" +:+ encrypted).

Definition decrypt (c : Cipher) (encryptedText : string) : result string :=
  let parts := split ":" encryptedText in
  if negb (length parts =? 2)%nat
  then Throw (Error "Invalid encrypted data format")
  else
    let iv := fromHex (nth 0 parts "") in
    let encrypted := nth 1 parts "" in
    if negb (length iv =? ENCRYPTION_IV_LENGTH)%nat
    then Throw (TypeError "Invalid initialization vector")
    else
      match cipherDecrypt c (ENCRYPTION_KEY c) iv (fromHex encrypted) with
      | Some decrypted => Ok (string_of_list_byte decrypted)
      | None => Throw (Error "bad decrypt")
      end.

(** *** Tokens, card digits and fingerprints

    The random token identifier ([uuidv4]) and the IV drawn for the
    encryption inside [tokenizeCardNumber] are arguments; the SHA-256 digest
    of the platform is the argument [sha256]. *)

Definition tokenizeCardNumber (c : Cipher) (iv : list Byte.byte)
    (uuid : string) (pan : string) : result string :=
  if negb (isValidPan pan) then Throw (Error "Invalid PAN format")
  else
    let tokenId := uuid in
    encryptedPan ← encrypt c iv pan;
    Ok tokenId.

Definition getCardLast4 (pan : string) : result string :=
  if negb (isValidPan pan) then Throw (Error "Invalid PAN format")
  else Ok (sliceLast 4 pan).

Definition getCardBin (pan : string) : result string :=
  if negb (isValidPan pan) then Throw (Error "Invalid PAN format")
  else Ok (sliceFirst 6 pan).

(** An integer inside a template literal *)
Definition numberToString (n : Z) : string :=
  NilZero.string_of_int (Z.to_int n).

Definition generateCardFingerprint (sha256 : string -> string)
    (pan : string) (expMonth expYear : Z) : result string :=
  if negb (isValidPan pan) then Throw (Error "Invalid PAN format")
  else
    bin ← getCardBin pan;
    let dataToHash :=
      bin +:+ sliceLast 4 pan +:+ numberToString expMonth
          +:+ numberToString expYear in
    let hash := sha256 dataToHash in
    Ok hash.

(** *** Recursive sanitization *)

(** The body of the [for (const key in sanitized)] loop for one property:
    [v] is the property's value and [recursed] the result of the recursive
    call on it.  [isValidPan] is declared on strings; handed any other value
    it either answers [false] (falsy value, or regular expression not
    matched) or raises a TypeError at [pan.split], and both the conditional
    and the [catch] then store '[REDACTED]'. *)
Definition sanitizeProperty (key : string) (v recursed : value) : value :=
  if existsb (String.eqb key) PCI_FIELDS then VStr REDACTED
  else if (key =? "cardNumber")%string || (key =? "pan")%string then
    match v with
    | VStr pan =>
        try_or
          (if isValidPan pan then (masked ← maskPan pan; Ok (VStr masked))
           else Ok (VStr REDACTED))
          (VStr REDACTED)
    | _ => VStr REDACTED
    end
  else if isNonNullObject v then recursed
  else v.

Fixpoint secureSanitizeObject (obj : value) : value :=
  match obj with
  | VObj fields =>
      VObj (map (fun kv =>
                   match kv with
                   | (key, v) =>
                       (key, sanitizeProperty key v (secureSanitizeObject v))
                   end) fields)
  | VArr items =>
      (* { ...obj } of an array is the object of its indexed elements *)
      VObj (mapi_from (fun i v =>
                         (indexKey i,
                          sanitizeProperty (indexKey i) v (secureSanitizeObject v)))
                      0 items)
  | _ => obj (* !obj || typeof obj !== 'object' *)
  end.

End DataSecurityService.


(** ** Models *)

Inductive RuleAction : Type :=
| APPROVE | DECLINE | REVIEW | SWEEP | STEP_UP_AUTH.

(** A [Date], by the calendar components the code reads from it. *)
Record JsDate : Type := {
  getFullYear : Z;
  getMonth : Z; (* 0-indexed *)
  getDay : Z;
  getHours : Z
}.

(** The fields of [enrichedData] that the rule engine reads. *)
Module EnrichedData.
Record t : Type := {
  merchantName : option string;
  merchantId : option string;
  merchantCategory : option string;
  merchantCategoryCode : option string;
  location : option string;
  countryCode : option string
}.
End EnrichedData.

Module Transaction.
Record t : Type := {
  transactionId : string;
  accountId : string;
  amount : Q;
  currency : string;
  merchantName : string;
  merchantId : option string;
  merchantCategoryCode : option string;
  merchantCategory : option string;
  location : option string;
  countryCode : option string;
  paymentToken : option string;
  paymentMethod : option string;
  cardBrand : option string;
  cardLast4 : option string;
  cardExpiryMonth : option Z;
  cardExpiryYear : option Z;
  cardFingerprint : option string;
  enrichedData : option EnrichedData.t;
  createdAt : JsDate
}.
End Transaction.

Module Rule.
Record t : Type := {
  id : string;
  name : string;
  action : RuleAction;
  priority : Z;
  conditions : value; (* JSON column; [VNull] when missing *)
  isActive : bool;
  accountId : option string;
  isGlobal : bool
}.
End Rule.

Module Account.
Record t : Type := {
  id : string;
  accountNumber : string;
  balance : Q;
  currency : string;
  status : string;
  isSweepEnabled : bool;
  sweepAccountId : option string;
  metadata : option value
}.
End Account.

Module RuleResult.
Record t : Type := {
  ruleId : string;
  ruleName : string;
  action : RuleAction;
  matched : bool;
  conditions : value
}.
End RuleResult.

(** ** RuleEngineService *)

Module RuleEngineService.

(** What the service takes from outside its own code: the two string
    similarity libraries, the language's numeric coercion of strings and
    arrays ([None] is NaN), [Math.sqrt], [JSON.parse] at its declared use
    (the stored list of usual countries), and the current date. *)
Record Env : Type := {
  LevenshteinDistance : string -> string -> nat;
  compareTwoStrings : string -> string -> Q;
  metaphoneProcess : string -> string;
  ToNumber : value -> option Q;
  Math_sqrt : Q -> Q;
  JSON_parse : value -> result (list string);
  currentDate : JsDate
}.

(** The transaction store, by the three queries the service issues; each
    may fail. *)
Record TransactionRepository : Type := {
  (* find({ where: { accountId }, order: { createdAt: 'DESC' }, take }) *)
  find : string -> nat -> result (list Transaction.t);
  (* count({ where: { cardFingerprint, createdAt: MoreThan(now - minutes) } }) *)
  countByCardSince : string -> Z -> result nat;
  (* count({ where: { accountId, createdAt: MoreThan(now - minutes) } }) *)
  countByAccountSince : string -> Z -> result nat
}.

Definition CONFIDENCE_THRESHOLD : Q := 0.7.
Definition MERCHANT_MATCH_THRESHOLD : Q := 0.8.

Record StringMatchWeights : Type := {
  levenshtein : Q;
  jaroWinkler : Q;
  phonetic : Q
}.

Definition DEFAULT_WEIGHTS : StringMatchWeights :=
  {| levenshtein := 0.4; jaroWinkler := 0.4; phonetic := 0.2 |}.

Definition Qltb (a b : Q) : bool := negb (Qle_bool b a).

(** The flattened view built by [prepareTransactionData]. *)
Module TxData.
Record t : Type := {
  transactionId : string;
  accountId : string;
  amount : Q;
  currency : string;
  merchantName : option string;
  merchantId : option string;
  merchantCategory : option string;
  merchantCategoryCode : option string;
  location : option string;
  countryCode : option string;
  paymentToken : option string;
  paymentMethod : option string;
  cardBrand : option string;
  cardLast4 : option string;
  cardExpiryMonth : option Z;
  cardExpiryYear : option Z;
  cardFingerprint : option string;
  timestamp : JsDate;
  dayOfWeek : Z;
  hourOfDay : Z;
  isEnriched : bool
}.
End TxData.

(** [a || b] on optional strings *)
Definition orElse (a b : option string) : option string :=
  if truthyStr a then a else b.

Definition prepareTransactionData (transaction : Transaction.t) : TxData.t :=
  let enriched (f : EnrichedData.t -> option string) : option string :=
    match Transaction.enrichedData transaction with
    | Some e => f e
    | None => None (* enrichedData = {} *)
    end in
  {| TxData.transactionId := Transaction.transactionId transaction;
     TxData.accountId := Transaction.accountId transaction;
     TxData.amount := Transaction.amount transaction;
     TxData.currency := Transaction.currency transaction;
     TxData.merchantName :=
       orElse (enriched EnrichedData.merchantName)
              (Some (Transaction.merchantName transaction));
     TxData.merchantId :=
       orElse (enriched EnrichedData.merchantId) (Transaction.merchantId transaction);
     TxData.merchantCategory :=
       orElse (enriched EnrichedData.merchantCategory)
              (Transaction.merchantCategory transaction);
     TxData.merchantCategoryCode :=
       orElse (enriched EnrichedData.merchantCategoryCode)
              (Transaction.merchantCategoryCode transaction);
     TxData.location :=
       orElse (enriched EnrichedData.location) (Transaction.location transaction);
     TxData.countryCode :=
       orElse (enriched EnrichedData.countryCode) (Transaction.countryCode transaction);
     TxData.paymentToken := Transaction.paymentToken transaction;
     TxData.paymentMethod := Transaction.paymentMethod transaction;
     TxData.cardBrand := Transaction.cardBrand transaction;
     TxData.cardLast4 := Transaction.cardLast4 transaction;
     TxData.cardExpiryMonth := Transaction.cardExpiryMonth transaction;
     TxData.cardExpiryYear := Transaction.cardExpiryYear transaction;
     TxData.cardFingerprint := Transaction.cardFingerprint transaction;
     TxData.timestamp := Transaction.createdAt transaction;
     TxData.dayOfWeek := getDay (Transaction.createdAt transaction);
     TxData.hourOfDay := getHours (Transaction.createdAt transaction);
     TxData.isEnriched :=
       match Transaction.enrichedData transaction with
       | Some _ => true
       | None => false
       end |}.

(** *** String matching *)

Definition stringMatch (actual : option string) (expected : value) : result bool :=
  match actual with
  | Some a =>
      if (a =? "")%string then Ok false
      else match expected with
           | VStr e => Ok (toLowerCase a =? toLowerCase e)%string
           | _ => Throw (TypeError "expected.toLowerCase is not a function")
           end
  | None => Ok false
  end.

Definition stringContains (actual : option string) (expected : value) : result bool :=
  match actual with
  | Some a =>
      if (a =? "")%string then Ok false
      else match expected with
           | VStr e => Ok (includes (toLowerCase a) (toLowerCase e))
           | _ => Throw (TypeError "expected.toLowerCase is not a function")
           end
  | None => Ok false
  end.

(** *** Merchant name cleaning: the chain of [replace] calls, one
    definition per regular expression *)

Fixpoint dropWhile (p : ascii -> bool) (s : list ascii) : list ascii :=
  match s with
  | [] => []
  | c :: rest => if p c then dropWhile p rest else s
  end.

(** [/^sq\*|^sq |^SQ\*|^SQ |^txn\*|^amzn\*|^pmt\*|^pp\*|^pypl\*/i]: the
    alternatives in source order, compared case-insensitively. *)
Definition PAYMENT_PREFIXES : list string :=
  ["sq*"; "sq "; "sq*"; "sq "; "txn*"; "amzn*"; "pmt*"; "pp*"; "pypl*"].

Fixpoint stripFirstPrefix (prefixes : list string) (s : list ascii) : list ascii :=
  match prefixes with
  | [] => s
  | p :: rest =>
      if startsWith (list_ascii_of_string p) (map lowerChar s)
      then skipn (String.length p) s
      else stripFirstPrefix rest s
  end.

(** [/^\d+\s+/g] *)
Definition stripLeadingNumber (s : list ascii) : list ascii :=
  let afterDigits := dropWhile isDigit s in
  if (length afterDigits <? length s)%nat then
    let afterSpaces := dropWhile isSpace afterDigits in
    if (length afterSpaces <? length afterDigits)%nat then afterSpaces else s
  else s.

(** [/\bINC\b|\bLLC\b|\bLTD\b|\bCORP\b|\bCO\b/gi] *)
Definition COMPANY_TYPES : list string := ["inc"; "llc"; "ltd"; "corp"; "co"].

(** The word [w] stands at the head of [s] and a word boundary follows. *)
Definition wordAt (w : string) (s : list ascii) : bool :=
  startsWith (list_ascii_of_string w) (map lowerChar s)
  && match skipn (String.length w) s with
     | [] => true
     | c :: _ => negb (isWord c)
     end.

Fixpoint companyTypeAt (types : list string) (s : list ascii) : option nat :=
  match types with
  | [] => None
  | w :: rest => if wordAt w s then Some (String.length w) else companyTypeAt rest s
  end.

(** Left-to-right scan of the global replace; [prevIsWord] is the class of
    the character before the head of [s], [skip] the number of characters
    of the current match still to drop. *)
Fixpoint removeCompanyTypes (prevIsWord : bool) (skip : nat) (s : list ascii)
  : list ascii :=
  match s with
  | [] => []
  | c :: rest =>
      match skip with
      | S k => removeCompanyTypes (isWord c) k rest
      | O =>
          if prevIsWord then c :: removeCompanyTypes (isWord c) 0 rest
          else match companyTypeAt COMPANY_TYPES s with
               | Some n => removeCompanyTypes (isWord c) (n - 1) rest
               | None => c :: removeCompanyTypes (isWord c) 0 rest
               end
      end
  end.

(** [/\d{4,}$/g] *)
Definition stripTrailingDigits (s : list ascii) : list ascii :=
  let run := (length s - length (dropWhile isDigit (rev s)))%nat in
  if (4 <=? run)%nat then firstn (length s - run) s else s.

(** [\d+[a-z]*$] under the [i] flag *)
Definition isNumericSuffix (s : list ascii) : bool :=
  let afterDigits := dropWhile isDigit s in
  (length afterDigits <? length s)%nat
  && match dropWhile isLetter afterDigits with
     | [] => true
     | _ :: _ => false
     end.

(** [/\-\d+[a-z]*$/i] *)
Fixpoint stripDashSuffix (s : list ascii) : list ascii :=
  match s with
  | [] => []
  | c :: rest =>
      if Ascii.eqb c "-" && isNumericSuffix rest then []
      else c :: stripDashSuffix rest
  end.

(** [/[^\w\s]/g] replaced by a space *)
Definition blankPunctuation (s : list ascii) : list ascii :=
  map (fun c => if isWord c || isSpace c then c else " "%char) s.

(** [/\s+/g] replaced by one space *)
Fixpoint collapseSpaces (inRun : bool) (s : list ascii) : list ascii :=
  match s with
  | [] => []
  | c :: rest =>
      if isSpace c
      then (if inRun then collapseSpaces true rest
            else " "%char :: collapseSpaces true rest)
      else c :: collapseSpaces false rest
  end.

Definition trim (s : list ascii) : list ascii :=
  rev (dropWhile isSpace (rev (dropWhile isSpace s))).

Definition cleanMerchantName (merchantName : string) : string :=
  if (merchantName =? "")%string then ""
  else
    let cleaned :=
      collapseSpaces false
        (blankPunctuation
           (stripDashSuffix
              (stripTrailingDigits
                 (removeCompanyTypes false 0
                    (stripLeadingNumber
                       (stripFirstPrefix PAYMENT_PREFIXES
                          (list_ascii_of_string merchantName))))))) in
    string_of_list_ascii (trim cleaned).

(** [arr.some(f)] for a callback that may throw *)
Fixpoint someM {A : Type} (f : A -> result bool) (l : list A) : result bool :=
  match l with
  | [] => Ok false
  | x :: rest => b ← f x; if b : bool then Ok true else someM f rest
  end.

(** [a === s] for a string [s] *)
Definition strictEqStr (a : value) (s : string) : bool :=
  match a with
  | VStr a => (a =? s)%string
  | _ => false
  end.

(** [a === n] for a number [n] *)
Definition strictEqNum (a : value) (n : Q) : bool :=
  match a with
  | VNum a => Qeq_bool a n
  | _ => false
  end.

(** [Array.isArray(v) ? v : [v]] *)
Definition asArray (v : value) : list value :=
  match v with
  | VArr items => items
  | _ => [v]
  end.

(** [Object.entries(v)] *)
Definition objectEntries (v : value) : list (string * value) :=
  match v with
  | VObj fields => fields
  | VArr items => arrayEntries items
  | VStr s => arrayEntries (map (fun c => VStr (String c "")) (list_ascii_of_string s))
  | _ => []
  end.

(** Outcome of one block of [evaluateCardRule]: an early [return], or
    falling through with the updated [isMatch]. *)
Inductive flow : Type :=
| Return (b : bool)
| Continue (isMatch : bool).

Definition andThen (m : result flow) (k : bool -> result flow) : result flow :=
  fl ← m;
  match fl with
  | Return b => Ok (Return b)
  | Continue isMatch => k isMatch
  end.

(** The three lines that close every block of [evaluateCardRule]. *)
Definition combine (logicalOperator : value) (isMatch blockMatch : bool) : flow :=
  if strictEqStr logicalOperator "or" && blockMatch then Return true
  else if strictEqStr logicalOperator "and" && negb blockMatch then Return false
  else Continue (isMatch || blockMatch).

(** [a === b] on optional strings ([None] is [undefined]) *)
Definition strictEqOpt (a b : option string) : bool :=
  match a, b with
  | Some a, Some b => (a =? b)%string
  | None, None => true
  | _, _ => false
  end.

(** [new Set(...)], element by element, in insertion order *)
Definition setAdd (set : list string) (x : string) : list string :=
  if existsb (String.eqb x) set then set else set ++ [x].

(** [counts[key] = (counts[key] || 0) + 1] on an object keyed by strings *)
Fixpoint increment (key : string) (counts : list (string * nat))
  : list (string * nat) :=
  match counts with
  | [] => [(key, 1%nat)]
  | (k, n) :: rest =>
      if (k =? key)%string then (k, S n) :: rest else (k, n) :: increment key rest
  end.

(** The same on an object keyed by hours: integer keys are kept in
    ascending order. *)
Fixpoint incrementHour (hour : Z) (counts : list (Z * nat)) : list (Z * nat) :=
  match counts with
  | [] => [(hour, 1%nat)]
  | (h, n) :: rest =>
      if (h =? hour)%Z then (h, S n) :: rest
      else if (hour <? h)%Z then (hour, 1%nat) :: (h, n) :: rest
      else (h, n) :: incrementHour hour rest
  end.

(** [counts[hour] || 0] *)
Fixpoint lookupHour (hour : Z) (counts : list (Z * nat)) : nat :=
  match counts with
  | [] => 0
  | (h, n) :: rest => if (h =? hour)%Z then n else lookupHour hour rest
  end.

(** *** Similarity scores *)

Section WithEnv.
Context (env : Env).
#[local] Open Scope Q_scope.

Definition getLevenshteinSimilarity (s1 s2 : string) : Q :=
  let distance := LevenshteinDistance env (toLowerCase s1) (toLowerCase s2) in
  let maxLength := Nat.max (String.length s1) (String.length s2) in
  if (0 <? maxLength)%nat
  then 1 - inject_Z (Z.of_nat distance) / inject_Z (Z.of_nat maxLength)
  else 1.

Definition getJaroWinklerSimilarity (s1 s2 : string) : Q :=
  compareTwoStrings env (toLowerCase s1) (toLowerCase s2).

Definition getPhoneticSimilarity (s1 s2 : string) : Q :=
  let s1Phonetic := metaphoneProcess env s1 in
  let s2Phonetic := metaphoneProcess env s2 in
  let phoneticDistance := LevenshteinDistance env s1Phonetic s2Phonetic in
  let maxLength := Nat.max (String.length s1Phonetic) (String.length s2Phonetic) in
  if (0 <? maxLength)%nat
  then 1 - inject_Z (Z.of_nat phoneticDistance) / inject_Z (Z.of_nat maxLength)
  else 1.

Definition computeConfidenceScore (actual : string) (expected : value) : result Q :=
  if (actual =? "")%string || negb (truthy expected) then Ok 0
  else
    let cleanActual := cleanMerchantName actual in
    match expected with
    | VStr expected =>
        let cleanExpected := cleanMerchantName expected in
        if (String.length cleanActual <? 3)%nat || (String.length cleanExpected <? 3)%nat
        then Ok (if (cleanActual =? cleanExpected)%string then 1 else 0)
        else
          let levenshteinSimilarity := getLevenshteinSimilarity cleanActual cleanExpected in
          let jaroWinklerSimilarity := getJaroWinklerSimilarity cleanActual cleanExpected in
          let phoneticSimilarity := getPhoneticSimilarity cleanActual cleanExpected in
          let confidenceScore :=
            levenshteinSimilarity * levenshtein DEFAULT_WEIGHTS
            + jaroWinklerSimilarity * jaroWinkler DEFAULT_WEIGHTS
            + phoneticSimilarity * phonetic DEFAULT_WEIGHTS in
          Ok confidenceScore
    | _ => Throw (TypeError "merchantName.replace is not a function")
    end.

Definition smartStringMatch (actual : option string) (expected : value) : result bool :=
  match actual with
  | Some a =>
      if (a =? "")%string then Ok false
      else
        confidenceScore ← computeConfidenceScore a expected;
        Ok (Qle_bool CONFIDENCE_THRESHOLD confidenceScore)
  | None => Ok false
  end.

(** *** Conditions *)

(** Numeric value of the right operand of a relational comparison
    ([None] is NaN); a plain object converts to NaN, strings and arrays
    go through the language's numeral parser. *)
Definition toNumber (v : value) : option Q :=
  match v with
  | VNum q => Some q
  | VNull => Some 0
  | VBool b => Some (if b then 1 else 0)
  | VObj _ => None
  | VStr _ | VArr _ => ToNumber env v
  end.

(** [x > v], [x < v], [x >= v], [x <= v] for a number [x] *)
Definition jsGt (x : Q) (v : value) : bool :=
  match toNumber v with Some q => Qltb q x | None => false end.
Definition jsLt (x : Q) (v : value) : bool :=
  match toNumber v with Some q => Qltb x q | None => false end.
Definition jsGe (x : Q) (v : value) : bool :=
  match toNumber v with Some q => Qle_bool q x | None => false end.
Definition jsLe (x : Q) (v : value) : bool :=
  match toNumber v with Some q => Qle_bool x q | None => false end.

Definition evaluateCondition (conditionType : string) (conditionValue : value)
    (transactionData : TxData.t) (originalTransaction : Transaction.t)
  : result bool :=
  if (conditionType =? "amount_greater_than")%string then
    Ok (jsGt (TxData.amount transactionData) conditionValue)
  else if (conditionType =? "amount_less_than")%string then
    Ok (jsLt (TxData.amount transactionData) conditionValue)
  else if (conditionType =? "currency_equals")%string then
    Ok (strictEqStr conditionValue (TxData.currency transactionData))
  else if (conditionType =? "merchant_name_equals")%string then
    if negb (TxData.isEnriched transactionData)
    then smartStringMatch (TxData.merchantName transactionData) conditionValue
    else stringMatch (TxData.merchantName transactionData) conditionValue
  else if (conditionType =? "merchant_name_contains")%string then
    if negb (TxData.isEnriched transactionData) then
      confidenceScore ←
        computeConfidenceScore
          (match orElse (TxData.merchantName transactionData) (Some "") with
           | Some name => name
           | None => ""
           end)
          conditionValue;
      Ok (Qle_bool (CONFIDENCE_THRESHOLD * 0.8) confidenceScore)
    else stringContains (TxData.merchantName transactionData) conditionValue
  else if (conditionType =? "merchant_category_equals")%string then
    stringMatch (TxData.merchantCategory transactionData) conditionValue
  else if (conditionType =? "merchant_category_code_equals")%string then
    stringMatch (TxData.merchantCategoryCode transactionData) conditionValue
  else if (conditionType =? "country_code_equals")%string then
    stringMatch (TxData.countryCode transactionData) conditionValue
  else if (conditionType =? "country_code_in")%string then
    match conditionValue with
    | VArr codes =>
        someM (fun code => stringMatch (TxData.countryCode transactionData) code) codes
    | _ => Ok false
    end
  else if (conditionType =? "day_of_week_equals")%string then
    Ok (strictEqNum conditionValue (inject_Z (TxData.dayOfWeek transactionData)))
  else if (conditionType =? "day_of_week_in")%string then
    match conditionValue with
    | VArr days =>
        Ok (existsb
              (fun d => strictEqNum d (inject_Z (TxData.dayOfWeek transactionData)))
              days)
    | _ => Ok false
    end
  else if (conditionType =? "hour_of_day_between")%string then
    match conditionValue with
    | VArr [lo; hi] =>
        Ok (jsGe (inject_Z (TxData.hourOfDay transactionData)) lo
            && jsLe (inject_Z (TxData.hourOfDay transactionData)) hi)
    | _ => Ok false
    end
  else (* default: unknown condition type *)
    Ok false.

(** *** Card rules *)

Definition evaluateCardRule (cardConditions : value) (transactionData : TxData.t)
  : result bool :=
  let isMatch := false in
  let logicalOperator :=
    match getProp cardConditions "operator" with
    | Some op => if truthy op then op else VStr "or"
    | None => VStr "or"
    end in
  fl ←
    andThen
      (* card brand *)
      (match getProp cardConditions "brands", TxData.cardBrand transactionData with
       | Some brandsValue, Some cardBrand =>
           if truthy brandsValue && negb (cardBrand =? "")%string then
             let brands := asArray brandsValue in
             brandMatch ←
               someM (fun brand =>
                        match brand with
                        | VStr b => Ok (toLowerCase b =? toLowerCase cardBrand)%string
                        | _ => Throw (TypeError "brand.toLowerCase is not a function")
                        end) brands;
             Ok (combine logicalOperator isMatch brandMatch)
           else Ok (Continue isMatch)
       | _, _ => Ok (Continue isMatch)
       end)
      (fun isMatch =>
    andThen
      (* high-risk tokens *)
      (match getProp cardConditions "highRiskTokens",
             TxData.paymentToken transactionData with
       | Some tokensValue, Some paymentToken =>
           if truthy tokensValue && negb (paymentToken =? "")%string then
             let tokens := asArray tokensValue in
             let tokenMatch := existsb (fun t => strictEqStr t paymentToken) tokens in
             Ok (combine logicalOperator isMatch tokenMatch)
           else Ok (Continue isMatch)
       | _, _ => Ok (Continue isMatch)
       end)
      (fun isMatch =>
    andThen
      (* card expiry *)
      (match TxData.cardExpiryMonth transactionData,
             TxData.cardExpiryYear transactionData with
       | Some expiryMonth, Some expiryYear =>
           if truthyProp (getProp cardConditions "requireValidExpiry")
              && negb (expiryMonth =? 0)%Z && negb (expiryYear =? 0)%Z then
             let currentYear := getFullYear (currentDate env) in
             let currentMonth := (getMonth (currentDate env) + 1)%Z in
             let isExpired :=
               (expiryYear <? currentYear)%Z
               || ((expiryYear =? currentYear)%Z && (expiryMonth <? currentMonth)%Z) in
             let expiryValid := negb isExpired in
             Ok (combine logicalOperator isMatch expiryValid)
           else Ok (Continue isMatch)
       | _, _ => Ok (Continue isMatch)
       end)
      (fun isMatch =>
      (* fingerprint frequency *)
      if truthyProp (getProp cardConditions "fingerprintFrequency")
         && truthyStr (TxData.cardFingerprint transactionData) then
        let passesFrequencyCheck := true in
        Ok (combine logicalOperator isMatch passesFrequencyCheck)
      else Ok (Continue isMatch))));
  match fl with
  | Return b => Ok b
  | Continue isMatch => Ok isMatch
  end.

(** *** Rules *)

(** The [for ... of Object.entries(rule.conditions)] loop of [evaluateRule];
    [Ok false] is its early [return false]. *)
Fixpoint evaluateConditions (entries : list (string * value))
    (txData : TxData.t) (transaction : Transaction.t) : result bool :=
  match entries with
  | [] => Ok true
  | (conditionType, conditionValue) :: rest =>
      matchResult ← evaluateCondition conditionType conditionValue txData transaction;
      if negb matchResult then Ok false
      else evaluateConditions rest txData transaction
  end.

Definition evaluateRule (transaction : Transaction.t) (rule : Rule.t) : result bool :=
  if negb (truthy (Rule.conditions rule))
     || (length (objectEntries (Rule.conditions rule)) =? 0)%nat
  then Ok false
  else
    let txData := prepareTransactionData transaction in
    allMatched ← evaluateConditions (objectEntries (Rule.conditions rule)) txData transaction;
    if negb allMatched then Ok false
    else
      match TxData.paymentMethod txData, getProp (Rule.conditions rule) "card" with
      | Some paymentMethod, Some card =>
          if (paymentMethod =? "card")%string && truthy card then
            cardMatch ← evaluateCardRule card txData;
            if cardMatch : bool then Ok true else Ok true
          else Ok true
      | _, _ => Ok true
      end.

(** *** Behavioural anomaly checks *)

Definition Qnat (n : nat) : Q := inject_Z (Z.of_nat n).

Definition behavioralResult (ruleId ruleName : string)
    (conditions : list (string * value)) : RuleResult.t :=
  {| RuleResult.ruleId := ruleId;
     RuleResult.ruleName := ruleName;
     RuleResult.action := REVIEW;
     RuleResult.matched := true;
     RuleResult.conditions := VObj conditions |}.

Definition getAccountTransactionHistory (repo : TransactionRepository)
    (accountId : string) (limit : nat) : result (list Transaction.t) :=
  find repo accountId limit.

Definition detectNewPaymentMethod (transaction : Transaction.t)
    (history : list Transaction.t) : result (option RuleResult.t) :=
  if negb (truthyStr (Transaction.paymentToken transaction))
     && negb (truthyStr (Transaction.cardFingerprint transaction))
  then Ok None
  else
    let isNewCard :=
      negb (existsb
              (fun tx =>
                 (truthyStr (Transaction.cardFingerprint transaction)
                  && strictEqOpt (Transaction.cardFingerprint tx)
                                 (Transaction.cardFingerprint transaction))
                 || (truthyStr (Transaction.paymentToken transaction)
                     && strictEqOpt (Transaction.paymentToken tx)
                                    (Transaction.paymentToken transaction)))
              history) in
    if isNewCard then
      let hasCardHistory :=
        existsb (fun tx => strictEqOpt (Transaction.paymentMethod tx) (Some "card"))
                history in
      if hasCardHistory then
        Ok (Some (behavioralResult "behavioral_new_card" "New Payment Method Detection"
                    [("isNewCard", VBool true); ("hasCardHistory", VBool true)]))
      else Ok None
    else Ok None.

Definition detectAmountAnomaly (transaction : Transaction.t)
    (history : list Transaction.t) : result (option RuleResult.t) :=
  if (length history <? 3)%nat then Ok None
  else
    let amounts := map Transaction.amount history in
    let average := fold_left Qplus amounts 0 / Qnat (length amounts) in
    let squareDiffs :=
      map (fun amount => let diff := amount - average in diff * diff) amounts in
    let avgSquareDiff := fold_left Qplus squareDiffs 0 / Qnat (length squareDiffs) in
    let stdDev := Math_sqrt env avgSquareDiff in
    let zScore :=
      (Transaction.amount transaction - average)
      / (if Qeq_bool stdDev 0 then 1 else stdDev) in
    if Qltb 3 zScore then
      Ok (Some (behavioralResult "behavioral_amount_anomaly" "Transaction Amount Anomaly"
                  [("zScore", VNum zScore); ("average", VNum average);
                   ("stdDev", VNum stdDev);
                   ("transactionAmount", VNum (Transaction.amount transaction))]))
    else Ok None.

Definition detectMerchantCategoryAnomaly (transaction : Transaction.t)
    (history : list Transaction.t) : result (option RuleResult.t) :=
  match Transaction.merchantCategoryCode transaction with
  | Some merchantCategoryCode =>
      if (merchantCategoryCode =? "")%string || (length history <? 5)%nat then Ok None
      else
        let usedCategories :=
          fold_left setAdd
            (flat_map (fun tx =>
                         match Transaction.merchantCategoryCode tx with
                         | Some code => if (code =? "")%string then [] else [code]
                         | None => []
                         end) history)
            [] in
        if negb (existsb (String.eqb merchantCategoryCode) usedCategories) then
          Ok (Some (behavioralResult "behavioral_new_merchant_category"
                      "New Merchant Category"
                      [("newCategory", VStr merchantCategoryCode);
                       ("usedCategories", VArr (map VStr usedCategories))]))
        else Ok None
  | None => Ok None
  end.

Definition detectLocationAnomaly (transaction : Transaction.t)
    (history : list Transaction.t) (account : Account.t)
  : result (option RuleResult.t) :=
  match Transaction.countryCode transaction with
  | Some countryCode =>
      if (countryCode =? "")%string then Ok None
      else
        let usualCountries : list string :=
          match Account.metadata account with
          | Some metadata =>
              match getProp metadata "usualCountries" with
              | Some stored =>
                  if truthy stored then try_or (JSON_parse env stored) [] else []
              | None => []
              end
          | None => []
          end in
        let usualCountries :=
          if (length usualCountries =? 0)%nat && (0 <? length history)%nat then
            let countryCounts :=
              fold_left (fun counts code => increment code counts)
                (flat_map (fun tx =>
                             match Transaction.countryCode tx with
                             | Some code => if (code =? "")%string then [] else [code]
                             | None => []
                             end) history)
                [] in
            let minCount := Z.max 1 (Qceiling (Qnat (length history) * 0.1)) in
            map fst
              (filter (fun entry => (minCount <=? Z.of_nat (snd entry))%Z) countryCounts)
          else usualCountries in
        if (0 <? length usualCountries)%nat
           && negb (existsb (String.eqb countryCode) usualCountries) then
          Ok (Some (behavioralResult "behavioral_unusual_country"
                      "Unusual Transaction Location"
                      [("transactionCountry", VStr countryCode);
                       ("usualCountries", VArr (map VStr usualCountries))]))
        else Ok None
  | None => Ok None
  end.

Definition detectTimePatternAnomaly (transaction : Transaction.t)
    (history : list Transaction.t) : result (option RuleResult.t) :=
  if (length history <? 10)%nat then Ok None
  else
    let txHour := getHours (Transaction.createdAt transaction) in
    let hourCounts :=
      fold_left
        (fun counts tx => incrementHour (getHours (Transaction.createdAt tx)) counts)
        history [] in
    let totalTx := length history in
    let currentHourCount := lookupHour txHour hourCounts in
    let hourPercentage := Qnat currentHourCount / Qnat totalTx * 100 in
    if Qltb hourPercentage 5 then
      Ok (Some (behavioralResult "behavioral_unusual_time" "Unusual Transaction Time"
                  [("transactionHour", VNum (inject_Z txHour));
                   ("hourPercentage", VNum hourPercentage);
                   ("hourCounts",
                    VObj (map (fun entry =>
                                 (indexKey (Z.to_nat (fst entry)),
                                  VNum (Qnat (snd entry))))
                              hourCounts))]))
    else Ok None.

Definition detectVelocityAnomaly (repo : TransactionRepository)
    (transaction : Transaction.t) : result (option RuleResult.t) :=
  cardResult ←
    match Transaction.cardFingerprint transaction with
    | Some cardFingerprint =>
        if (cardFingerprint =? "")%string then Ok None
        else
          let cardVelocityWindow := 30%Z in
          let cardVelocityThreshold := 3%nat in
          cardTxCount ← countByCardSince repo cardFingerprint cardVelocityWindow;
          if (cardVelocityThreshold <=? cardTxCount)%nat then
            Ok (Some (behavioralResult "velocity_card" "Card Velocity Check"
                        [("cardFingerprint", VStr cardFingerprint);
                         ("timeWindowMinutes", VNum (inject_Z cardVelocityWindow));
                         ("threshold", VNum (Qnat cardVelocityThreshold));
                         ("count", VNum (Qnat cardTxCount))]))
          else Ok None
    | None => Ok None
    end;
  match cardResult with
  | Some r => Ok (Some r)
  | None =>
      let accountVelocityWindow := 60%Z in
      let accountVelocityThreshold := 5%nat in
      accountTxCount ←
        countByAccountSince repo (Transaction.accountId transaction)
                            accountVelocityWindow;
      if (accountVelocityThreshold <=? accountTxCount)%nat then
        Ok (Some (behavioralResult "velocity_account" "Account Velocity Check"
                    [("accountId", VStr (Transaction.accountId transaction));
                     ("timeWindowMinutes", VNum (inject_Z accountVelocityWindow));
                     ("threshold", VNum (Qnat accountVelocityThreshold));
                     ("count", VNum (Qnat accountTxCount))]))
      else Ok None
  end.

(** [if (r) results.push(r)] *)
Definition pushIf (results : list RuleResult.t) (r : option RuleResult.t)
  : list RuleResult.t :=
  match r with
  | Some r => results ++ [r]
  | None => results
  end.

Definition evaluateBehavioralPatterns (repo : TransactionRepository)
    (transaction : Transaction.t) (account : Account.t)
  : result (list RuleResult.t) :=
  let results : list RuleResult.t := [] in
  try_catch
    (txHistory ← getAccountTransactionHistory repo (Account.id account) 50;
     cardResult ← detectNewPaymentMethod transaction txHistory;
     let results := pushIf results cardResult in
     amountResult ← detectAmountAnomaly transaction txHistory;
     let results := pushIf results amountResult in
     categoryResult ← detectMerchantCategoryAnomaly transaction txHistory;
     let results := pushIf results categoryResult in
     locationResult ← detectLocationAnomaly transaction txHistory account;
     let results := pushIf results locationResult in
     timeResult ← detectTimePatternAnomaly transaction txHistory;
     let results := pushIf results timeResult in
     velocityResult ← detectVelocityAnomaly repo transaction;
     let results := pushIf results velocityResult in
     Ok results)
    (fun error => Ok []).

End WithEnv.

(** [[...arr].sort(compareFn)]: the sort is stable, so for a comparator
    that orders by a key the result is the arrangement built here, where an
    element is inserted in front of the elements it does not exceed. *)
Section Sort.
Context {A : Type} (compareFn : A -> A -> Z).

Fixpoint insertSorted (x : A) (l : list A) : list A :=
  match l with
  | [] => [x]
  | y :: rest =>
      if (compareFn x y <=? 0)%Z then x :: y :: rest
      else y :: insertSorted x rest
  end.

Definition sort (l : list A) : list A := fold_right insertSorted [] l.

End Sort.

Definition comparePriority (a b : Rule.t) : Z :=
  (Rule.priority a - Rule.priority b)%Z.

Definition ruleResult (rule : Rule.t) (matched : bool) : RuleResult.t :=
  {| RuleResult.ruleId := Rule.id rule;
     RuleResult.ruleName := Rule.name rule;
     RuleResult.action := Rule.action rule;
     RuleResult.matched := matched;
     RuleResult.conditions := Rule.conditions rule |}.

Definition evaluateRules (env : Env) (transaction : Transaction.t)
    (rules : list Rule.t) : result (list RuleResult.t) :=
  let sortedRules := sort comparePriority rules in
  let results :=
    fold_left
      (fun results rule =>
         try_or
           (matched ← evaluateRule env transaction rule;
            Ok (results ++ [ruleResult rule matched]))
           (results ++ [ruleResult rule false]))
      sortedRules [] in
  Ok results.

End RuleEngineService.

(** ** EnrichmentService *)

Module EnrichmentService.

Import RuleEngineService.

Record EnrichedData : Type := {
  merchantName : string;
  merchantCategory : string;
  merchantCategoryCode : string;
  location : string;
  countryCode : string;
  isHighRisk : bool;
  confidence : Q;
  enrichmentSource : string
}.

Definition merchantCategoryMap : list (string * string) :=
  [("5411", "Grocery Stores"); ("5812", "Restaurants");
   ("5814", "Fast Food Restaurants"); ("5912", "Drug Stores");
   ("5942", "Book Stores"); ("7011", "Hotels and Lodging");
   ("7512", "Car Rental"); ("4121", "Taxi/Limousines");
   ("5999", "Miscellaneous Retail"); ("7299", "Miscellaneous Services");
   ("7995", "Gambling"); ("6011", "ATM"); ("4829", "Money Transfer");
   ("4900", "Utilities")].

Definition highRiskCategories : list string := ["7995"; "6011"; "4829"].

(** The members that the map object inherits: indexing the map with one
    of these names gives a value that is not a string. *)
Definition INHERITED_MEMBERS : list string :=
  ["constructor"; "__proto__"; "hasOwnProperty"; "isPrototypeOf";
   "propertyIsEnumerable"; "toLocaleString"; "toString"; "valueOf";
   "__defineGetter__"; "__defineSetter__"; "__lookupGetter__";
   "__lookupSetter__"].

Fixpoint lookupCategory (code : string) (map : list (string * string))
  : option string :=
  match map with
  | [] => None
  | (k, category) :: rest =>
      if (k =? code)%string then Some category else lookupCategory code rest
  end.

(** [/^sq\*|^sq |^SQ\*|^SQ /] and [/^paypal\*|^PAYPAL\*/]: the first
    alternative that stands at the start is removed; case matters. *)
Definition SQUARE_PREFIXES : list string := ["sq*"; "sq "; "SQ*"; "SQ "].
Definition PAYPAL_PREFIXES : list string := ["paypal*"; "PAYPAL*"].

Fixpoint stripPrefix (prefixes : list string) (s : list ascii) : list ascii :=
  match prefixes with
  | [] => s
  | p :: rest =>
      if startsWith (list_ascii_of_string p) s then skipn (String.length p) s
      else stripPrefix rest s
  end.

(** [/\bINC\b|\bLLC\b|\bLTD\b|\bCORP\b/i]: the first occurrence only *)
Definition COMPANY_TYPES : list string := ["inc"; "llc"; "ltd"; "corp"].

Fixpoint removeFirstCompanyType (prevIsWord : bool) (s : list ascii)
  : list ascii :=
  match s with
  | [] => []
  | c :: rest =>
      if prevIsWord then c :: removeFirstCompanyType (isWord c) rest
      else match companyTypeAt COMPANY_TYPES s with
           | Some n => skipn n s
           | None => c :: removeFirstCompanyType (isWord c) rest
           end
  end.

Definition upperChar (c : ascii) : ascii :=
  if isLower c then ascii_of_nat (nat_of_ascii c - 32) else c.

(** [word.charAt(0).toUpperCase() + word.slice(1)] *)
Definition capitalize (word : string) : string :=
  match word with
  | EmptyString => EmptyString
  | String c rest => String (upperChar c) rest
  end.

Definition cleanMerchantName (merchantName : string) : string :=
  if (merchantName =? "")%string then "Unknown"
  else
    let cleaned :=
      stripDashSuffix
        (stripTrailingDigits
           (removeFirstCompanyType false
              (stripPrefix PAYPAL_PREFIXES
                 (stripPrefix SQUARE_PREFIXES
                    (list_ascii_of_string merchantName))))) in
    let cleaned := string_of_list_ascii (collapseSpaces false (trim cleaned)) in
    String.concat " " (map capitalize (split " " (toLowerCase cleaned))).

(** [None]: the category code names a member that the map object
    inherits, so that [merchantCategory] is not a string.  For a merchant
    name that is a string nothing in the [try] block throws. *)
Definition enrichTransactionData (transaction : Transaction.t)
  : option EnrichedData :=
  let rawMerchantName := Transaction.merchantName transaction in
  let rawMerchantCategoryCode :=
    match Transaction.merchantCategoryCode transaction with
    | Some code => code
    | None => ""
    end in
  if existsb (String.eqb rawMerchantCategoryCode) INHERITED_MEMBERS then None
  else
    let cleanMerchantName := cleanMerchantName rawMerchantName in
    let merchantCategory :=
      match lookupCategory rawMerchantCategoryCode merchantCategoryMap with
      | Some category => if (category =? "")%string then "Unknown" else category
      | None => "Unknown"
      end in
    let isHighRisk := existsb (String.eqb rawMerchantCategoryCode) highRiskCategories in
    Some {| merchantName := cleanMerchantName;
            merchantCategory := merchantCategory;
            merchantCategoryCode := rawMerchantCategoryCode;
            location :=
              match Transaction.location transaction with
              | Some location => if (location =? "")%string then "Unknown" else location
              | None => "Unknown"
              end;
            countryCode :=
              match Transaction.countryCode transaction with
              | Some countryCode =>
                  if (countryCode =? "")%string then "US" else countryCode
              | None => "US"
              end;
            isHighRisk := isHighRisk;
            confidence := 0.95;
            enrichmentSource := "internal-db" |}.

(** The enriched data as the rule engine reads it from the transaction. *)
Definition stored (enrichedData : EnrichedData) : EnrichedData.t :=
  {| EnrichedData.merchantName := Some (merchantName enrichedData);
     EnrichedData.merchantId := None;
     EnrichedData.merchantCategory := Some (merchantCategory enrichedData);
     EnrichedData.merchantCategoryCode := Some (merchantCategoryCode enrichedData);
     EnrichedData.location := Some (location enrichedData);
     EnrichedData.countryCode := Some (countryCode enrichedData) |}.

End EnrichmentService.

(** ** BankingService *)

Module BankingService.

(** The calls of [transferFunds] that reach the database; [faults] tells
    which of them raise.  Rolling back and releasing the runner are taken
    not to raise. *)
Inductive DbOp : Type :=
| Connect | StartTransaction | FindSource | FindDest | SaveSource | SaveDest | Commit.

(** The query runner: the committed table of accounts, keyed by primary
    key, and the table as seen inside the open transaction. *)
Record QueryRunner : Type := {
  database : gmap string Account.t;
  pending : gmap string Account.t;
  isTransactionActive : bool
}.

(** Computations on the query runner that may throw. *)
Definition M (A : Type) : Type := QueryRunner -> result A * QueryRunner.

Definition retM {A : Type} (a : A) : M A := fun qr => (Ok a, qr).

Definition bindM {A B : Type} (m : M A) (k : A -> M B) : M B :=
  fun qr =>
    match m qr with
    | (Ok a, qr') => k a qr'
    | (Throw e, qr') => (Throw e, qr')
    end.

Definition tryCatchM {A : Type} (body : M A) (handler : exn -> M A) : M A :=
  fun qr =>
    match body qr with
    | (Ok a, qr') => (Ok a, qr')
    | (Throw e, qr') => handler e qr'
    end.

Definition getsM {A : Type} (f : QueryRunner -> A) : M A :=
  fun qr => (Ok (f qr), qr).

Definition modifyM (f : QueryRunner -> QueryRunner) : M unit :=
  fun qr => (Ok tt, f qr).

#[global] Instance M_bind : MBind M := fun A B k m => bindM m k.
#[global] Instance M_ret : MRet M := @retM.
#[global] Typeclasses Opaque M.

Section WithFaults.
Context (faults : DbOp -> bool).

Definition attempt (op : DbOp) : M unit :=
  fun qr =>
    if faults op then (Throw (Error "database error"), qr) else (Ok tt, qr).

Definition connect : M unit := attempt Connect.

Definition startTransaction : M unit :=
  _ ← attempt StartTransaction;
  modifyM (fun qr =>
             {| database := database qr;
                pending := database qr;
                isTransactionActive := true |}).

(** [manager.findOne(Account, { where: { id }, lock })] *)
Definition findOne (op : DbOp) (id : string) : M (option Account.t) :=
  _ ← attempt op;
  getsM (fun qr => pending qr !! id).

(** [manager.save(account)]: the row is written under its primary key. *)
Definition save (op : DbOp) (account : Account.t) : M unit :=
  _ ← attempt op;
  modifyM (fun qr =>
             {| database := database qr;
                pending := <[Account.id account := account]> (pending qr);
                isTransactionActive := isTransactionActive qr |}).

Definition commitTransaction : M unit :=
  _ ← attempt Commit;
  modifyM (fun qr =>
             {| database := pending qr;
                pending := pending qr;
                isTransactionActive := false |}).

Definition rollbackTransaction : M unit :=
  modifyM (fun qr =>
             {| database := database qr;
                pending := database qr;
                isTransactionActive := false |}).

Definition withBalance (account : Account.t) (balance : Q) : Account.t :=
  {| Account.id := Account.id account;
     Account.accountNumber := Account.accountNumber account;
     Account.balance := balance;
     Account.currency := Account.currency account;
     Account.status := Account.status account;
     Account.isSweepEnabled := Account.isSweepEnabled account;
     Account.sweepAccountId := Account.sweepAccountId account;
     Account.metadata := Account.metadata account |}.

Definition transferFundsM (fromAccountId toAccountId : string) (amount : Q) : M bool :=
  tryCatchM
    (_ ← connect;
     _ ← startTransaction;
     sourceAccount ← findOne FindSource fromAccountId;
     match sourceAccount with
     | None => _ ← rollbackTransaction; mret false
     | Some sourceAccount =>
         if RuleEngineService.Qltb (Account.balance sourceAccount) amount then
           _ ← rollbackTransaction; mret false
         else
           destAccount ← findOne FindDest toAccountId;
           match destAccount with
           | None => _ ← rollbackTransaction; mret false
           | Some destAccount =>
               let sourceAccount :=
                 withBalance sourceAccount (Account.balance sourceAccount - amount) in
               let destAccount :=
                 withBalance destAccount (Account.balance destAccount + amount) in
               _ ← save SaveSource sourceAccount;
               _ ← save SaveDest destAccount;
               _ ← commitTransaction;
               mret true
           end
     end)
    (fun error =>
       active ← getsM isTransactionActive;
       _ ← (if active : bool then rollbackTransaction else mret tt);
       mret false).

(** [transferFunds] on a database: the answer and the database afterwards. *)
Definition transferFunds (fromAccountId toAccountId : string) (amount : Q)
    (db : gmap string Account.t) : bool * gmap string Account.t :=
  let queryRunner :=
    {| database := db; pending := db; isTransactionActive := false |} in
  match transferFundsM fromAccountId toAccountId amount queryRunner with
  | (Ok answer, queryRunner) => (answer, database queryRunner)
  | (Throw _, queryRunner) => (false, database queryRunner)
  end.

End WithFaults.

(** [accountRepository.findOne({ where: { id } })], outside any unit of
    work; [fails] tells whether the call raises. *)
Definition repositoryFindOne (fails : bool) (db : gmap string Account.t)
    (id : string) : result (option Account.t) :=
  if fails then Throw (Error "database error") else Ok (db !! id).

(** [None] is [null]. *)
Definition getAccountBalance (fails : bool) (db : gmap string Account.t)
    (accountId : string) : option Q :=
  try_or
    (account ← repositoryFindOne fails db accountId;
     match account with
     | None => Ok None
     | Some account => Ok (Some (Account.balance account))
     end)
    None.

(** [account?.status === 'active'] *)
Definition isAccountActive (fails : bool) (db : gmap string Account.t)
    (accountId : string) : bool :=
  try_or
    (account ← repositoryFindOne fails db accountId;
     Ok (match account with
         | Some account => (Account.status account =? "active")%string
         | None => false
         end))
    false.

End BankingService.

(** ** AuthorizationService *)

Module AuthorizationService.

Import DataSecurityService RuleEngineService.

Inductive TransactionStatus : Type := PENDING | APPROVED | DECLINED | FAILED.

Module AuthorizationRequest.
Record t : Type := {
  transactionId : string;
  accountId : string;
  amount : Q;
  currency : string;
  merchantName : string;
  merchantId : option string;
  merchantCategoryCode : option string;
  location : option string;
  countryCode : option string;
  paymentToken : option string;
  paymentMethod : option string;
  cardBrand : option string;
  cardLast4 : option string;
  cardExpiryMonth : option Z;
  cardExpiryYear : option Z;
  cardFingerprint : option string;
  cardNumber : option string;
  cvv : option string;
  metadata : option value
}.

(** [request.accountId = accountId] *)
Definition setAccountId (request : t) (accountId : string) : t :=
  {| transactionId := transactionId request;
     accountId := accountId;
     amount := amount request;
     currency := currency request;
     merchantName := merchantName request;
     merchantId := merchantId request;
     merchantCategoryCode := merchantCategoryCode request;
     location := location request;
     countryCode := countryCode request;
     paymentToken := paymentToken request;
     paymentMethod := paymentMethod request;
     cardBrand := cardBrand request;
     cardLast4 := cardLast4 request;
     cardExpiryMonth := cardExpiryMonth request;
     cardExpiryYear := cardExpiryYear request;
     cardFingerprint := cardFingerprint request;
     cardNumber := cardNumber request;
     cvv := cvv request;
     metadata := metadata request |}.

(** The request with its card data replaced: the assignments to
    [paymentToken], [cardLast4] and [cardFingerprint] and the two [delete]s
    of [createTransaction] are instances. *)
Definition setCard (request : t)
    (paymentToken cardLast4 cardFingerprint cardNumber cvv : option string) : t :=
  {| transactionId := transactionId request;
     accountId := accountId request;
     amount := amount request;
     currency := currency request;
     merchantName := merchantName request;
     merchantId := merchantId request;
     merchantCategoryCode := merchantCategoryCode request;
     location := location request;
     countryCode := countryCode request;
     paymentToken := paymentToken;
     paymentMethod := paymentMethod request;
     cardBrand := cardBrand request;
     cardLast4 := cardLast4;
     cardExpiryMonth := cardExpiryMonth request;
     cardExpiryYear := cardExpiryYear request;
     cardFingerprint := cardFingerprint;
     cardNumber := cardNumber;
     cvv := cvv;
     metadata := metadata request |}.

Definition setPaymentToken (paymentToken : string) (request : t) : t :=
  setCard request (Some paymentToken) (cardLast4 request) (cardFingerprint request)
    (cardNumber request) (cvv request).

Definition setCardLast4 (cardLast4 : string) (request : t) : t :=
  setCard request (paymentToken request) (Some cardLast4) (cardFingerprint request)
    (cardNumber request) (cvv request).

Definition setCardFingerprint (cardFingerprint : string) (request : t) : t :=
  setCard request (paymentToken request) (cardLast4 request) (Some cardFingerprint)
    (cardNumber request) (cvv request).

Definition deleteCardNumber (request : t) : t :=
  setCard request (paymentToken request) (cardLast4 request) (cardFingerprint request)
    None (cvv request).

Definition deleteCvv (request : t) : t :=
  setCard request (paymentToken request) (cardLast4 request) (cardFingerprint request)
    (cardNumber request) None.
End AuthorizationRequest.

Inductive Decision : Type := approve | decline.

Module AuthorizationResponse.
Record t : Type := {
  decision : Decision;
  transactionId : string;
  accountId : string;
  reasonCode : option string
}.
End AuthorizationResponse.

(** The [Transaction] entity as the authorization flow writes it: the
    columns that the rule engine reads ([Transaction.t]) and the columns
    that are only written.  [createdAt] is the timestamp that the database
    gives the row on insert; the flow reads it after the first [save]. *)
Module TransactionRow.
Record t : Type := {
  columns : Transaction.t;
  status : TransactionStatus;
  declineReason : option string;
  metadata : option value;
  appliedRules : option (list RuleResult.t)
}.
End TransactionRow.

(** The repository calls of [authorize] that may raise. *)
Inductive Op : Type :=
| FindAccountToValidate
| SaveCreated
| FindAccount
| SaveEnriched
| FindGlobalRules
| FindUpdatedAccount
| SaveDecision
| SaveFailed.

(** What [authorize] is given from outside its own code. *)
Record World : Type := {
  env : Env;
  (* the transaction store as the behavioural checks query it *)
  transactionHistory : TransactionRepository;
  (* key, IV, token identifier and digest used by the tokenization *)
  cipher : Cipher;
  iv : list Byte.byte;
  uuid : string;
  sha256 : string -> string;
  (* timestamp of the inserted row *)
  createdAt : JsDate;
  (* outcome of the race between the enrichment call and its timer;
     [None] when the timer wins *)
  enrichment : TransactionRow.t -> result (option EnrichedData.t);
  (* the accounts table, by primary key *)
  accounts : gmap string Account.t;
  (* the [rules] relation of an account row *)
  accountRules : string -> option (list Rule.t);
  (* answer to the query for the active global rules *)
  globalRules : list Rule.t;
  faults : Op -> bool;
  bankingFaults : BankingService.DbOp -> bool;
  (* whether the timer wins the race against the fund sweep *)
  sweepTimedOut : bool
}.

(** The same world with another transaction store behind the behavioural
    checks. *)
Definition withTransactionHistory (w : World) (repo : TransactionRepository)
  : World :=
  {| env := env w;
     transactionHistory := repo;
     cipher := cipher w;
     iv := iv w;
     uuid := uuid w;
     sha256 := sha256 w;
     createdAt := createdAt w;
     enrichment := enrichment w;
     accounts := accounts w;
     accountRules := accountRules w;
     globalRules := globalRules w;
     faults := faults w;
     bankingFaults := bankingFaults w;
     sweepTimedOut := sweepTimedOut w |}.

(** The request object, which [authorize] and [createTransaction] update
    in place, and the rows written to the transactions table, in order. *)
Record State : Type := {
  request : AuthorizationRequest.t;
  saves : list TransactionRow.t
}.

(** Computations on the state that may throw. *)
Definition Service (A : Type) : Type := State -> result A * State.

Definition retS {A : Type} (a : A) : Service A := fun st => (Ok a, st).

Definition bindS {A B : Type} (m : Service A) (k : A -> Service B) : Service B :=
  fun st =>
    match m st with
    | (Ok a, st') => k a st'
    | (Throw e, st') => (Throw e, st')
    end.

Definition throwS {A : Type} (e : exn) : Service A := fun st => (Throw e, st).

Definition tryCatchS {A : Type} (body : Service A) (handler : exn -> Service A)
  : Service A :=
  fun st =>
    match body st with
    | (Ok a, st') => (Ok a, st')
    | (Throw e, st') => handler e st'
    end.

(** A call that does not touch the state. *)
Definition liftS {A : Type} (r : result A) : Service A := fun st => (r, st).

Definition getRequest : Service AuthorizationRequest.t :=
  fun st => (Ok (request st), st).

Definition assign (f : AuthorizationRequest.t -> AuthorizationRequest.t)
  : Service unit :=
  fun st => (Ok tt, {| request := f (request st); saves := saves st |}).

(** A row reaches the transactions table. *)
Definition written (transaction : TransactionRow.t) : Service unit :=
  fun st =>
    (Ok tt, {| request := request st; saves := saves st ++ [transaction] |}).

(** [return promise] inside [try]: the call runs, but its failure is the
    failure of the returned promise and does not reach the [catch]. *)
Definition returned {A : Type} (promise : Service A) : Service (result A) :=
  fun st => match promise st with (outcome, st') => (Ok outcome, st') end.

#[global] Instance Service_bind : MBind Service := fun A B k m => bindS m k.
#[global] Instance Service_ret : MRet Service := @retS.
#[global] Typeclasses Opaque Service.

(** [/^[0-9a-f]{8}-[0-9a-f]{4}-[1-5][0-9a-f]{3}-[89ab][0-9a-f]{3}-[0-9a-f]{12}$/i] *)
Definition isHex (c : ascii) : bool :=
  isDigit c || ((97 <=? nat_of_ascii (lowerChar c))%nat
                && (nat_of_ascii (lowerChar c) <=? 102)%nat).

Definition isDash (c : ascii) : bool := Ascii.eqb c "-".

Definition isVersion (c : ascii) : bool :=
  (49 <=? nat_of_ascii c)%nat && (nat_of_ascii c <=? 53)%nat.

Definition isVariant (c : ascii) : bool :=
  existsb (Ascii.eqb (lowerChar c)) ["8"; "9"; "a"; "b"]%char.

Fixpoint matchesClasses (classes : list (ascii -> bool)) (s : list ascii) : bool :=
  match classes, s with
  | [], [] => true
  | class :: classes', c :: s' => class c && matchesClasses classes' s'
  | _, _ => false
  end.

Definition isUuid (s : string) : bool :=
  matchesClasses
    (repeat isHex 8 ++ [isDash] ++ repeat isHex 4 ++ [isDash]
     ++ [isVersion] ++ repeat isHex 3 ++ [isDash]
     ++ [isVariant] ++ repeat isHex 3 ++ [isDash] ++ repeat isHex 12)
    (list_ascii_of_string s).

(** [a || undefined] on the truthiness of an optional string or number:
    the property is set only [if (request.x)]. *)
Definition ifTruthyStr (s : option string) : option string :=
  if truthyStr s then s else None.

Definition ifTruthyNum (n : option Z) : option Z :=
  if truthyNum n then n else None.

(** [{ ...fields, key: v }] *)
Fixpoint setField (key : string) (v : value) (fields : list (string * value))
  : list (string * value) :=
  match fields with
  | [] => [(key, v)]
  | (k, w) :: rest =>
      if (k =? key)%string then (k, v) :: rest else (k, w) :: setField key v rest
  end.

Definition isAction (a b : RuleAction) : bool :=
  match a, b with
  | APPROVE, APPROVE | DECLINE, DECLINE | REVIEW, REVIEW
  | SWEEP, SWEEP | STEP_UP_AUTH, STEP_UP_AUTH => true
  | _, _ => false
  end.

Section WithWorld.
Context (w : World).

Definition attempt (op : Op) : Service unit :=
  fun st =>
    if faults w op then (Throw (Error "database error"), st) else (Ok tt, st).

(** [transactionRepository.save(transaction)] *)
Definition save (op : Op) (transaction : TransactionRow.t)
  : Service TransactionRow.t :=
  _ ← attempt op;
  _ ← written transaction;
  retS transaction.

(** [accountRepository.findOne({ where: { id } })] on a table *)
Definition findOneById (op : Op) (table : gmap string Account.t) (id : string)
  : Service (option Account.t) :=
  _ ← attempt op;
  retS (table !! id).

(** [accountRepository.findOne({ where: { accountNumber } })] *)
Definition findOneByNumber (op : Op) (accountNumber : string)
  : Service (option Account.t) :=
  _ ← attempt op;
  retS (List.find (fun account => (Account.accountNumber account =? accountNumber)%string)
          (map snd (map_to_list (accounts w)))).

(** [None] is [null]. *)
Definition validateAccountId (accountId : string) : Service (option string) :=
  tryCatchS
    (if isUuid accountId then
       account ← findOneById FindAccountToValidate (accounts w) accountId;
       retS (match account with
             | Some _ => Some accountId
             | None => None
             end)
     else if startsWith (list_ascii_of_string "acc_") (list_ascii_of_string accountId)
     then
       let accountNumber := accountId in
       account ← findOneByNumber FindAccountToValidate accountNumber;
       retS (match account with
             | Some account => Some (Account.id account)
             | None => None
             end)
     else
       account ← findOneByNumber FindAccountToValidate accountId;
       retS (match account with
             | Some account => Some (Account.id account)
             | None => None
             end))
    (fun error => retS None).

Definition createErrorResponse (request : AuthorizationRequest.t)
    (reasonCode : string) : AuthorizationResponse.t :=
  {| AuthorizationResponse.decision := decline;
     AuthorizationResponse.transactionId := AuthorizationRequest.transactionId request;
     AuthorizationResponse.accountId := AuthorizationRequest.accountId request;
     AuthorizationResponse.reasonCode := Some reasonCode |}.

(** The [try] block of [createTransaction]: tokenization of a raw card
    number. *)
Definition tokenizeCard (cardNumber : string) : Service unit :=
  paymentToken ← liftS (tokenizeCardNumber (cipher w) (iv w) (uuid w) cardNumber);
  _ ← assign (AuthorizationRequest.setPaymentToken paymentToken);
  request ← getRequest;
  _ ← (if negb (truthyStr (AuthorizationRequest.cardLast4 request)) then
         cardLast4 ← liftS (getCardLast4 cardNumber);
         assign (AuthorizationRequest.setCardLast4 cardLast4)
       else retS tt);
  request ← getRequest;
  match AuthorizationRequest.cardExpiryMonth request,
        AuthorizationRequest.cardExpiryYear request with
  | Some cardExpiryMonth, Some cardExpiryYear =>
      if negb (truthyStr (AuthorizationRequest.cardFingerprint request))
         && negb (cardExpiryMonth =? 0)%Z && negb (cardExpiryYear =? 0)%Z
      then
        cardFingerprint ←
          liftS (generateCardFingerprint (sha256 w) cardNumber
                   cardExpiryMonth cardExpiryYear);
        assign (AuthorizationRequest.setCardFingerprint cardFingerprint)
      else retS tt
  | _, _ => retS tt
  end.

Definition createTransaction : Service TransactionRow.t :=
  request ← getRequest;
  _ ← (if strictEqOpt (AuthorizationRequest.paymentMethod request) (Some "card") then
         _ ← match AuthorizationRequest.cardNumber request with
             | Some cardNumber =>
                 if negb (cardNumber =? "")%string then
                   _ ← (if negb (truthyStr (AuthorizationRequest.paymentToken request))
                        then
                          tryCatchS (tokenizeCard cardNumber)
                            (fun error => throwS (Error "Invalid card data"))
                        else retS tt);
                   assign AuthorizationRequest.deleteCardNumber
                 else retS tt
             | None => retS tt
             end;
         assign AuthorizationRequest.deleteCvv
       else retS tt);
  request ← getRequest;
  let transaction :=
    {| TransactionRow.columns :=
         {| Transaction.transactionId := AuthorizationRequest.transactionId request;
            Transaction.accountId := AuthorizationRequest.accountId request;
            Transaction.amount := AuthorizationRequest.amount request;
            Transaction.currency := AuthorizationRequest.currency request;
            Transaction.merchantName := AuthorizationRequest.merchantName request;
            Transaction.merchantId :=
              ifTruthyStr (AuthorizationRequest.merchantId request);
            Transaction.merchantCategoryCode :=
              ifTruthyStr (AuthorizationRequest.merchantCategoryCode request);
            Transaction.merchantCategory := None;
            Transaction.location :=
              ifTruthyStr (AuthorizationRequest.location request);
            Transaction.countryCode :=
              ifTruthyStr (AuthorizationRequest.countryCode request);
            Transaction.paymentToken :=
              ifTruthyStr (AuthorizationRequest.paymentToken request);
            Transaction.paymentMethod :=
              ifTruthyStr (AuthorizationRequest.paymentMethod request);
            Transaction.cardBrand :=
              ifTruthyStr (AuthorizationRequest.cardBrand request);
            Transaction.cardLast4 :=
              ifTruthyStr (AuthorizationRequest.cardLast4 request);
            Transaction.cardExpiryMonth :=
              ifTruthyNum (AuthorizationRequest.cardExpiryMonth request);
            Transaction.cardExpiryYear :=
              ifTruthyNum (AuthorizationRequest.cardExpiryYear request);
            Transaction.cardFingerprint :=
              ifTruthyStr (AuthorizationRequest.cardFingerprint request);
            Transaction.enrichedData := None;
            Transaction.createdAt := createdAt w |};
       TransactionRow.status := PENDING;
       TransactionRow.declineReason := None;
       TransactionRow.metadata :=
         match AuthorizationRequest.metadata request with
         | Some metadata =>
             if truthy metadata then Some (secureSanitizeObject metadata) else None
         | None => None
         end;
       TransactionRow.appliedRules := None |} in
  save SaveCreated transaction.

Definition approveTransaction (transaction : TransactionRow.t)
  : Service AuthorizationResponse.t :=
  let transaction :=
    {| TransactionRow.columns := TransactionRow.columns transaction;
       TransactionRow.status := APPROVED;
       TransactionRow.declineReason := TransactionRow.declineReason transaction;
       TransactionRow.metadata := TransactionRow.metadata transaction;
       TransactionRow.appliedRules := TransactionRow.appliedRules transaction |} in
  _ ← save SaveDecision transaction;
  retS {| AuthorizationResponse.decision := approve;
          AuthorizationResponse.transactionId :=
            Transaction.transactionId (TransactionRow.columns transaction);
          AuthorizationResponse.accountId :=
            Transaction.accountId (TransactionRow.columns transaction);
          AuthorizationResponse.reasonCode := None |}.

Definition declineTransaction (transaction : TransactionRow.t)
    (reasonCode : string) (ruleId : option string)
  : Service AuthorizationResponse.t :=
  let transaction :=
    {| TransactionRow.columns := TransactionRow.columns transaction;
       TransactionRow.status := DECLINED;
       TransactionRow.declineReason := Some reasonCode;
       TransactionRow.metadata :=
         match ruleId with
         | Some ruleId =>
             if negb (ruleId =? "")%string then
               Some (VObj (setField "declineRuleId" (VStr ruleId)
                             (match TransactionRow.metadata transaction with
                              | Some metadata => objectEntries metadata
                              | None => []
                              end)))
             else TransactionRow.metadata transaction
         | None => TransactionRow.metadata transaction
         end;
       TransactionRow.appliedRules := TransactionRow.appliedRules transaction |} in
  _ ← save SaveDecision transaction;
  retS {| AuthorizationResponse.decision := decline;
          AuthorizationResponse.transactionId :=
            Transaction.transactionId (TransactionRow.columns transaction);
          AuthorizationResponse.accountId :=
            Transaction.accountId (TransactionRow.columns transaction);
          AuthorizationResponse.reasonCode := Some reasonCode |}.

(** [transaction.enrichedData = enrichedData] *)
Definition setEnrichedData (transaction : Transaction.t)
    (enrichedData : EnrichedData.t) : Transaction.t :=
  {| Transaction.transactionId := Transaction.transactionId transaction;
     Transaction.accountId := Transaction.accountId transaction;
     Transaction.amount := Transaction.amount transaction;
     Transaction.currency := Transaction.currency transaction;
     Transaction.merchantName := Transaction.merchantName transaction;
     Transaction.merchantId := Transaction.merchantId transaction;
     Transaction.merchantCategoryCode := Transaction.merchantCategoryCode transaction;
     Transaction.merchantCategory := Transaction.merchantCategory transaction;
     Transaction.location := Transaction.location transaction;
     Transaction.countryCode := Transaction.countryCode transaction;
     Transaction.paymentToken := Transaction.paymentToken transaction;
     Transaction.paymentMethod := Transaction.paymentMethod transaction;
     Transaction.cardBrand := Transaction.cardBrand transaction;
     Transaction.cardLast4 := Transaction.cardLast4 transaction;
     Transaction.cardExpiryMonth := Transaction.cardExpiryMonth transaction;
     Transaction.cardExpiryYear := Transaction.cardExpiryYear transaction;
     Transaction.cardFingerprint := Transaction.cardFingerprint transaction;
     Transaction.enrichedData := Some enrichedData;
     Transaction.createdAt := Transaction.createdAt transaction |}.

(** The enrichment step: a failed call or a failed save is logged and the
    flow goes on; data assigned before a failed save stays assigned. *)
Definition enrich (transaction : TransactionRow.t) : Service TransactionRow.t :=
  enrichedData ← tryCatchS (liftS (enrichment w transaction)) (fun error => retS None);
  match enrichedData with
  | Some enrichedData =>
      let transaction :=
        {| TransactionRow.columns :=
             setEnrichedData (TransactionRow.columns transaction) enrichedData;
           TransactionRow.status := TransactionRow.status transaction;
           TransactionRow.declineReason := TransactionRow.declineReason transaction;
           TransactionRow.metadata := TransactionRow.metadata transaction;
           TransactionRow.appliedRules := TransactionRow.appliedRules transaction |} in
      _ ← tryCatchS (_ ← save SaveEnriched transaction; retS tt)
            (fun error => retS tt);
      retS transaction
  | None => retS transaction
  end.

(** The fund sweep: [true] when the block returns an approval. *)
Definition sweepFunds (account : Account.t) (amount : Q) : Service bool :=
  match Account.sweepAccountId account with
  | Some sweepAccountId =>
      if Account.isSweepEnabled account && negb (sweepAccountId =? "")%string then
        tryCatchS
          (let transfer :=
             BankingService.transferFunds (bankingFaults w) sweepAccountId
               (Account.id account) amount (accounts w) in
           let sweepResult := if sweepTimedOut w then false else fst transfer in
           if sweepResult then
             updatedAccount ←
               findOneById FindUpdatedAccount (snd transfer) (Account.id account);
             retS (match updatedAccount with
                   | Some updatedAccount =>
                       Qle_bool amount (Account.balance updatedAccount)
                   | None => false
                   end)
           else retS false)
          (fun error => retS false)
      else retS false
  | None => retS false
  end.

(** The [try] block of [authorize]; its value is the promise it returns. *)
Definition authorizeBody : Service (result AuthorizationResponse.t) :=
  request ← getRequest;
  accountId ← validateAccountId (AuthorizationRequest.accountId request);
  if negb (truthyStr accountId) then
    retS (Ok (createErrorResponse request "account_not_found"))
  else
    let accountId := match accountId with Some accountId => accountId | None => "" end in
    _ ← assign (fun request => AuthorizationRequest.setAccountId request accountId);
    transaction ← createTransaction;
    request ← getRequest;
    account ← findOneById FindAccount (accounts w)
                 (AuthorizationRequest.accountId request);
    match account with
    | None => returned (declineTransaction transaction "account_not_found" None)
    | Some account =>
        if negb (Account.status account =? "active")%string then
          returned (declineTransaction transaction "account_inactive" None)
        else
          transaction ← enrich transaction;
          let accountRules :=
            match accountRules w (Account.id account) with
            | Some rules => rules
            | None => []
            end in
          globalRules ← (_ ← attempt FindGlobalRules; retS (globalRules w));
          let rules := List.filter Rule.isActive (accountRules ++ globalRules) in
          ruleResults ←
            liftS (evaluateRules (env w) (TransactionRow.columns transaction) rules);
          behavioralResults ←
            liftS (evaluateBehavioralPatterns (env w) (transactionHistory w)
                     (TransactionRow.columns transaction) account);
          let appliedRules := ruleResults ++ behavioralResults in
          let transaction :=
            {| TransactionRow.columns := TransactionRow.columns transaction;
               TransactionRow.status := TransactionRow.status transaction;
               TransactionRow.declineReason := TransactionRow.declineReason transaction;
               TransactionRow.metadata := TransactionRow.metadata transaction;
               TransactionRow.appliedRules := Some appliedRules |} in
          let declineRules :=
            List.filter (fun result => isAction (RuleResult.action result) DECLINE
                                       && RuleResult.matched result) appliedRules in
          let stepUpAuthRules :=
            List.filter (fun result => isAction (RuleResult.action result) STEP_UP_AUTH
                                       && RuleResult.matched result) appliedRules in
          if (0 <? length stepUpAuthRules)%nat
             && negb (match AuthorizationRequest.metadata request with
                      | Some metadata =>
                          truthyProp (getProp metadata "additionalAuthProvided")
                      | None => false
                      end)
          then
            returned (declineTransaction transaction "additional_auth_required"
                        (RuleResult.ruleId <$> head stepUpAuthRules))
          else
            match declineRules with
            | declineRule :: _ =>
                returned (declineTransaction transaction
                            ("rule_" +:+ RuleResult.ruleId declineRule) None)
            | [] =>
                let sweepRules :=
                  List.filter (fun result => isAction (RuleResult.action result) SWEEP
                                             && RuleResult.matched result)
                    appliedRules in
                sweepApproved ←
                  (if (0 <? length sweepRules)%nat
                      && Qltb (Account.balance account)
                              (AuthorizationRequest.amount request)
                   then sweepFunds account (AuthorizationRequest.amount request)
                   else retS false);
                if sweepApproved : bool then
                  returned (approveTransaction transaction)
                else if Qltb (Account.balance account)
                             (AuthorizationRequest.amount request)
                then returned (declineTransaction transaction "insufficient_funds" None)
                else returned (approveTransaction transaction)
            end
    end.

(** The record that the [catch] block of [authorize] writes. *)
Definition failedTransaction (request : AuthorizationRequest.t) : TransactionRow.t :=
  {| TransactionRow.columns :=
       {| Transaction.transactionId := AuthorizationRequest.transactionId request;
          Transaction.accountId := AuthorizationRequest.accountId request;
          Transaction.amount := AuthorizationRequest.amount request;
          Transaction.currency := AuthorizationRequest.currency request;
          Transaction.merchantName := AuthorizationRequest.merchantName request;
          Transaction.merchantId :=
            ifTruthyStr (AuthorizationRequest.merchantId request);
          Transaction.merchantCategoryCode :=
            ifTruthyStr (AuthorizationRequest.merchantCategoryCode request);
          Transaction.merchantCategory := None;
          Transaction.location :=
            ifTruthyStr (AuthorizationRequest.location request);
          Transaction.countryCode :=
            ifTruthyStr (AuthorizationRequest.countryCode request);
          Transaction.paymentToken :=
            ifTruthyStr (AuthorizationRequest.paymentToken request);
          Transaction.paymentMethod :=
            ifTruthyStr (AuthorizationRequest.paymentMethod request);
          Transaction.cardBrand :=
            ifTruthyStr (AuthorizationRequest.cardBrand request);
          Transaction.cardLast4 :=
            ifTruthyStr (AuthorizationRequest.cardLast4 request);
          (* [!== undefined]: a zero is kept *)
          Transaction.cardExpiryMonth := AuthorizationRequest.cardExpiryMonth request;
          Transaction.cardExpiryYear := AuthorizationRequest.cardExpiryYear request;
          Transaction.cardFingerprint :=
            ifTruthyStr (AuthorizationRequest.cardFingerprint request);
          Transaction.enrichedData := None;
          Transaction.createdAt := createdAt w |};
     TransactionRow.status := FAILED;
     TransactionRow.declineReason := Some "system_error";
     TransactionRow.metadata := None;
     TransactionRow.appliedRules := None |}.

(** [authorize] on the state: the promise returned from the [try] block
    is the outcome; what the block throws goes to the [catch]. *)
Definition authorizeS : Service AuthorizationResponse.t :=
  fun st =>
    match authorizeBody st with
    | (Ok promise, st') => (promise, st')
    | (Throw error, st') =>
        (request ← getRequest;
         _ ← tryCatchS
               (_ ← save SaveFailed (failedTransaction request); retS tt)
               (fun saveError => retS tt);
         retS {| AuthorizationResponse.decision := decline;
                 AuthorizationResponse.transactionId :=
                   AuthorizationRequest.transactionId request;
                 AuthorizationResponse.accountId :=
                   AuthorizationRequest.accountId request;
                 AuthorizationResponse.reasonCode := Some "system_error" |}) st'
    end.

(** [authorize(request)]: its outcome and the rows it has written to the
    transactions table, in order. *)
Definition authorize (request : AuthorizationRequest.t)
  : result AuthorizationResponse.t * list TransactionRow.t :=
  match authorizeS {| request := request; saves := [] |} with
  | (outcome, st) => (outcome, saves st)
  end.

End WithWorld.

End AuthorizationService.

(** ** Statements: notions used to state the properties *)

Module Spec.

Import DataSecurityService.

(** The Luhn checksum in the words of the specification: every second
    digit counted from the rightmost is doubled, 9 is subtracted from a
    doubled digit above 9, and everything is summed.  [position] counts
    from the right, starting at 0 for the rightmost digit. *)
Definition luhnDouble (d : Z) : Z :=
  if (2 * d >? 9)%Z then (2 * d - 9)%Z else (2 * d)%Z.

Fixpoint luhnSumFromRight (position : nat) (digitsFromRight : list Z) : Z :=
  match digitsFromRight with
  | [] => 0%Z
  | d :: rest =>
      ((if Nat.odd position then luhnDouble d else d)
       + luhnSumFromRight (S position) rest)%Z
  end.

Definition luhnChecksum (pan : string) : Z :=
  luhnSumFromRight 0 (rev (map Number (list_ascii_of_string pan))).

(** A string of 13 to 19 decimal digits. *)
Definition isPanShaped (pan : string) : Prop :=
  (13 <= String.length pan <= 19)%nat
  /\ Forall (fun c => isDigit c = true) (list_ascii_of_string pan).

(** The block cipher undoes itself under the service's key for every IV of
    one block. *)
Definition CipherCorrect (c : Cipher) : Prop :=
  forall iv plaintext,
    length iv = ENCRYPTION_IV_LENGTH ->
    cipherDecrypt c (ENCRYPTION_KEY c) iv
      (cipherEncrypt c (ENCRYPTION_KEY c) iv plaintext) = Some plaintext.

(** The sanitizer masks a PAN somewhere in [v]: a key 'pan' that its loop
    reaches, outside the redacted PCI fields, holds a string that
    [isValidPan] accepts.  [masksPanAt] is the case of one property, with
    [below] the answer for the property's value; the elements of an array
    are stored under their indices, which are none of the named keys. *)
Definition isValidPanValue (v : value) : bool :=
  match v with
  | VStr s => isValidPan s
  | _ => false
  end.

Definition masksPanAt (key : string) (v : value) (below : bool) : bool :=
  if existsb (String.eqb key) PCI_FIELDS then false
  else if (key =? "cardNumber")%string || (key =? "pan")%string
       then isValidPanValue v
       else below.

Fixpoint masksPan (v : value) : bool :=
  match v with
  | VObj fields =>
      existsb (fun kv =>
                 match kv with
                 | (key, v') => masksPanAt key v' (masksPan v')
                 end) fields
  | VArr items => existsb masksPan items
  | _ => false
  end.

(** The value is the redaction marker. *)
Definition isRedacted (v : value) : bool :=
  match v with
  | VStr s => (s =? REDACTED)%string
  | _ => false
  end.

(** What may stand under [key] in sanitized data: the redaction marker
    under a PCI field name, a string that is not a valid PAN under 'pan'. *)
Definition cleanProperty (key : string) (v : value) : bool :=
  if existsb (String.eqb key) PCI_FIELDS then isRedacted v
  else if (key =? "pan")%string then
    match v with
    | VStr s => negb (isValidPan s)
    | _ => false
    end
  else true.

(** [P] holds of every property, at every depth. *)
Fixpoint everyProperty (P : string -> value -> bool) (v : value) : bool :=
  match v with
  | VObj fields =>
      forallb (fun kv =>
                 match kv with
                 | (key, v') => P key v' && everyProperty P v'
                 end) fields
  | VArr items => forallb (everyProperty P) items
  | _ => true
  end.

(** Data without arrays in which no key, at any depth, is a PCI field
    name or 'pan'. *)
Fixpoint isPlain (v : value) : bool :=
  match v with
  | VObj fields =>
      forallb (fun kv =>
                 match kv with
                 | (key, v') =>
                     negb (existsb (String.eqb key) PCI_FIELDS)
                     && negb (key =? "pan")%string && isPlain v'
                 end) fields
  | VArr _ => false
  | _ => true
  end.

(** The condition types that [evaluateCondition] has a case for. *)
Definition SUPPORTED_CONDITIONS : list string :=
  ["amount_greater_than"; "amount_less_than"; "currency_equals";
   "merchant_name_equals"; "merchant_name_contains";
   "merchant_category_equals"; "merchant_category_code_equals";
   "country_code_equals"; "country_code_in"; "day_of_week_equals";
   "day_of_week_in"; "hour_of_day_between"].

(** A non-empty run of word characters (letters, digits, underscore). *)
Definition isWordRun (w : list ascii) : Prop :=
  w <> [] /\ Forall (fun c => isWord c = true) w.

(** What the similarity libraries promise: an edit distance never exceeds
    the longer length, a similarity score lies between 0 and 1. *)
Definition LibraryContract (env : RuleEngineService.Env) : Prop :=
  (forall a b,
      (RuleEngineService.LevenshteinDistance env a b
       <= Nat.max (String.length a) (String.length b))%nat)
  /\ (forall a b,
        (0 <= RuleEngineService.compareTwoStrings env a b)%Q
        /\ (RuleEngineService.compareTwoStrings env a b <= 1)%Q).

(** [counts[key] || 0] on an object keyed by strings *)
Fixpoint lookupCount (key : string) (counts : list (string * nat)) : nat :=
  match counts with
  | [] => 0
  | (k, n) :: rest => if (k =? key)%string then n else lookupCount key rest
  end.

(** Every row of the accounts table is stored under its primary key. *)
Definition keyedById (db : gmap string Account.t) : Prop :=
  forall (id : string) (account : Account.t),
    db !! id = Some account -> Account.id account = id.

(** A stored transaction whose metadata, if any, is clean at every depth. *)
Definition cleanRow (row : AuthorizationService.TransactionRow.t) : bool :=
  match AuthorizationService.TransactionRow.metadata row with
  | Some metadata => everyProperty cleanProperty metadata
  | None => true
  end.

(** Since [before], only pending rows have been written. *)
Definition onlyPending (before after : list AuthorizationService.TransactionRow.t)
  : Prop :=
  exists rows : list AuthorizationService.TransactionRow.t,
    after = before ++ rows
    /\ Forall (fun row => AuthorizationService.TransactionRow.status row
                          = AuthorizationService.PENDING) rows.

(** [request.metadata?.additionalAuthProvided], as a condition *)
Definition additionalAuthProvided
    (request : AuthorizationService.AuthorizationRequest.t) : bool :=
  match AuthorizationService.AuthorizationRequest.metadata request with
  | Some metadata => truthyProp (getProp metadata "additionalAuthProvided")
  | None => false
  end.

(** A result that matched with the given action. *)
Definition matchedWith (action : RuleAction) (r : RuleResult.t) : Prop :=
  RuleResult.matched r = true /\ RuleResult.action r = action.

(** The fund sweep has covered the amount: sweeping is enabled, the
    transfer from the sweep account answered [true] before the timer, and
    the account read back holds at least the amount. *)
Definition sweepCovers (w : AuthorizationService.World) (account : Account.t)
    (amount : Q) : Prop :=
  exists (sweepAccountId : string) (updatedAccount : Account.t),
    Account.sweepAccountId account = Some sweepAccountId
    /\ Account.isSweepEnabled account = true
    /\ AuthorizationService.sweepTimedOut w = false
    /\ (BankingService.transferFunds (AuthorizationService.bankingFaults w)
          sweepAccountId (Account.id account) amount
          (AuthorizationService.accounts w)).1 = true
    /\ (BankingService.transferFunds (AuthorizationService.bankingFaults w)
          sweepAccountId (Account.id account) amount
          (AuthorizationService.accounts w)).2 !! Account.id account
       = Some updatedAccount
    /\ (amount <= Account.balance updatedAccount)%Q.

(** What stands behind an approval: the account of the response exists
    and is active; the last row written is the approved transaction with
    the applied rules; no DECLINE rule matched; a matched STEP_UP_AUTH rule
    comes with additional authentication; the balance covers the amount, or
    a SWEEP rule matched and the sweep has covered it. *)
Definition approvalGrounds (w : AuthorizationService.World)
    (request : AuthorizationService.AuthorizationRequest.t)
    (response : AuthorizationService.AuthorizationResponse.t)
    (rows : list AuthorizationService.TransactionRow.t) : Prop :=
  exists (account : Account.t) (row : AuthorizationService.TransactionRow.t)
         (applied : list RuleResult.t),
    AuthorizationService.accounts w
      !! AuthorizationService.AuthorizationResponse.accountId response
    = Some account
    /\ Account.status account = "active"
    /\ last rows = Some row
    /\ AuthorizationService.TransactionRow.status row = AuthorizationService.APPROVED
    /\ AuthorizationService.TransactionRow.appliedRules row = Some applied
    /\ ~ Exists (matchedWith DECLINE) applied
    /\ (Exists (matchedWith STEP_UP_AUTH) applied ->
        additionalAuthProvided request = true)
    /\ ((AuthorizationService.AuthorizationRequest.amount request
         <= Account.balance account)%Q
        \/ (Exists (matchedWith SWEEP) applied
            /\ sweepCovers w account
                 (AuthorizationService.AuthorizationRequest.amount request))).

(** The first of the applied rules, in evaluation order, that matched
    with the given action. *)
Definition firstMatchedWith (action : RuleAction) (applied : list RuleResult.t)
  : option RuleResult.t :=
  List.find (fun r => AuthorizationService.isAction (RuleResult.action r) action
                      && RuleResult.matched r) applied.

(** What stands behind a decline, reason by reason.  An unknown account
    and a system error come without further grounds.  Otherwise the account
    of the response exists; it is inactive, or the last row written is the
    declined transaction with the reason and the applied rules, and
    - 'additional_auth_required': a STEP_UP_AUTH rule matched and the
      request brought no additional authentication;
    - 'rule_<id>': no step-up is outstanding and <id> is the first matched
      DECLINE rule in evaluation order;
    - 'insufficient_funds': no step-up is outstanding, no DECLINE rule
      matched and the balance is below the amount. *)
Definition declineGrounds (w : AuthorizationService.World)
    (request : AuthorizationService.AuthorizationRequest.t)
    (response : AuthorizationService.AuthorizationResponse.t)
    (rows : list AuthorizationService.TransactionRow.t) : Prop :=
  let reason := AuthorizationService.AuthorizationResponse.reasonCode response in
  reason = Some "account_not_found"
  \/ reason = Some "system_error"
  \/ exists account : Account.t,
       AuthorizationService.accounts w
         !! AuthorizationService.AuthorizationResponse.accountId response
       = Some account
       /\ ((reason = Some "account_inactive" /\ Account.status account <> "active")
           \/ (Account.status account = "active"
               /\ exists (row : AuthorizationService.TransactionRow.t)
                         (applied : list RuleResult.t),
                    last rows = Some row
                    /\ AuthorizationService.TransactionRow.status row
                       = AuthorizationService.DECLINED
                    /\ AuthorizationService.TransactionRow.declineReason row = reason
                    /\ AuthorizationService.TransactionRow.appliedRules row
                       = Some applied
                    /\ ((reason = Some "additional_auth_required"
                         /\ Exists (matchedWith STEP_UP_AUTH) applied
                         /\ additionalAuthProvided request = false)
                        \/ ((Exists (matchedWith STEP_UP_AUTH) applied ->
                             additionalAuthProvided request = true)
                            /\ ((exists declineRule : RuleResult.t,
                                    reason
                                    = Some ("rule_"
                                            +:+ RuleResult.ruleId declineRule)
                                    /\ firstMatchedWith DECLINE applied
                                       = Some declineRule)
                                \/ (reason = Some "insufficient_funds"
                                    /\ ~ Exists (matchedWith DECLINE) applied
                                    /\ (Account.balance account
                                        < AuthorizationService.AuthorizationRequest.amount
                                            request)%Q)))))).

(** Priority order on rules: lower number first. *)
Definition byPriority (a b : Rule.t) : Prop :=
  (Rule.priority a <= Rule.priority b)%Z.

(** What the sanitizer's loop stores under [key] for the value [v]. *)
Definition sanitized (key : string) (v : value) : value :=
  sanitizeProperty key v (secureSanitizeObject v).

(** The [matched] flag that [evaluateRules] records for a rule. *)
Definition matchedFlag (env : RuleEngineService.Env) (transaction : Transaction.t)
    (rule : Rule.t) : bool :=
  try_or (RuleEngineService.evaluateRule env transaction rule) false.

End Spec.

(** ** Sample data *)

Module Sample.

Import RuleEngineService.
#[local] Open Scope Q_scope.

(** An environment for inputs whose evaluation never consults the
    libraries: its entries are placeholders. *)
Definition env : Env :=
  {| LevenshteinDistance := fun _ _ => 0%nat;
     compareTwoStrings := fun _ _ => 0;
     metaphoneProcess := fun s => s;
     ToNumber := fun _ => None;
     Math_sqrt := fun q => q;
     JSON_parse := fun _ => Throw (Error "Unexpected token");
     currentDate := {| getFullYear := 2025%Z; getMonth := 5%Z; getDay := 0%Z; getHours := 12%Z |} |}.

Definition date : JsDate :=
  {| getFullYear := 2025%Z; getMonth := 5%Z; getDay := 1%Z; getHours := 10%Z |}.

(** A card transaction at [merchant], paid with the card known by [token]
    and [fingerprint]. *)
Definition cardTransaction (merchant token fingerprint : string) : Transaction.t :=
  {| Transaction.transactionId := "tx-highrisk";
     Transaction.accountId := "acc-12345";
     Transaction.amount := 100;
     Transaction.currency := "USD";
     Transaction.merchantName := merchant;
     Transaction.merchantId := None;
     Transaction.merchantCategoryCode := None;
     Transaction.merchantCategory := None;
     Transaction.location := None;
     Transaction.countryCode := None;
     Transaction.paymentToken := Some token;
     Transaction.paymentMethod := Some "card";
     Transaction.cardBrand := Some "visa";
     Transaction.cardLast4 := Some "4242";
     Transaction.cardExpiryMonth := Some 12%Z;
     Transaction.cardExpiryYear := Some 2030%Z;
     Transaction.cardFingerprint := Some fingerprint;
     Transaction.enrichedData := None;
     Transaction.createdAt := date |}.

(** A purchase in the merchant category [categoryCode], made in
    [countryCode] at [hour] o'clock. *)
Definition purchase (categoryCode countryCode : string) (hour : Z) : Transaction.t :=
  {| Transaction.transactionId := "tx-purchase";
     Transaction.accountId := "acc-12345";
     Transaction.amount := 100;
     Transaction.currency := "USD";
     Transaction.merchantName := "Corner Shop";
     Transaction.merchantId := None;
     Transaction.merchantCategoryCode := Some categoryCode;
     Transaction.merchantCategory := None;
     Transaction.location := None;
     Transaction.countryCode := Some countryCode;
     Transaction.paymentToken := None;
     Transaction.paymentMethod := None;
     Transaction.cardBrand := None;
     Transaction.cardLast4 := None;
     Transaction.cardExpiryMonth := None;
     Transaction.cardExpiryYear := None;
     Transaction.cardFingerprint := None;
     Transaction.enrichedData := None;
     Transaction.createdAt :=
       {| getFullYear := 2025%Z; getMonth := 5%Z; getDay := 1%Z; getHours := hour |} |}.

Definition rule (id : string) (priority : Z) (conditions : value) : Rule.t :=
  {| Rule.id := id;
     Rule.name := "High-Risk Card Token";
     Rule.action := DECLINE;
     Rule.priority := priority;
     Rule.conditions := conditions;
     Rule.isActive := true;
     Rule.accountId := None;
     Rule.isGlobal := true |}.

(** The global rule of the documentation: decline the listed tokens. *)
Definition highRiskCard : value :=
  VObj [("highRiskTokens", VArr [VStr "tkn_risky123"; VStr "tkn_flagged456"])].

Definition highRiskRule : Rule.t :=
  rule "rule-123" 10%Z (VObj [("card", highRiskCard)]).

Definition account (id : string) (balance : Q) : Account.t :=
  {| Account.id := id;
     Account.accountNumber := id;
     Account.balance := balance;
     Account.currency := "USD";
     Account.status := "active";
     Account.isSweepEnabled := false;
     Account.sweepAccountId := None;
     Account.metadata := None |}.

(** A store whose history query answers with one earlier card purchase
    and whose count queries fail. *)
Definition repoCountFails : TransactionRepository :=
  {| find := fun _ _ => Ok [cardTransaction "Test Merchant" "tkn_valid123" "fp_abc123"];
     countByCardSince := fun _ _ => Throw (Error "Connection lost");
     countByAccountSince := fun _ _ => Throw (Error "Connection lost") |}.

(** A cipher that satisfies [Spec.CipherCorrect]: it reverses the block
    sequence.  It stands in for the platform's cipher where a concrete one
    is needed. *)
Definition reversingCipher : DataSecurityService.Cipher :=
  {| DataSecurityService.ENCRYPTION_KEY := repeat Byte.x00 32%nat;
     DataSecurityService.cipherEncrypt := fun _ _ plaintext => rev plaintext;
     DataSecurityService.cipherDecrypt := fun _ _ ciphertext => Some (rev ciphertext) |}.

Definition noFaults : BankingService.DbOp -> bool := fun _ => false.

(** The second [save] of a transfer raises. *)
Definition saveDestFails : BankingService.DbOp -> bool :=
  fun op =>
    match op with
    | BankingService.SaveDest => true
    | _ => false
    end.

(** Request metadata with a valid PAN under the key 'pan'. *)
Definition metadataWithPan : value :=
  VObj [("pan", VStr "4242424242424242")].

(** Nested request metadata in which no 'pan' key holds a valid PAN. *)
Definition metadataWithoutPan : value :=
  VObj [("cardNumber", VStr "4242424242424242");
        ("pan", VStr "not a card number");
        ("device", VObj [("cvv", VStr "123"); ("ip", VStr "192.168.1.1")]);
        ("items", VArr [VNum 1; VObj [("pin", VStr "0000")]])].

(** Request metadata without PCI field names; a card number sits under
    the key 'note'. *)
Definition plainMetadata : value :=
  VObj [("note", VStr "4242424242424242");
        ("device", VObj [("ip", VStr "192.168.1.1"); ("trusted", VBool true)])].

(** A rule for the night hours, from 22 to 6. *)
Definition nightRule : Rule.t :=
  rule "rule-night" 20%Z (VObj [("hour_of_day_between", VArr [VNum 22; VNum 6])]).

(** A rule for purchases made in the United States. *)
Definition homeCountryRule : Rule.t :=
  rule "rule-us" 30%Z (VObj [("country_code_equals", VStr "US")]).

(** A rule without conditions. *)
Definition unconditionedRule : Rule.t := rule "rule-empty" 5%Z (VObj []).

Definition twoAccounts (sourceBalance destBalance : Q) : gmap string Account.t :=
  <["src" := account "src" sourceBalance]>
    (<["dst" := account "dst" destBalance]> ∅).

(** A store without earlier transactions. *)
Definition emptyHistory : TransactionRepository :=
  {| find := fun _ _ => Ok [];
     countByCardSince := fun _ _ => Ok 0%nat;
     countByAccountSince := fun _ _ => Ok 0%nat |}.

(** A world with two accounts, no rules, no enrichment, and the given
    repository faults. *)
Definition world (faults : AuthorizationService.Op -> bool)
  : AuthorizationService.World :=
  {| AuthorizationService.env := env;
     AuthorizationService.transactionHistory := emptyHistory;
     AuthorizationService.cipher := reversingCipher;
     AuthorizationService.iv := repeat Byte.x01 16%nat;
     AuthorizationService.uuid := "00000000-0000-4000-8000-000000000000";
     AuthorizationService.sha256 := fun s => s;
     AuthorizationService.createdAt := date;
     AuthorizationService.enrichment := fun _ => Ok None;
     AuthorizationService.accounts := twoAccounts 100 50;
     AuthorizationService.accountRules := fun _ => None;
     AuthorizationService.globalRules := [];
     AuthorizationService.faults := faults;
     AuthorizationService.bankingFaults := noFaults;
     AuthorizationService.sweepTimedOut := false |}.

(** The final save of the decision raises. *)
Definition saveDecisionFails : AuthorizationService.Op -> bool :=
  fun op =>
    match op with
    | AuthorizationService.SaveDecision => true
    | _ => false
    end.

(** A purchase of [amount] on the account known as [accountId], with
    request metadata [metadata]. *)
Definition request (accountId : string) (amount : Q) (metadata : option value)
  : AuthorizationService.AuthorizationRequest.t :=
  {| AuthorizationService.AuthorizationRequest.transactionId := "tx-1001";
     AuthorizationService.AuthorizationRequest.accountId := accountId;
     AuthorizationService.AuthorizationRequest.amount := amount;
     AuthorizationService.AuthorizationRequest.currency := "USD";
     AuthorizationService.AuthorizationRequest.merchantName := "Corner Shop";
     AuthorizationService.AuthorizationRequest.merchantId := None;
     AuthorizationService.AuthorizationRequest.merchantCategoryCode := Some "5411";
     AuthorizationService.AuthorizationRequest.location := None;
     AuthorizationService.AuthorizationRequest.countryCode := Some "US";
     AuthorizationService.AuthorizationRequest.paymentToken := None;
     AuthorizationService.AuthorizationRequest.paymentMethod := None;
     AuthorizationService.AuthorizationRequest.cardBrand := None;
     AuthorizationService.AuthorizationRequest.cardLast4 := None;
     AuthorizationService.AuthorizationRequest.cardExpiryMonth := None;
     AuthorizationService.AuthorizationRequest.cardExpiryYear := None;
     AuthorizationService.AuthorizationRequest.cardFingerprint := None;
     AuthorizationService.AuthorizationRequest.cardNumber := None;
     AuthorizationService.AuthorizationRequest.cvv := None;
     AuthorizationService.AuthorizationRequest.metadata := metadata |}.

End Sample.

(** * Verified properties *)

Import DataSecurityService RuleEngineService BankingService Spec.

(** ** PAN validation *)

Section Luhn.

Lemma luhnSumFromRight_parity (l : list Z) (p : nat) :
  luhnSumFromRight (S (S p)) l = luhnSumFromRight p l.
Proof.
  revert p. induction l as [|d l IH]; intros p; cbn [luhnSumFromRight].
  - reflexivity.
  - rewrite IH. reflexivity.
Qed.

Lemma luhnStep_double (sum d : Z) :
  luhnStep (sum, true) d = ((sum + luhnDouble d)%Z, false).
Proof.
  unfold luhnStep, luhnDouble. simpl.
  replace (d * 2)%Z with (2 * d)%Z by lia. reflexivity.
Qed.

(** The loop of [isValidPan], run over the digits from the right, adds up
    the checksum of the specification. *)
Lemma luhn_loop_sum (l : list Z) (sum : Z) (shouldDouble : bool) :
  fst (fold_left luhnStep l (sum, shouldDouble))
  = (sum + luhnSumFromRight (if shouldDouble then 1 else 0) l)%Z.
Proof.
  revert sum shouldDouble. induction l as [|d l IH]; intros sum b.
  - simpl. lia.
  - cbn [fold_left]. destruct b.
    + rewrite luhnStep_double, IH. cbn [luhnSumFromRight negb].
      rewrite luhnSumFromRight_parity. change (Nat.odd 1) with true.
      cbn iota. lia.
    + change (luhnStep (sum, false) d) with ((sum + d)%Z, true).
      rewrite IH. cbn [luhnSumFromRight]. change (Nat.odd 0) with false.
      cbn iota. lia.
Qed.

Lemma testPanFormat_spec (pan : string) :
  testPanFormat pan = true <-> isPanShaped pan.
Proof.
  unfold testPanFormat, isPanShaped.
  rewrite !andb_true_iff, forallb_forall, List.Forall_forall.
  rewrite Nat.leb_le, Nat.leb_le.
  split.
  - intros [[Hd Hlo] Hhi]. split; [lia | exact Hd].
  - intros [[Hlo Hhi] Hd]. repeat split; assumption.
Qed.

(** C8.  [isValidPan] accepts exactly the strings of 13 to 19 decimal
    digits whose Luhn checksum, as the specification words it, is divisible
    by 10; it accepts 4242424242424242 and rejects 4242424242424241. *)
Theorem isValidPan_iff_luhn :
  (forall pan : string,
      isValidPan pan = true
      <-> isPanShaped pan /\ (luhnChecksum pan mod 10 = 0)%Z)
  /\ isValidPan "4242424242424242" = true
  /\ isValidPan "4242424242424241" = false.
Proof.
  split; [| split; reflexivity].
  intros pan. unfold isValidPan, luhnChecksum.
  rewrite <- testPanFormat_spec.
  destruct (String.eqb_spec pan "") as [-> | Hne].
  - cbn. split; [discriminate | intros [H _]; discriminate H].
  - cbn [orb]. destruct (testPanFormat pan) eqn:Hfmt; cbn [negb].
    + pose proof (luhn_loop_sum (rev (map Number (list_ascii_of_string pan))) 0 false) as Hsum.
      destruct (fold_left luhnStep _ _) as [sum b]. cbn [fst] in Hsum.
      rewrite Z.add_0_l in Hsum. rewrite <- Hsum, Z.eqb_eq.
      split; [intros H; split; [reflexivity | exact H] | intros [_ H]; exact H].
    + split; [discriminate | intros [H _]; discriminate H].
Qed.

End Luhn.

(** ** Envelope encryption *)

Section Envelope.

Lemma list_ascii_of_string_append (a b : string) :
  list_ascii_of_string (a +:+ b) = list_ascii_of_string a ++ list_ascii_of_string b.
Proof.
  induction a as [|ch a IH]; simpl; [reflexivity | f_equal; exact IH].
Qed.

(** Splitting a text that holds no separator gives the text back, whole. *)
Lemma splitChars_no_separator (sep : ascii) (text cur : list ascii) :
  Forall (fun ch => Ascii.eqb ch sep = false) text ->
  splitChars sep cur text = [rev cur ++ text].
Proof.
  intros Hno. revert cur. induction Hno as [|ch text Hch _ IH]; intros cur; cbn.
  - now rewrite app_nil_r.
  - rewrite Hch, IH. cbn. now rewrite <- app_assoc.
Qed.

Lemma splitChars_at_separator (sep : ascii) (left right cur : list ascii) :
  Forall (fun ch => Ascii.eqb ch sep = false) left ->
  splitChars sep cur (left ++ sep :: right)
  = (rev cur ++ left) :: splitChars sep [] right.
Proof.
  intros Hno. revert cur. induction Hno as [|ch left Hch _ IH]; intros cur; cbn.
  - now rewrite Ascii.eqb_refl, app_nil_r.
  - rewrite Hch, IH. cbn. now rewrite <- app_assoc.
Qed.

Lemma hexOfByte_no_colon (b : Byte.byte) :
  Forall (fun ch => Ascii.eqb ch ":" = false) (hexOfByte b).
Proof.
  destruct b; repeat constructor.
Qed.

Lemma toHex_no_colon (buf : list Byte.byte) :
  Forall (fun ch => Ascii.eqb ch ":" = false) (flat_map hexOfByte buf).
Proof.
  induction buf as [|b buf IH]; cbn [flat_map].
  - constructor.
  - apply Forall_app. split; [apply hexOfByte_no_colon | exact IH].
Qed.

Lemma fromHexChars_hexOfByte (b : Byte.byte) (rest : list ascii) :
  fromHexChars (hexOfByte b ++ rest) = b :: fromHexChars rest.
Proof.
  destruct b; reflexivity.
Qed.

(** [Buffer.from(buf.toString('hex'), 'hex')] is [buf]. *)
Lemma fromHex_toHex (buf : list Byte.byte) : fromHex (toHex buf) = buf.
Proof.
  unfold fromHex, toHex. rewrite list_ascii_of_string_of_list_ascii.
  induction buf as [|b buf IH]; cbn [flat_map].
  - reflexivity.
  - now rewrite fromHexChars_hexOfByte, IH.
Qed.

(** The envelope [hex(iv):hex(ciphertext)] splits back into its two parts. *)
Lemma split_envelope (iv ciphertext : list Byte.byte) :
  split ":" (toHex iv +:+ ":" +:+ toHex ciphertext) = [toHex iv; toHex ciphertext].
Proof.
  unfold split, toHex.
  rewrite !list_ascii_of_string_append, !list_ascii_of_string_of_list_ascii.
  change (list_ascii_of_string ":") with [":"%char]. cbn [app].
  rewrite splitChars_at_separator by apply toHex_no_colon.
  rewrite splitChars_no_separator by apply toHex_no_colon.
  reflexivity.
Qed.

Lemma split_without_colon (s : string) :
  ~ In ":"%char (list_ascii_of_string s) -> split ":" s = [s].
Proof.
  intros Hno. unfold split.
  rewrite splitChars_no_separator.
  - cbn. now rewrite string_of_list_ascii_of_string.
  - apply List.Forall_forall. intros ch Hin.
    destruct (Ascii.eqb_spec ch ":") as [-> | Hne]; [contradiction | reflexivity].
Qed.

(** C7.  Under a block cipher that undoes itself, [decrypt] returns the
    text that [encrypt] sealed, for every text and every 16-byte IV; and
    [decrypt] throws on every input that does not split into exactly two
    parts at ':', in particular on one that holds no ':'. *)
Theorem decrypt_encrypt_roundtrip (c : Cipher) (iv : list Byte.byte) (x : string)
    (Hcipher : CipherCorrect c) (Hiv : length iv = ENCRYPTION_IV_LENGTH)
    (Hx : x <> "") :
  (exists envelope, encrypt c iv x = Ok envelope /\ decrypt c envelope = Ok x)
  /\ (forall s, length (split ":" s) <> 2%nat ->
              decrypt c s = Throw (Error "Invalid encrypted data format"))
  /\ (forall s, ~ In ":"%char (list_ascii_of_string s) ->
              decrypt c s = Throw (Error "Invalid encrypted data format")).
Proof.
  assert (Hparts : forall s, length (split ":" s) <> 2%nat ->
                             decrypt c s = Throw (Error "Invalid encrypted data format")).
  { intros s Hlen. unfold decrypt.
    destruct (Nat.eqb_spec (length (split ":" s)) 2) as [Heq | _];
      [contradiction | reflexivity]. }
  split; [| split; [exact Hparts |]].
  - unfold encrypt. rewrite Hiv, Nat.eqb_refl. cbn [negb].
    eexists. split; [reflexivity |].
    unfold decrypt. rewrite split_envelope. cbn [length Nat.eqb negb nth].
    rewrite !fromHex_toHex, Hiv, Nat.eqb_refl. cbn [negb].
    rewrite Hcipher by exact Hiv.
    now rewrite string_of_list_byte_of_string.
  - intros s Hno. apply Hparts. rewrite split_without_colon by exact Hno.
    cbn. lia.
Qed.

Lemma reversingCipher_correct : CipherCorrect Sample.reversingCipher.
Proof.
  intros iv plaintext _. cbn. now rewrite rev_involutive.
Qed.

Lemma decrypt_encrypt_roundtrip_witness :
  (exists envelope,
      encrypt Sample.reversingCipher (repeat Byte.x01 16) "4242424242424242"
      = Ok envelope
      /\ decrypt Sample.reversingCipher envelope = Ok "4242424242424242")
  /\ (forall s, length (split ":" s) <> 2%nat ->
              decrypt Sample.reversingCipher s
              = Throw (Error "Invalid encrypted data format"))
  /\ (forall s, ~ In ":"%char (list_ascii_of_string s) ->
              decrypt Sample.reversingCipher s
              = Throw (Error "Invalid encrypted data format")).
Proof.
  apply (decrypt_encrypt_roundtrip Sample.reversingCipher
           (repeat Byte.x01 16) "4242424242424242").
  - exact reversingCipher_correct.
  - reflexivity.
  - discriminate.
Defined.

End Envelope.

(** ** Sanitization *)

Section Sanitize.

(** Induction on values that reaches the elements of arrays and the
    property values of objects. *)
Lemma value_nested_ind (P : value -> Prop)
    (Hnull : P VNull)
    (Hbool : forall b, P (VBool b))
    (Hnum : forall q, P (VNum q))
    (Hstr : forall s, P (VStr s))
    (Harr : forall items, Forall P items -> P (VArr items))
    (Hobj : forall fields, Forall (fun kv => P (snd kv)) fields -> P (VObj fields)) :
  forall v, P v.
Proof.
  fix IH 1. intros [ | b | q | s | items | fields].
  - exact Hnull.
  - apply Hbool.
  - apply Hnum.
  - apply Hstr.
  - apply Harr. induction items as [|v items IHitems]; constructor.
    + apply IH.
    + exact IHitems.
  - apply Hobj. induction fields as [|[k v] fields IHfields]; constructor.
    + apply IH.
    + exact IHfields.
Qed.

Lemma secureSanitizeObject_VObj (fields : list (string * value)) :
  secureSanitizeObject (VObj fields)
  = VObj (map (fun kv => (fst kv, sanitized (fst kv) (snd kv))) fields).
Proof.
  cbn [secureSanitizeObject]. f_equal. apply map_ext. now intros [k v].
Qed.

Lemma secureSanitizeObject_VArr (items : list value) :
  secureSanitizeObject (VArr items)
  = VObj (mapi_from (fun i v => (indexKey i, sanitized (indexKey i) v)) 0 items).
Proof. reflexivity. Qed.

Lemma secureSanitizeObject_object (v : value) :
  isNonNullObject v = true -> isNonNullObject (secureSanitizeObject v) = true.
Proof. destruct v; cbn; congruence. Qed.

Lemma masksPan_object (v : value) : masksPan v = true -> isNonNullObject v = true.
Proof. destruct v; cbn; congruence. Qed.

(** An array index is a decimal numeral, so it is none of the keys that
    the sanitizer singles out. *)
Lemma indexKey_numeral (i : nat) (key : string) :
  NilEmpty.uint_of_string key = None -> (indexKey i =? key)%string = false.
Proof.
  intros Hkey. apply String.eqb_neq. intros Heq.
  pose proof (NilEmpty.usu (Nat.to_uint i)) as Hparse.
  unfold indexKey in Heq. rewrite Heq in Hparse. congruence.
Qed.

Lemma masksPanAt_indexKey (i : nat) (v : value) (below : bool) :
  masksPanAt (indexKey i) v below = below.
Proof.
  unfold masksPanAt, PCI_FIELDS. cbn [existsb].
  now rewrite !indexKey_numeral by reflexivity.
Qed.

(** *** The mask of a valid PAN *)

Lemma isValidPan_length (pan : string) :
  isValidPan pan = true -> (13 <= String.length pan)%nat.
Proof.
  unfold isValidPan.
  destruct ((pan =? "")%string || negb (testPanFormat pan)) eqn:Hguard;
    [discriminate |].
  intros _. apply orb_false_iff in Hguard. destruct Hguard as [_ Hfmt].
  apply negb_false_iff in Hfmt. apply testPanFormat_spec in Hfmt.
  destruct Hfmt as [[Hlo _] _]. exact Hlo.
Qed.

Lemma isValidPan_digits (pan : string) :
  isValidPan pan = true -> ~ In "*"%char (list_ascii_of_string pan).
Proof.
  unfold isValidPan.
  destruct ((pan =? "")%string || negb (testPanFormat pan)) eqn:Hguard;
    [discriminate |].
  intros _ Hstar. apply orb_false_iff in Hguard. destruct Hguard as [_ Hfmt].
  apply negb_false_iff in Hfmt. apply testPanFormat_spec in Hfmt.
  destruct Hfmt as [_ Hdigits]. rewrite List.Forall_forall in Hdigits.
  specialize (Hdigits _ Hstar). discriminate Hdigits.
Qed.

(** The mask of a valid PAN shows at least one star. *)
Lemma maskPan_star (pan : string) :
  isValidPan pan = true ->
  exists masked, maskPan pan = Ok masked
                 /\ In "*"%char (list_ascii_of_string masked).
Proof.
  intros Hvalid. unfold maskPan. rewrite Hvalid. cbn [negb].
  eexists. split; [reflexivity |].
  rewrite !list_ascii_of_string_append. apply in_or_app. right.
  apply in_or_app. left. unfold repeatChar.
  rewrite list_ascii_of_string_of_list_ascii.
  pose proof (isValidPan_length pan Hvalid) as Hlen.
  destruct (String.length pan - 10)%nat as [|n] eqn:Hstars; [lia |].
  now left.
Qed.

(** The second pass redacts the mask that the first pass stored. *)
Lemma sanitized_mask_redacted (key pan : string) :
  existsb (String.eqb key) PCI_FIELDS = false ->
  (key =? "cardNumber")%string || (key =? "pan")%string = true ->
  isValidPan pan = true ->
  sanitized key (sanitized key (VStr pan)) <> sanitized key (VStr pan).
Proof.
  intros Hpci Hkey Hvalid.
  destruct (maskPan_star pan Hvalid) as [masked [Hmask Hstar]].
  unfold sanitized, sanitizeProperty. rewrite Hpci, Hkey, Hvalid, Hmask.
  cbn [mbind result_bind bind try_or].
  destruct (isValidPan masked) eqn:Hmasked.
  - exfalso. exact (isValidPan_digits masked Hmasked Hstar).
  - cbn [try_or]. intros Heq. injection Heq as Heq. rewrite <- Heq in Hstar.
    cbn in Hstar. intuition discriminate.
Qed.

(** *** One property *)

(** Sanitizing a stored property once more changes nothing when the first
    pass masked nothing in it. *)
Lemma sanitized_idempotent (key : string) (v : value) :
  masksPanAt key v (masksPan v) = false ->
  (masksPan v = false ->
   secureSanitizeObject (secureSanitizeObject v) = secureSanitizeObject v) ->
  sanitized key (sanitized key v) = sanitized key v.
Proof.
  unfold masksPanAt, sanitized, sanitizeProperty. intros Hmask IHv.
  destruct (existsb (String.eqb key) PCI_FIELDS); [reflexivity |].
  destruct ((key =? "cardNumber")%string || (key =? "pan")%string).
  - destruct v as [ | b | q | s | items | fields]; try reflexivity.
    cbn [isValidPanValue] in Hmask. rewrite Hmask. reflexivity.
  - destruct (isNonNullObject v) eqn:Hobj.
    + rewrite (secureSanitizeObject_object v Hobj). exact (IHv Hmask).
    + rewrite Hobj. reflexivity.
Qed.

(** It changes the stored value when the first pass masked something. *)
Lemma sanitized_not_idempotent (key : string) (v : value) :
  masksPanAt key v (masksPan v) = true ->
  (masksPan v = true ->
   secureSanitizeObject (secureSanitizeObject v) <> secureSanitizeObject v) ->
  sanitized key (sanitized key v) <> sanitized key v.
Proof.
  unfold masksPanAt. intros Hmask IHv.
  destruct (existsb (String.eqb key) PCI_FIELDS) eqn:Hpci; [discriminate |].
  destruct ((key =? "cardNumber")%string || (key =? "pan")%string) eqn:Hkey.
  - destruct v as [ | b | q | s | items | fields]; try discriminate.
    now apply sanitized_mask_redacted.
  - pose proof (masksPan_object v Hmask) as Hobj.
    unfold sanitized, sanitizeProperty. rewrite Hpci, Hkey, Hobj.
    rewrite (secureSanitizeObject_object v Hobj). exact (IHv Hmask).
Qed.

(** *** Whole values *)

Lemma sanitize_fields_twice (fields : list (string * value)) :
  secureSanitizeObject (secureSanitizeObject (VObj fields))
  = VObj (map (fun kv => (fst kv, sanitized (fst kv) (sanitized (fst kv) (snd kv))))
              fields).
Proof.
  rewrite !secureSanitizeObject_VObj, map_map. reflexivity.
Qed.

Lemma sanitize_items_twice (items : list value) :
  secureSanitizeObject (secureSanitizeObject (VArr items))
  = VObj (mapi_from
            (fun i v => (indexKey i, sanitized (indexKey i) (sanitized (indexKey i) v)))
            0 items).
Proof.
  rewrite secureSanitizeObject_VArr, secureSanitizeObject_VObj. f_equal.
  generalize 0%nat as i.
  induction items as [|v items IH]; intros i; cbn [mapi_from map fst snd];
    [reflexivity | now rewrite IH].
Qed.

(** C4 (as amended).  Sanitizing twice is sanitizing once exactly for the
    values in which the sanitizer masks no PAN, that is, in which no key
    'pan' reached by its loop holds a valid PAN string. *)
Theorem secureSanitizeObject_idempotent (x : value) :
  secureSanitizeObject (secureSanitizeObject x) = secureSanitizeObject x
  <-> masksPan x = false.
Proof.
  assert (Hdec : forall v,
             (masksPan v = false ->
              secureSanitizeObject (secureSanitizeObject v) = secureSanitizeObject v)
             /\ (masksPan v = true ->
                 secureSanitizeObject (secureSanitizeObject v)
                 <> secureSanitizeObject v)).
  { induction v as [ | b | q | s | items IH | fields IH] using value_nested_ind;
      try (split; [reflexivity | discriminate]).
    - (* array: the object of its indexed elements *)
      rewrite sanitize_items_twice, secureSanitizeObject_VArr.
      cbn [masksPan]. generalize 0%nat as i.
      induction IH as [|v items [IHno IHyes] _ IHitems]; intros i;
        cbn [mapi_from existsb].
      + split; [reflexivity | discriminate].
      + destruct (IHitems (S i)) as [IHrest_no IHrest_yes]. split.
        * intros Hmask. apply orb_false_iff in Hmask. destruct Hmask as [Hv Hrest].
          specialize (IHrest_no Hrest). injection IHrest_no as IHrest_no.
          rewrite IHrest_no. do 3 f_equal.
          apply sanitized_idempotent; [| exact IHno].
          now rewrite masksPanAt_indexKey.
        * intros Hmask Heq. injection Heq as Hhead Htail.
          apply orb_true_iff in Hmask. destruct Hmask as [Hv | Hrest].
          -- apply (sanitized_not_idempotent (indexKey i) v);
               [now rewrite masksPanAt_indexKey | exact IHyes | exact Hhead].
          -- apply (IHrest_yes Hrest). now rewrite Htail.
    - rewrite sanitize_fields_twice, secureSanitizeObject_VObj.
      cbn [masksPan].
      induction IH as [|[key v] fields [IHno IHyes] _ IHfields];
        cbn [map existsb fst snd] in *.
      + split; [reflexivity | discriminate].
      + destruct IHfields as [IHrest_no IHrest_yes]. split.
        * intros Hmask. apply orb_false_iff in Hmask. destruct Hmask as [Hv Hrest].
          specialize (IHrest_no Hrest). injection IHrest_no as IHrest_no.
          rewrite IHrest_no. do 3 f_equal.
          now apply sanitized_idempotent.
        * intros Hmask Heq. injection Heq as Hhead Htail.
          apply orb_true_iff in Hmask. destruct Hmask as [Hv | Hrest].
          -- now apply (sanitized_not_idempotent key v).
          -- apply (IHrest_yes Hrest). now rewrite Htail. }
  destruct (Hdec x) as [Hno Hyes]. split; [| exact Hno].
  intros Heq. destruct (masksPan x) eqn:Hmask; [| reflexivity].
  exfalso. exact (Hyes eq_refl Heq).
Qed.

Lemma secureSanitizeObject_idempotent_witness :
  secureSanitizeObject (secureSanitizeObject Sample.metadataWithoutPan)
  = secureSanitizeObject Sample.metadataWithoutPan.
Proof.
  apply (secureSanitizeObject_idempotent Sample.metadataWithoutPan).
  reflexivity.
Defined.

(** C4, as stated, fails: a valid PAN under the key 'pan' is masked by the
    first pass, and the mask, no longer a valid PAN, is redacted by the
    second. *)
Lemma secureSanitizeObject_not_idempotent :
  secureSanitizeObject Sample.metadataWithPan
  = VObj [("pan", VStr "424242******4242")]
  /\ secureSanitizeObject (secureSanitizeObject Sample.metadataWithPan)
     = VObj [("pan", VStr "[REDACTED]")]
  /\ secureSanitizeObject (secureSanitizeObject Sample.metadataWithPan)
     <> secureSanitizeObject Sample.metadataWithPan.
Proof.
  repeat split; try reflexivity. discriminate.
Qed.

End Sanitize.

(** ** Rule evaluation *)

Section Rules.

Lemma insertSorted_perm (x : Rule.t) (l : list Rule.t) :
  Permutation (insertSorted comparePriority x l) (x :: l).
Proof.
  induction l as [|y l IH]; cbn [insertSorted].
  - reflexivity.
  - destruct (comparePriority x y <=? 0)%Z.
    + reflexivity.
    + rewrite IH. apply perm_swap.
Qed.

Lemma sort_perm (l : list Rule.t) : Permutation (sort comparePriority l) l.
Proof.
  induction l as [|x l IH]; cbn [sort fold_right].
  - reflexivity.
  - fold (sort comparePriority l). rewrite insertSorted_perm. now constructor.
Qed.

Lemma insertSorted_sorted (x : Rule.t) (l : list Rule.t) :
  StronglySorted byPriority l ->
  StronglySorted byPriority (insertSorted comparePriority x l).
Proof.
  induction 1 as [|y l Hsorted IH Hall]; cbn [insertSorted].
  - repeat constructor.
  - unfold comparePriority at 1.
    destruct (Z.leb_spec (Rule.priority x - Rule.priority y) 0) as [Hle | Hgt].
    + constructor; [now constructor |].
      constructor; [unfold byPriority; lia |].
      eapply List.Forall_impl; [| exact Hall].
      unfold byPriority. intros z Hz. cbn in *. lia.
    + constructor; [exact IH |].
      eapply Permutation_Forall; [symmetry; apply insertSorted_perm |].
      constructor; [unfold byPriority; lia | exact Hall].
Qed.

Lemma sort_sorted (l : list Rule.t) :
  StronglySorted byPriority (sort comparePriority l).
Proof.
  induction l as [|x l IH]; cbn [sort fold_right].
  - constructor.
  - apply insertSorted_sorted. exact IH.
Qed.

(** The loop of [evaluateRules] pushes one result per rule, in order. *)
Lemma evaluateRules_loop (env : Env) (transaction : Transaction.t)
    (rules : list Rule.t) (results : list RuleResult.t) :
  fold_left
    (fun results rule =>
       try_or
         (matched ← evaluateRule env transaction rule;
          Ok (results ++ [ruleResult rule matched]))
         (results ++ [ruleResult rule false]))
    rules results
  = results ++ map (fun rule => ruleResult rule (matchedFlag env transaction rule)) rules.
Proof.
  revert results. induction rules as [|rule rules IH]; intros results; cbn [fold_left map].
  - now rewrite app_nil_r.
  - rewrite IH. unfold matchedFlag.
    destruct (evaluateRule env transaction rule); cbn;
      now rewrite <- app_assoc.
Qed.

Lemma evaluateRules_eq (env : Env) (transaction : Transaction.t) (rules : list Rule.t) :
  evaluateRules env transaction rules
  = Ok (map (fun rule => ruleResult rule (matchedFlag env transaction rule))
            (sort comparePriority rules)).
Proof.
  unfold evaluateRules. now rewrite evaluateRules_loop.
Qed.

(** C2.  [evaluateRules] never throws and returns exactly one result per
    input rule, in an arrangement of the rules by non-decreasing priority;
    a rule whose evaluation throws is recorded with [matched = false]. *)
Theorem evaluateRules_one_result_per_rule (env : Env)
    (transaction : Transaction.t) (rules : list Rule.t) :
  exists (results : list RuleResult.t) (sortedRules : list Rule.t),
    evaluateRules env transaction rules = Ok results
    /\ length results = length rules
    /\ Permutation sortedRules rules
    /\ StronglySorted
         (fun a b => (Rule.priority a <= Rule.priority b)%Z) sortedRules
    /\ Forall2
         (fun rule r =>
            RuleResult.ruleId r = Rule.id rule
            /\ RuleResult.ruleName r = Rule.name rule
            /\ RuleResult.action r = Rule.action rule
            /\ RuleResult.conditions r = Rule.conditions rule
            /\ (forall matched,
                   evaluateRule env transaction rule = Ok matched ->
                   RuleResult.matched r = matched)
            /\ (forall e,
                   evaluateRule env transaction rule = Throw e ->
                   RuleResult.matched r = false))
         sortedRules results.
Proof.
  exists (map (fun rule => ruleResult rule (matchedFlag env transaction rule))
              (sort comparePriority rules)),
         (sort comparePriority rules).
  split; [apply evaluateRules_eq |].
  split; [rewrite length_map; apply Permutation_length, sort_perm |].
  split; [apply sort_perm |].
  split; [apply sort_sorted |].
  induction (sort comparePriority rules) as [|rule l IH]; cbn [map]; constructor.
  - cbn. unfold matchedFlag. repeat split; try reflexivity.
    + intros matched ->. reflexivity.
    + intros e ->. reflexivity.
  - exact IH.
Qed.

Lemma evaluateRule_unconditioned (env : Env) (transaction : Transaction.t)
    (rule : Rule.t) :
  Rule.conditions rule = VNull \/ Rule.conditions rule = VObj [] ->
  evaluateRule env transaction rule = Ok false.
Proof.
  unfold evaluateRule. intros [-> | ->]; reflexivity.
Qed.

(** C10.  A rule whose conditions are missing or empty is reported by
    [evaluateRules] with [matched = false], and never with [matched = true]. *)
Theorem unconditioned_rule_never_matches (env : Env) (transaction : Transaction.t)
    (rules : list Rule.t) (rule : Rule.t) :
  In rule rules ->
  Rule.conditions rule = VNull \/ Rule.conditions rule = VObj [] ->
  exists results : list RuleResult.t,
    evaluateRules env transaction rules = Ok results
    /\ In (ruleResult rule false) results
    /\ ~ In (ruleResult rule true) results.
Proof.
  intros Hin Hconds. eexists. split; [apply evaluateRules_eq |]. split.
  - apply in_map_iff. exists rule. split.
    + unfold matchedFlag. now rewrite evaluateRule_unconditioned.
    + apply (Permutation_in _ (Permutation_sym (sort_perm rules))), Hin.
  - intros Habs. apply in_map_iff in Habs. destruct Habs as [other [Heq _]].
    assert (Hsame : Rule.conditions other = Rule.conditions rule)
      by (injection Heq; auto).
    assert (Hother : evaluateRule env transaction other = Ok false).
    { apply evaluateRule_unconditioned. rewrite Hsame. exact Hconds. }
    unfold matchedFlag in Heq. rewrite Hother in Heq. discriminate Heq.
Qed.

Lemma unconditioned_rule_never_matches_witness :
  exists results : list RuleResult.t,
    evaluateRules Sample.env
      (Sample.cardTransaction "Test Merchant" "tkn_valid123" "fp_abc123")
      [Sample.highRiskRule; Sample.unconditionedRule] = Ok results
    /\ In (ruleResult Sample.unconditionedRule false) results
    /\ ~ In (ruleResult Sample.unconditionedRule true) results.
Proof.
  apply (unconditioned_rule_never_matches Sample.env
           (Sample.cardTransaction "Test Merchant" "tkn_valid123" "fp_abc123")
           [Sample.highRiskRule; Sample.unconditionedRule]
           Sample.unconditionedRule).
  - right. left. reflexivity.
  - right. reflexivity.
Defined.

(** The switch of [evaluateCondition] has no case for the key 'card'. *)
Lemma evaluateCondition_card (env : Env) (conditionValue : value)
    (txData : TxData.t) (transaction : Transaction.t) :
  evaluateCondition env "card" conditionValue txData transaction = Ok false.
Proof. reflexivity. Qed.

Lemma evaluateConditions_card_key (env : Env) (entries : list (string * value))
    (txData : TxData.t) (transaction : Transaction.t) :
  In "card" (map fst entries) ->
  evaluateConditions env entries txData transaction <> Ok true.
Proof.
  induction entries as [|[key v] entries IH]; cbn [map fst In evaluateConditions].
  - intros [].
  - intros [-> | Hin].
    + rewrite evaluateCondition_card. cbn. discriminate.
    + destruct (evaluateCondition env key v txData transaction) as [[|]|e]; cbn;
        [now apply IH | discriminate | discriminate].
Qed.

(** Every rule that carries a 'card' block is reported as not matched,
    whatever the block and the transaction. *)
Lemma card_rule_never_matches (env : Env) (transaction : Transaction.t)
    (rule : Rule.t) :
  In "card" (map fst (objectEntries (Rule.conditions rule))) ->
  matchedFlag env transaction rule = false.
Proof.
  intros Hcard. unfold matchedFlag, evaluateRule.
  destruct (negb (truthy (Rule.conditions rule))
            || (length (objectEntries (Rule.conditions rule)) =? 0)%nat);
    [reflexivity |].
  pose proof (evaluateConditions_card_key env _
                (prepareTransactionData transaction) transaction Hcard) as Hloop.
  destruct (evaluateConditions env _ _ _) as [[|]|e]; cbn;
    [contradiction | reflexivity | reflexivity].
Qed.

(** C1, on the code: the high-risk-token rule of the documentation is
    reported as not matched for a card transaction paid with a listed token,
    although the card block itself, handed to [evaluateCardRule], matches. *)
Theorem high_risk_token_rule_not_matched (env : Env) :
  evaluateRules env
    (Sample.cardTransaction "Test Merchant" "tkn_risky123" "fp_risk123")
    [Sample.highRiskRule]
  = Ok [ruleResult Sample.highRiskRule false]
  /\ evaluateCardRule env Sample.highRiskCard
       (prepareTransactionData
          (Sample.cardTransaction "Test Merchant" "tkn_risky123" "fp_risk123"))
     = Ok true.
Proof.
  split; reflexivity.
Qed.

End Rules.

(** ** Fuzzy merchant matching on short names *)

Section ShortNames.

Lemma prepareTransactionData_unenriched (transaction : Transaction.t) :
  Transaction.enrichedData transaction = None ->
  TxData.isEnriched (prepareTransactionData transaction) = false
  /\ TxData.merchantName (prepareTransactionData transaction)
     = Some (Transaction.merchantName transaction).
Proof.
  intros Hnone. unfold prepareTransactionData. rewrite Hnone. now split.
Qed.

(** On two non-empty names of which the cleaned forms are short, the
    confidence score is 1 when the cleaned forms are equal and 0 otherwise. *)
Lemma computeConfidenceScore_short (env : Env) (actual expected : string) :
  actual <> "" -> expected <> "" ->
  (String.length (cleanMerchantName actual) < 3)%nat ->
  (String.length (cleanMerchantName expected) < 3)%nat ->
  computeConfidenceScore env actual (VStr expected)
  = Ok (if (cleanMerchantName actual =? cleanMerchantName expected)%string
        then 1%Q else 0%Q).
Proof.
  intros Ha He Hla Hle. unfold computeConfidenceScore.
  apply String.eqb_neq in Ha. apply String.eqb_neq in He.
  cbn [truthy]. rewrite Ha, He. cbn [negb orb].
  apply Nat.ltb_lt in Hla. rewrite Hla. reflexivity.
Qed.

(** C9 (as amended).  For an unenriched transaction whose merchant name is
    not empty and a non-empty condition value, both cleaning to fewer than 3
    characters, [merchant_name_equals] and [merchant_name_contains] match
    exactly when the two cleaned strings are equal. *)
Theorem short_merchant_names_match_exactly (env : Env)
    (transaction : Transaction.t) (conditionType expected : string) :
  conditionType = "merchant_name_equals"
  \/ conditionType = "merchant_name_contains" ->
  Transaction.enrichedData transaction = None ->
  Transaction.merchantName transaction <> "" ->
  expected <> "" ->
  (String.length (cleanMerchantName (Transaction.merchantName transaction)) < 3)%nat ->
  (String.length (cleanMerchantName expected) < 3)%nat ->
  evaluateCondition env conditionType (VStr expected)
    (prepareTransactionData transaction) transaction
  = Ok (cleanMerchantName (Transaction.merchantName transaction)
        =? cleanMerchantName expected)%string.
Proof.
  intros Htype Hraw Hname Hexpected Hla Hle.
  destruct (prepareTransactionData_unenriched transaction Hraw) as [Henr Hmerchant].
  pose proof (computeConfidenceScore_short env _ _ Hname Hexpected Hla Hle) as Hscore.
  pose proof Hname as Hne. apply String.eqb_neq in Hne.
  destruct Htype as [-> | ->]; unfold evaluateCondition; cbn [String.eqb Ascii.eqb Bool.eqb];
    rewrite Henr, Hmerchant; cbn [negb].
  - unfold smartStringMatch. rewrite Hne, Hscore. cbn.
    destruct (_ =? _)%string; reflexivity.
  - unfold orElse. cbn [truthyStr]. rewrite Hne. cbn [negb].
    rewrite Hscore. cbn.
    destruct (_ =? _)%string; reflexivity.
Qed.

Lemma short_merchant_names_match_exactly_witness :
  evaluateCondition Sample.env "merchant_name_contains" (VStr "A.")
    (prepareTransactionData (Sample.cardTransaction "A&" "tkn_valid123" "fp_abc123"))
    (Sample.cardTransaction "A&" "tkn_valid123" "fp_abc123")
  = Ok (cleanMerchantName "A&" =? cleanMerchantName "A.")%string.
Proof.
  apply (short_merchant_names_match_exactly Sample.env
           (Sample.cardTransaction "A&" "tkn_valid123" "fp_abc123")
           "merchant_name_contains" "A.").
  - right. reflexivity.
  - reflexivity.
  - discriminate.
  - discriminate.
  - apply Nat.ltb_lt. reflexivity.
  - apply Nat.ltb_lt. reflexivity.
Defined.

(** C9, as stated, fails on empty strings: an empty merchant name and the
    condition value 'LLC' both clean to the empty string, and so do the
    merchant name 'LLC' and an empty condition value, yet neither condition
    type matches. *)
Lemma empty_merchant_name_never_matches :
  cleanMerchantName "" = "" /\ cleanMerchantName "LLC" = ""
  /\ evaluateCondition Sample.env "merchant_name_equals" (VStr "LLC")
       (prepareTransactionData (Sample.cardTransaction "" "tkn_valid123" "fp_abc123"))
       (Sample.cardTransaction "" "tkn_valid123" "fp_abc123") = Ok false
  /\ evaluateCondition Sample.env "merchant_name_contains" (VStr "LLC")
       (prepareTransactionData (Sample.cardTransaction "" "tkn_valid123" "fp_abc123"))
       (Sample.cardTransaction "" "tkn_valid123" "fp_abc123") = Ok false
  /\ evaluateCondition Sample.env "merchant_name_equals" (VStr "")
       (prepareTransactionData (Sample.cardTransaction "LLC" "tkn_valid123" "fp_abc123"))
       (Sample.cardTransaction "LLC" "tkn_valid123" "fp_abc123") = Ok false
  /\ evaluateCondition Sample.env "merchant_name_contains" (VStr "")
       (prepareTransactionData (Sample.cardTransaction "LLC" "tkn_valid123" "fp_abc123"))
       (Sample.cardTransaction "LLC" "tkn_valid123" "fp_abc123") = Ok false.
Proof.
  repeat split; reflexivity.
Qed.

End ShortNames.

(** ** Behavioural analysis *)

Section Behavioural.

(** C3 (as amended).  [evaluateBehavioralPatterns] never throws.  When the
    history query and the six checks all return, it returns the results of
    the checks that produced one, in the order of the checks; when any of
    them throws, it returns the empty list. *)
Theorem evaluateBehavioralPatterns_all_or_nothing (env : Env)
    (repo : TransactionRepository) (transaction : Transaction.t)
    (account : Account.t) :
  match getAccountTransactionHistory repo (Account.id account) 50 with
  | Ok txHistory =>
      match detectNewPaymentMethod transaction txHistory,
            detectAmountAnomaly env transaction txHistory,
            detectMerchantCategoryAnomaly transaction txHistory,
            detectLocationAnomaly env transaction txHistory account,
            detectTimePatternAnomaly transaction txHistory,
            detectVelocityAnomaly repo transaction with
      | Ok cardResult, Ok amountResult, Ok categoryResult,
        Ok locationResult, Ok timeResult, Ok velocityResult =>
          evaluateBehavioralPatterns env repo transaction account
          = Ok (pushIf (pushIf (pushIf (pushIf (pushIf (pushIf []
                  cardResult) amountResult) categoryResult)
                  locationResult) timeResult) velocityResult)
      | _, _, _, _, _, _ =>
          evaluateBehavioralPatterns env repo transaction account = Ok []
      end
  | Throw _ => evaluateBehavioralPatterns env repo transaction account = Ok []
  end.
Proof.
  unfold evaluateBehavioralPatterns.
  destruct (getAccountTransactionHistory repo (Account.id account) 50)
    as [txHistory | e]; [| reflexivity].
  cbn [mbind result_bind bind].
  destruct (detectNewPaymentMethod transaction txHistory); [| reflexivity].
  destruct (detectAmountAnomaly env transaction txHistory); [| reflexivity].
  destruct (detectMerchantCategoryAnomaly transaction txHistory); [| reflexivity].
  destruct (detectLocationAnomaly env transaction txHistory account); [| reflexivity].
  destruct (detectTimePatternAnomaly transaction txHistory); [| reflexivity].
  destruct (detectVelocityAnomaly repo transaction); reflexivity.
Qed.

(** C3, as stated, fails: with one earlier card purchase in the history the
    new-payment-method check produces a result, the velocity check throws
    because the count query fails, and the detector returns the empty list
    instead of the result already computed. *)
Lemma evaluateBehavioralPatterns_drops_results :
  detectNewPaymentMethod
    (Sample.cardTransaction "Test Merchant" "tkn_risky123" "fp_risk123")
    [Sample.cardTransaction "Test Merchant" "tkn_valid123" "fp_abc123"]
  = Ok (Some (behavioralResult "behavioral_new_card" "New Payment Method Detection"
                [("isNewCard", VBool true); ("hasCardHistory", VBool true)]))
  /\ detectVelocityAnomaly Sample.repoCountFails
       (Sample.cardTransaction "Test Merchant" "tkn_risky123" "fp_risk123")
     = Throw (Error "Connection lost")
  /\ evaluateBehavioralPatterns Sample.env Sample.repoCountFails
       (Sample.cardTransaction "Test Merchant" "tkn_risky123" "fp_risk123")
       (Sample.account "acc-12345" 1000)
     = Ok [].
Proof.
  repeat split; reflexivity.
Qed.

End Behavioural.

(** ** Fund transfer *)

Section Transfer.

Lemma Qltb_lt (a b : Q) : Qltb a b = true <-> (a < b)%Q.
Proof.
  unfold Qltb. rewrite negb_true_iff. split.
  - intros Hnle. apply Qnot_le_lt. intros Hle.
    apply Qle_bool_iff in Hle. congruence.
  - intros Hlt. destruct (Qle_bool b a) eqn:Hle; [| reflexivity].
    apply Qle_bool_iff in Hle. exfalso. exact (Qlt_not_le _ _ Hlt Hle).
Qed.

Lemma Qltb_ge (a b : Q) : Qltb a b = false <-> (b <= a)%Q.
Proof.
  unfold Qltb. rewrite negb_false_iff. apply Qle_bool_iff.
Qed.

Ltac run_transfer :=
  unfold transferFunds, transferFundsM, tryCatchM, connect, startTransaction,
    findOne, save, commitTransaction, rollbackTransaction, attempt, getsM,
    modifyM, mbind, M_bind, bindM, mret, M_ret, retM;
  cbn [database pending isTransactionActive].

Ltac case_fault :=
  match goal with
  | |- context [if ?faults ?op then _ else _] =>
      destruct (faults op); cbn [database pending isTransactionActive]
  end.

(** C6.  When the source account holds less than the amount,
    [transferFunds] answers [false] and leaves the database as it was,
    whichever database call may fail. *)
Theorem transferFunds_insufficient_funds (faults : DbOp -> bool)
    (fromAccountId toAccountId : string) (amount : Q)
    (db : gmap string Account.t) (sourceAccount : Account.t) :
  db !! fromAccountId = Some sourceAccount ->
  (Account.balance sourceAccount < amount)%Q ->
  transferFunds faults fromAccountId toAccountId amount db = (false, db).
Proof.
  intros Hsource Hless. apply Qltb_lt in Hless.
  run_transfer. repeat case_fault; try reflexivity.
  all: rewrite Hsource, Hless; reflexivity.
Qed.

Lemma transferFunds_insufficient_funds_witness :
  transferFunds Sample.noFaults "src" "dst" 150 (Sample.twoAccounts 100 50)
  = (false, Sample.twoAccounts 100 50).
Proof.
  apply (transferFunds_insufficient_funds Sample.noFaults "src" "dst" 150
           (Sample.twoAccounts 100 50) (Sample.account "src" 100)).
  - reflexivity.
  - reflexivity.
Defined.

(** C5 (as amended).  For a non-negative amount, a transfer between two
    accounts stored under their identifiers, both with a non-negative
    balance, leaves both with a non-negative balance. *)
Theorem transferFunds_balances_nonnegative (faults : DbOp -> bool)
    (fromAccountId toAccountId : string) (amount : Q)
    (db : gmap string Account.t) (sourceAccount destAccount : Account.t) :
  db !! fromAccountId = Some sourceAccount ->
  db !! toAccountId = Some destAccount ->
  Account.id sourceAccount = fromAccountId ->
  Account.id destAccount = toAccountId ->
  (0 <= Account.balance sourceAccount)%Q ->
  (0 <= Account.balance destAccount)%Q ->
  (0 <= amount)%Q ->
  exists sourceAfter destAfter : Account.t,
    (transferFunds faults fromAccountId toAccountId amount db).2 !! fromAccountId
    = Some sourceAfter
    /\ (transferFunds faults fromAccountId toAccountId amount db).2 !! toAccountId
       = Some destAfter
    /\ (0 <= Account.balance sourceAfter)%Q
    /\ (0 <= Account.balance destAfter)%Q.
Proof.
  intros Hsource Hdest Hsid Hdid Hsb Hdb Hamount.
  assert (Hkeep : exists sourceAfter destAfter : Account.t,
             db !! fromAccountId = Some sourceAfter
             /\ db !! toAccountId = Some destAfter
             /\ (0 <= Account.balance sourceAfter)%Q
             /\ (0 <= Account.balance destAfter)%Q)
    by (exists sourceAccount, destAccount; auto).
  run_transfer. repeat case_fault; try exact Hkeep.
  all: rewrite Hsource;
    destruct (Qltb (Account.balance sourceAccount) amount) eqn:Hcheck;
    cbn [database pending isTransactionActive snd]; try exact Hkeep.
  all: rewrite Hdest; cbn [database pending isTransactionActive snd];
    try exact Hkeep.
  apply Qltb_ge in Hcheck.
  cbn [withBalance Account.id]. rewrite Hsid, Hdid.
  destruct (decide (fromAccountId = toAccountId)) as [Heq | Hne].
  - exists (withBalance destAccount (Account.balance destAccount + amount)),
           (withBalance destAccount (Account.balance destAccount + amount)).
    rewrite Heq, !lookup_insert_eq. cbn [withBalance Account.balance].
    repeat split; lra.
  - exists (withBalance sourceAccount (Account.balance sourceAccount - amount)),
           (withBalance destAccount (Account.balance destAccount + amount)).
    rewrite lookup_insert_ne by congruence.
    rewrite !lookup_insert_eq. cbn [withBalance Account.balance].
    repeat split; lra.
Qed.

Lemma transferFunds_balances_nonnegative_witness :
  exists sourceAfter destAfter : Account.t,
    (transferFunds Sample.noFaults "src" "dst" 30 (Sample.twoAccounts 100 10)).2
      !! "src" = Some sourceAfter
    /\ (transferFunds Sample.noFaults "src" "dst" 30 (Sample.twoAccounts 100 10)).2
         !! "dst" = Some destAfter
    /\ (0 <= Account.balance sourceAfter)%Q
    /\ (0 <= Account.balance destAfter)%Q.
Proof.
  apply (transferFunds_balances_nonnegative Sample.noFaults "src" "dst" 30
           (Sample.twoAccounts 100 10)
           (Sample.account "src" 100) (Sample.account "dst" 10)).
  - reflexivity.
  - reflexivity.
  - reflexivity.
  - reflexivity.
  - cbn. lra.
  - cbn. lra.
  - lra.
Defined.

(** C5, as stated, fails for a negative amount: the funds check passes and
    the destination, holding 10, ends at -40. *)
Lemma transferFunds_negative_amount :
  (transferFunds Sample.noFaults "src" "dst" (-50) (Sample.twoAccounts 100 10)).1
  = true
  /\ Account.balance
       <$> (transferFunds Sample.noFaults "src" "dst" (-50)
              (Sample.twoAccounts 100 10)).2 !! "dst"
     = Some (-40)%Q
  /\ (-40 < 0)%Q.
Proof.
  repeat split; vm_compute; reflexivity.
Qed.

End Transfer.

(** * Further properties *)

(** ** Card digits, masks and fingerprints *)

Section CardDigits.

Lemma length_chars (s : string) :
  length (list_ascii_of_string s) = String.length s.
Proof. induction s as [|c s IH]; cbn; congruence. Qed.

Lemma substring_chars (s : string) (n m : nat) :
  list_ascii_of_string (substring n m s)
  = firstn m (skipn n (list_ascii_of_string s)).
Proof.
  revert n m. induction s as [|c s IH]; intros n m.
  - destruct n, m; reflexivity.
  - destruct n as [|n].
    + destruct m as [|m]; [reflexivity |]. cbn. now rewrite IH.
    + cbn. apply IH.
Qed.

Lemma chars_inj (a b : string) :
  list_ascii_of_string a = list_ascii_of_string b -> a = b.
Proof.
  intros H. rewrite <- (string_of_list_ascii_of_string a),
    <- (string_of_list_ascii_of_string b). now rewrite H.
Qed.

Lemma isValidPan_shape (pan : string) :
  isValidPan pan = true -> isPanShaped pan.
Proof.
  unfold isValidPan.
  destruct ((pan =? "")%string || negb (testPanFormat pan)) eqn:Hguard;
    [discriminate |].
  intros _. apply orb_false_iff in Hguard. destruct Hguard as [_ Hfmt].
  apply negb_false_iff in Hfmt. now apply testPanFormat_spec.
Qed.

Lemma count_star_digits (l : list ascii) :
  Forall (fun c => isDigit c = true) l ->
  count_occ ascii_dec l "*"%char = 0%nat.
Proof.
  induction 1 as [|c l Hc _ IH]; [reflexivity |].
  cbn [count_occ]. destruct (ascii_dec c "*") as [-> | _];
    [discriminate Hc | exact IH].
Qed.

Lemma count_star_repeat (n : nat) :
  count_occ ascii_dec (repeat "*"%char n) "*"%char = n.
Proof.
  induction n as [|n IH]; [reflexivity |]. cbn [repeat count_occ].
  destruct (ascii_dec "*" "*") as [_ | Hne]; [now rewrite IH | contradiction].
Qed.

(** The characters of the mask of a valid PAN. *)
Lemma maskPan_chars (pan : string) :
  isValidPan pan = true ->
  exists masked,
    maskPan pan = Ok masked
    /\ list_ascii_of_string masked
       = firstn 6 (list_ascii_of_string pan)
         ++ repeat "*"%char (String.length pan - 10)
         ++ skipn (String.length pan - 4) (list_ascii_of_string pan).
Proof.
  intros Hvalid. unfold maskPan. rewrite Hvalid. cbn [negb].
  eexists. split; [reflexivity |].
  unfold sliceFirst, sliceLast, repeatChar.
  rewrite !list_ascii_of_string_append, !substring_chars,
    list_ascii_of_string_of_list_ascii.
  cbn [skipn]. do 2 f_equal.
  apply firstn_all2. rewrite length_skipn, length_chars. lia.
Qed.

(** X1.  The mask of a valid PAN has the length of the PAN, shows the
    digits that [getCardBin] and [getCardLast4] return, and hides every
    other digit behind a star. *)
Theorem maskPan_reveals_bin_and_last4 (pan : string) :
  isValidPan pan = true ->
  exists masked,
    maskPan pan = Ok masked
    /\ String.length masked = String.length pan
    /\ getCardBin pan = Ok (sliceFirst 6 masked)
    /\ getCardLast4 pan = Ok (sliceLast 4 masked)
    /\ count_occ ascii_dec (list_ascii_of_string masked) "*"%char
       = (String.length pan - 10)%nat.
Proof.
  intros Hvalid.
  destruct (maskPan_chars pan Hvalid) as [masked [Hmask Hchars]].
  destruct (isValidPan_shape pan Hvalid) as [[Hlo Hhi] Hdigits].
  pose proof (length_chars pan) as Hlen.
  set (l := list_ascii_of_string pan) in *.
  assert (Hmlen : String.length masked = String.length pan).
  { rewrite <- (length_chars masked), Hchars, !length_app, length_firstn,
      repeat_length, length_skipn. lia. }
  exists masked. split; [exact Hmask |]. split; [exact Hmlen |].
  unfold getCardBin, getCardLast4. rewrite Hvalid. cbn [negb].
  split; [| split].
  - f_equal. apply chars_inj. unfold sliceFirst.
    rewrite !substring_chars, !skipn_O, Hchars.
    rewrite firstn_app, length_firstn.
    replace (6 - Nat.min 6 (length l))%nat with 0%nat by lia.
    rewrite firstn_O, app_nil_r, firstn_firstn. reflexivity.
  - f_equal. apply chars_inj. unfold sliceLast.
    rewrite !substring_chars, Hmlen, Hchars, app_assoc.
    assert (Hhead : length (firstn 6 l ++ repeat "*"%char (String.length pan - 10))
                    = (String.length pan - 4)%nat)
      by (rewrite length_app, length_firstn, repeat_length; lia).
    rewrite skipn_app, Hhead, Nat.sub_diag, skipn_O.
    rewrite (@skipn_all2 _ (String.length pan - 4)
               (firstn 6 l ++ repeat "*"%char (String.length pan - 10)))
      by (rewrite Hhead; lia).
    reflexivity.
  - rewrite Hchars, !count_occ_app, count_star_repeat.
    rewrite !count_star_digits; [lia | |].
    + apply Forall_drop. exact Hdigits.
    + apply Forall_take. exact Hdigits.
Qed.

Lemma maskPan_reveals_bin_and_last4_witness :
  exists masked,
    maskPan "4242424242424242" = Ok masked
    /\ String.length masked = String.length "4242424242424242"
    /\ getCardBin "4242424242424242" = Ok (sliceFirst 6 masked)
    /\ getCardLast4 "4242424242424242" = Ok (sliceLast 4 masked)
    /\ count_occ ascii_dec (list_ascii_of_string masked) "*"%char
       = (String.length "4242424242424242" - 10)%nat.
Proof.
  apply (maskPan_reveals_bin_and_last4 "4242424242424242"). reflexivity.
Defined.

(** X2.  The mask of a valid PAN is not a valid PAN: every operation of the
    service that takes a PAN throws on it, so a mask can be neither
    tokenized nor masked again. *)
Theorem masked_pan_is_rejected (pan : string) :
  isValidPan pan = true ->
  exists masked,
    maskPan pan = Ok masked
    /\ isValidPan masked = false
    /\ maskPan masked = Throw (Error "Invalid PAN format")
    /\ getCardBin masked = Throw (Error "Invalid PAN format")
    /\ getCardLast4 masked = Throw (Error "Invalid PAN format")
    /\ (forall c iv uuid,
          tokenizeCardNumber c iv uuid masked = Throw (Error "Invalid PAN format"))
    /\ (forall sha256 expMonth expYear,
          generateCardFingerprint sha256 masked expMonth expYear
          = Throw (Error "Invalid PAN format")).
Proof.
  intros Hvalid.
  destruct (maskPan_star pan Hvalid) as [masked [Hmask Hstar]].
  assert (Hinvalid : isValidPan masked = false).
  { destruct (isValidPan masked) eqn:E; [| reflexivity].
    exfalso. exact (isValidPan_digits masked E Hstar). }
  exists masked. unfold maskPan at 2, getCardBin, getCardLast4,
    tokenizeCardNumber, generateCardFingerprint.
  rewrite Hinvalid. cbn [negb]. repeat split; auto.
Qed.

Lemma masked_pan_is_rejected_witness :
  exists masked,
    maskPan "4242424242424242" = Ok masked
    /\ isValidPan masked = false
    /\ maskPan masked = Throw (Error "Invalid PAN format")
    /\ getCardBin masked = Throw (Error "Invalid PAN format")
    /\ getCardLast4 masked = Throw (Error "Invalid PAN format")
    /\ (forall c iv uuid,
          tokenizeCardNumber c iv uuid masked = Throw (Error "Invalid PAN format"))
    /\ (forall sha256 expMonth expYear,
          generateCardFingerprint sha256 masked expMonth expYear
          = Throw (Error "Invalid PAN format")).
Proof.
  apply (masked_pan_is_rejected "4242424242424242"). reflexivity.
Defined.

(** X3.  The fingerprint is a function of the first six digits, the last
    four digits and the expiry alone: two valid PANs that agree on those
    digits get the same fingerprint under every hash. *)
Theorem fingerprint_ignores_middle_digits (sha256 : string -> string)
    (pan1 pan2 : string) (expMonth expYear : Z) :
  isValidPan pan1 = true ->
  isValidPan pan2 = true ->
  sliceFirst 6 pan1 = sliceFirst 6 pan2 ->
  sliceLast 4 pan1 = sliceLast 4 pan2 ->
  exists fingerprint,
    generateCardFingerprint sha256 pan1 expMonth expYear = Ok fingerprint
    /\ generateCardFingerprint sha256 pan2 expMonth expYear = Ok fingerprint.
Proof.
  intros H1 H2 Hbin Hlast.
  unfold generateCardFingerprint, getCardBin. rewrite H1, H2. cbn.
  rewrite Hbin, Hlast. eexists. split; reflexivity.
Qed.

Lemma fingerprint_ignores_middle_digits_witness :
  exists fingerprint,
    generateCardFingerprint (fun data => data) "4242424242424242" 12 2030
    = Ok fingerprint
    /\ generateCardFingerprint (fun data => data) "4242420042424242" 12 2030
       = Ok fingerprint.
Proof.
  apply (fingerprint_ignores_middle_digits (fun data => data)
           "4242424242424242" "4242420042424242" 12 2030);
    reflexivity.
Defined.

(** X4.  An envelope determines what was sealed: under a cipher that
    undoes itself, two calls of [encrypt] that return the same envelope
    were given the same IV and the same text. *)
Theorem encrypt_injective (c : Cipher) (iv1 iv2 : list Byte.byte)
    (x1 x2 envelope : string) :
  CipherCorrect c ->
  encrypt c iv1 x1 = Ok envelope ->
  encrypt c iv2 x2 = Ok envelope ->
  iv1 = iv2 /\ x1 = x2.
Proof.
  intros Hcipher. unfold encrypt.
  destruct (length iv1 =? ENCRYPTION_IV_LENGTH)%nat eqn:Hlen1; [| discriminate].
  destruct (length iv2 =? ENCRYPTION_IV_LENGTH)%nat eqn:Hlen2; [| discriminate].
  cbn [negb]. intros H1 H2. injection H1 as H1. injection H2 as H2.
  assert (Hparts : [toHex iv1;
                    toHex (cipherEncrypt c (ENCRYPTION_KEY c) iv1
                             (list_byte_of_string x1))]
                   = [toHex iv2;
                      toHex (cipherEncrypt c (ENCRYPTION_KEY c) iv2
                               (list_byte_of_string x2))]).
  { rewrite <- !split_envelope. now rewrite H1, H2. }
  injection Hparts as Hiv Hct.
  apply (f_equal fromHex) in Hiv, Hct. rewrite !fromHex_toHex in Hiv, Hct.
  subst iv2. split; [reflexivity |].
  apply Nat.eqb_eq in Hlen1.
  pose proof (Hcipher iv1 (list_byte_of_string x1) Hlen1) as Hd1.
  pose proof (Hcipher iv1 (list_byte_of_string x2) Hlen1) as Hd2.
  rewrite Hct in Hd1. rewrite Hd1 in Hd2. injection Hd2 as Hbytes.
  rewrite <- (string_of_list_byte_of_string x1),
    <- (string_of_list_byte_of_string x2). now rewrite Hbytes.
Qed.

Lemma encrypt_injective_witness :
  repeat Byte.x01 16 = repeat Byte.x01 16
  /\ "4242424242424242" = "4242424242424242".
Proof.
  apply (encrypt_injective Sample.reversingCipher
           (repeat Byte.x01 16) (repeat Byte.x01 16)
           "4242424242424242" "4242424242424242"
           "01010101010101010101010101010101:32343234323432343234323432343234").
  - exact reversingCipher_correct.
  - reflexivity.
  - reflexivity.
Defined.

End CardDigits.

(** ** What sanitized data holds *)

Section SanitizedData.

Lemma isValidPan_REDACTED : isValidPan REDACTED = false.
Proof. reflexivity. Qed.

(** What the loop stores under a key is allowed there, and is itself
    clean when the recursive call returns clean data. *)
Lemma sanitized_clean (key : string) (v : value) :
  everyProperty cleanProperty (secureSanitizeObject v) = true ->
  cleanProperty key (sanitized key v) = true
  /\ everyProperty cleanProperty (sanitized key v) = true.
Proof.
  intros IHv. unfold sanitized, sanitizeProperty, cleanProperty.
  destruct (existsb (String.eqb key) PCI_FIELDS) eqn:Hpci; [now split |].
  destruct ((key =? "cardNumber")%string || (key =? "pan")%string) eqn:Hkey.
  - assert (Hmasks : forall pan,
               exists s, try_or
                           (if isValidPan pan
                            then masked ← maskPan pan; Ok (VStr masked)
                            else Ok (VStr REDACTED)) (VStr REDACTED) = VStr s
                         /\ isValidPan s = false).
    { intros pan. destruct (isValidPan pan) eqn:Hvalid.
      - destruct (maskPan_star pan Hvalid) as [masked [Hmask Hstar]].
        rewrite Hmask. exists masked. split; [reflexivity |].
        destruct (isValidPan masked) eqn:E; [| reflexivity].
        exfalso. exact (isValidPan_digits masked E Hstar).
      - exists REDACTED. now split. }
    destruct v as [ | b | q | pan | items | fields];
      try (destruct (key =? "pan")%string; now split).
    destruct (Hmasks pan) as [s [-> Hs]]. rewrite Hs.
    destruct (key =? "pan")%string; now split.
  - apply orb_false_iff in Hkey. destruct Hkey as [_ ->].
    destruct (isNonNullObject v) eqn:Hobj; [now split |].
    split; [reflexivity |]. destruct v; try reflexivity; discriminate Hobj.
Qed.

(** Sanitized data is clean at every depth. *)
Lemma secureSanitizeObject_clean (x : value) :
  everyProperty cleanProperty (secureSanitizeObject x) = true.
Proof.
  induction x as [ | b | q | s | items IH | fields IH] using value_nested_ind;
    try reflexivity.
  - rewrite secureSanitizeObject_VArr. cbn [everyProperty].
    generalize 0%nat as i.
    induction IH as [|v items IHv _ IHitems]; intros i; cbn [mapi_from forallb].
    + reflexivity.
    + destruct (sanitized_clean (indexKey i) v IHv) as [-> ->].
      cbn [andb]. apply IHitems.
  - rewrite secureSanitizeObject_VObj. cbn [everyProperty].
    induction IH as [|[key v] fields IHv _ IHfields]; cbn [map forallb fst snd] in *.
    + reflexivity.
    + destruct (sanitized_clean key v IHv) as [-> ->].
      cbn [andb]. exact IHfields.
Qed.

(** X5.  In sanitized data, at every depth, a key that is a PCI field name
    (cardNumber, cvv, cardholderName, cardTrack1, cardTrack2, pin) holds
    '[REDACTED]', and a key 'pan' holds a string that is not a valid PAN. *)
Theorem sanitized_data_is_clean (x : value) :
  everyProperty cleanProperty (secureSanitizeObject x) = true.
Proof. exact (secureSanitizeObject_clean x). Qed.

(** X6.  The sanitizer goes by key names only: data without arrays in
    which no key is a PCI field name or 'pan' comes back unchanged, card
    numbers stored under other keys included. *)
Theorem secureSanitizeObject_plain_unchanged (x : value) :
  isPlain x = true -> secureSanitizeObject x = x.
Proof.
  induction x as [ | b | q | s | items IH | fields IH] using value_nested_ind;
    intros Hplain; try reflexivity; [discriminate Hplain |].
  rewrite secureSanitizeObject_VObj. f_equal. cbn [isPlain] in Hplain.
  induction IH as [|[key v] fields IHv _ IHfields]; cbn [map forallb fst snd] in *.
  - reflexivity.
  - apply andb_true_iff in Hplain. destruct Hplain as [Hhead Hrest].
    apply andb_true_iff in Hhead. destruct Hhead as [Hkeys Hv].
    apply andb_true_iff in Hkeys. destruct Hkeys as [Hpci Hpan].
    apply negb_true_iff in Hpci, Hpan.
    rewrite (IHfields Hrest). do 2 f_equal.
    unfold sanitized, sanitizeProperty. rewrite Hpci, Hpan.
    destruct (String.eqb_spec key "cardNumber") as [-> | _];
      [discriminate Hpci |].
    cbn [orb]. rewrite (IHv Hv). now destruct (isNonNullObject v).
Qed.

Lemma secureSanitizeObject_plain_unchanged_witness :
  secureSanitizeObject Sample.plainMetadata = Sample.plainMetadata.
Proof.
  apply (secureSanitizeObject_plain_unchanged Sample.plainMetadata).
  reflexivity.
Defined.

End SanitizedData.

(** ** Conditions and rules *)

Section Conditions.

(** A key outside the supported condition types falls to the default
    branch of the switch. *)
Lemma evaluateCondition_unsupported (env : Env) (conditionType : string)
    (conditionValue : value) (txData : TxData.t) (transaction : Transaction.t) :
  ~ In conditionType SUPPORTED_CONDITIONS ->
  evaluateCondition env conditionType conditionValue txData transaction = Ok false.
Proof.
  intros Hnot. unfold evaluateCondition.
  repeat match goal with
         | |- context [(conditionType =? ?name)%string] =>
             destruct (String.eqb_spec conditionType name) as [Heq | _];
             [exfalso; apply Hnot; rewrite Heq; cbn; tauto |]
         end.
  reflexivity.
Qed.

Lemma evaluateConditions_true_iff (env : Env) (entries : list (string * value))
    (txData : TxData.t) (transaction : Transaction.t) :
  evaluateConditions env entries txData transaction = Ok true
  <-> Forall (fun kv => evaluateCondition env (fst kv) (snd kv) txData transaction
                        = Ok true) entries.
Proof.
  induction entries as [|[key v] entries IH]; cbn [evaluateConditions].
  - split; [constructor | reflexivity].
  - rewrite List.Forall_cons_iff. cbn [fst snd]. rewrite <- IH.
    destruct (evaluateCondition env key v txData transaction) as [[|]|e]; cbn;
      split; try tauto; try (intros [? ?]; discriminate); discriminate.
Qed.

Lemma lookupField_In (key : string) (fields : list (string * value)) (v : value) :
  lookupField key fields = Some v -> In (key, v) fields.
Proof.
  induction fields as [|[k w] fields IH]; cbn [lookupField]; [discriminate |].
  destruct (String.eqb_spec k key) as [-> | _].
  - intros H. injection H as ->. now left.
  - intros H. right. now apply IH.
Qed.

(** A rule that matches went through the loop over its conditions. *)
Lemma evaluateRule_true_loop (env : Env) (transaction : Transaction.t)
    (rule : Rule.t) :
  evaluateRule env transaction rule = Ok true ->
  evaluateConditions env (objectEntries (Rule.conditions rule))
    (prepareTransactionData transaction) transaction = Ok true.
Proof.
  unfold evaluateRule.
  destruct (negb (truthy (Rule.conditions rule))
            || (length (objectEntries (Rule.conditions rule)) =? 0)%nat);
    [discriminate |].
  destruct (evaluateConditions env _ _ _) as [[|]|e]; cbn;
    [reflexivity | discriminate | discriminate].
Qed.

(** X7.  A rule matches exactly when its condition map is a non-empty
    object and every one of its entries is a satisfied condition: AND over
    the keys, with nothing contributed by the card block. *)
Theorem evaluateRule_matches_iff (env : Env) (transaction : Transaction.t)
    (rule : Rule.t) :
  evaluateRule env transaction rule = Ok true
  <-> truthy (Rule.conditions rule) = true
      /\ objectEntries (Rule.conditions rule) <> []
      /\ Forall (fun kv =>
                   evaluateCondition env (fst kv) (snd kv)
                     (prepareTransactionData transaction) transaction = Ok true)
                (objectEntries (Rule.conditions rule)).
Proof.
  unfold evaluateRule. rewrite <- evaluateConditions_true_iff.
  destruct (truthy (Rule.conditions rule)) eqn:Htruthy; cbn [negb orb];
    [| split; [discriminate | intros [H _]; discriminate H]].
  destruct (objectEntries (Rule.conditions rule)) as [|entry entries] eqn:Hentries;
    cbn [length Nat.eqb].
  - split; [discriminate | intros [_ [H _]]; contradiction].
  - rewrite <- Hentries.
    destruct (evaluateConditions env _ _ _) as [[|]|e] eqn:Hloop; cbn.
    + split; [intros _; repeat split; rewrite Hentries; discriminate |].
      intros _.
      destruct (Transaction.paymentMethod transaction) as [paymentMethod|];
        [| reflexivity].
      destruct (getProp (Rule.conditions rule) "card") as [card|] eqn:Hcard;
        [| reflexivity].
      exfalso.
      destruct (Rule.conditions rule) as [ | | | | | fields]; try discriminate Hcard.
      cbn [getProp objectEntries] in *.
      apply evaluateConditions_true_iff in Hloop.
      rewrite List.Forall_forall in Hloop.
      specialize (Hloop _ (lookupField_In _ _ _ Hcard)). discriminate Hloop.
    + split; [discriminate | intros [_ [_ H]]; discriminate H].
    + split; [discriminate | intros [_ [_ H]]; discriminate H].
Qed.

Lemma evaluateConditions_unsupported_key (env : Env)
    (entries : list (string * value)) (key : string)
    (txData : TxData.t) (transaction : Transaction.t) :
  In key (map fst entries) -> ~ In key SUPPORTED_CONDITIONS ->
  evaluateConditions env entries txData transaction <> Ok true.
Proof.
  intros Hin Hnot Hloop. apply evaluateConditions_true_iff in Hloop.
  apply in_map_iff in Hin. destruct Hin as [[k v] [Hk Hkv]]. cbn in Hk. subst k.
  rewrite List.Forall_forall in Hloop. specialize (Hloop _ Hkv). cbn [fst snd] in Hloop.
  rewrite evaluateCondition_unsupported in Hloop by exact Hnot. discriminate Hloop.
Qed.

(** X8.  A rule that carries any key outside the twelve supported
    condition types is reported as not matched, whatever its other
    conditions and the transaction. *)
Theorem unsupported_condition_never_matches (env : Env)
    (transaction : Transaction.t) (rules : list Rule.t) (rule : Rule.t)
    (key : string) :
  In rule rules ->
  In key (map fst (objectEntries (Rule.conditions rule))) ->
  ~ In key SUPPORTED_CONDITIONS ->
  exists results : list RuleResult.t,
    evaluateRules env transaction rules = Ok results
    /\ In (ruleResult rule false) results.
Proof.
  intros Hin Hkey Hnot. eexists. split; [apply evaluateRules_eq |].
  apply in_map_iff. exists rule. split.
  - f_equal. unfold matchedFlag.
    destruct (evaluateRule env transaction rule) as [[|]|e] eqn:Hrule;
      try reflexivity.
    exfalso. apply evaluateRule_true_loop in Hrule.
    exact (evaluateConditions_unsupported_key env _ key _ _ Hkey Hnot Hrule).
  - apply (Permutation_in _ (Permutation_sym (sort_perm rules))), Hin.
Qed.

Lemma unsupported_condition_never_matches_witness :
  exists results : list RuleResult.t,
    evaluateRules Sample.env
      (Sample.cardTransaction "Test Merchant" "tkn_risky123" "fp_risk123")
      [Sample.unconditionedRule; Sample.highRiskRule] = Ok results
    /\ In (ruleResult Sample.highRiskRule false) results.
Proof.
  apply (unsupported_condition_never_matches Sample.env
           (Sample.cardTransaction "Test Merchant" "tkn_risky123" "fp_risk123")
           [Sample.unconditionedRule; Sample.highRiskRule]
           Sample.highRiskRule "card").
  - right. left. reflexivity.
  - left. reflexivity.
  - cbn. intuition discriminate.
Defined.

End Conditions.

(** ** Merchant names *)

Section MerchantNames.

Lemma startsWith_refl (l : list ascii) : startsWith l l = true.
Proof.
  induction l as [|c l IH]; [reflexivity |]. cbn. now rewrite Ascii.eqb_refl.
Qed.

Lemma includes_refl (s : string) : includes s s = true.
Proof.
  unfold includes. destruct (list_ascii_of_string s) as [|c l] eqn:E;
    [reflexivity |].
  cbn [includesChars]. now rewrite startsWith_refl.
Qed.

(** X9.  The substring-style check is the weaker of the two merchant name
    conditions: whenever [merchant_name_equals] matches a string value,
    enriched transaction or not, [merchant_name_contains] matches it too. *)
Theorem merchant_name_equals_implies_contains (env : Env)
    (txData : TxData.t) (transaction : Transaction.t) (expected : string) :
  evaluateCondition env "merchant_name_equals" (VStr expected) txData transaction
  = Ok true ->
  evaluateCondition env "merchant_name_contains" (VStr expected) txData transaction
  = Ok true.
Proof.
  unfold evaluateCondition. cbn [String.eqb Ascii.eqb Bool.eqb].
  destruct (TxData.isEnriched txData); cbn [negb].
  - unfold stringMatch, stringContains.
    destruct (TxData.merchantName txData) as [actual|]; [| discriminate].
    destruct (actual =? "")%string; [discriminate |].
    intros H. injection H as H. apply String.eqb_eq in H. rewrite H.
    now rewrite includes_refl.
  - unfold smartStringMatch, orElse.
    destruct (TxData.merchantName txData) as [actual|]; [| discriminate].
    cbn [truthyStr].
    destruct (actual =? "")%string; [discriminate |]. cbn [negb].
    destruct (computeConfidenceScore env actual (VStr expected)) as [score|e];
      [| discriminate].
    cbn. intros H. injection H as H. f_equal.
    apply Qle_bool_iff in H. apply Qle_bool_iff.
    unfold CONFIDENCE_THRESHOLD in *. lra.
Qed.

Lemma merchant_name_equals_implies_contains_witness :
  evaluateCondition Sample.env "merchant_name_contains" (VStr "A.")
    (prepareTransactionData (Sample.cardTransaction "A&" "tkn_valid123" "fp_abc123"))
    (Sample.cardTransaction "A&" "tkn_valid123" "fp_abc123")
  = Ok true.
Proof.
  apply (merchant_name_equals_implies_contains Sample.env
           (prepareTransactionData
              (Sample.cardTransaction "A&" "tkn_valid123" "fp_abc123"))
           (Sample.cardTransaction "A&" "tkn_valid123" "fp_abc123") "A.").
  reflexivity.
Defined.

(** *** The shape of a cleaned name *)

Lemma word_not_space (c : ascii) : isWord c = true -> isSpace c = false.
Proof.
  unfold isWord, isSpace, isLetter, isUpper, isLower, isDigit.
  rewrite !orb_true_iff, !andb_true_iff, !Nat.leb_le, !Nat.eqb_eq.
  intros Hword.
  destruct ((nat_of_ascii c =? 32)%nat
            || (9 <=? nat_of_ascii c)%nat && (nat_of_ascii c <=? 13)%nat) eqn:E;
    [| reflexivity].
  rewrite orb_true_iff, andb_true_iff, !Nat.leb_le, Nat.eqb_eq in E. lia.
Qed.

(** [collapseSpaces] after [blankPunctuation]: a run of word characters
    [w], then runs of word characters each preceded by one space.  Only
    the last run may be empty (a trailing space); [w] is empty only when
    the text starts with a space or is empty. *)
Lemma collapse_blank_shape (s : list ascii) (inRun : bool) :
  exists (w : list ascii) (runs : list (list ascii)),
    collapseSpaces inRun (blankPunctuation s)
    = w ++ flat_map (fun run => " "%char :: run) runs
    /\ Forall (fun c => isWord c = true) w
    /\ Forall (fun run => Forall (fun c => isWord c = true) run) runs
    /\ Forall (fun run => run <> []) (removelast runs)
    /\ (runs <> [] -> w = [] -> inRun = false)
    /\ (runs <> [] -> w = [] -> hd [] runs = [] -> runs = [[]]).
Proof.
  revert inRun. induction s as [|c s IH]; intros inRun.
  - exists [], []. cbn. repeat split; try constructor; congruence.
  - cbn [blankPunctuation map collapseSpaces].
    fold (blankPunctuation s).
    destruct (isWord c) eqn:Hword; cbn [orb].
    + rewrite (word_not_space c Hword).
      destruct (IH false) as [w [runs [Heq [Hw [Hruns [Hne [_ Hhd]]]]]]].
      exists (c :: w), runs. rewrite Heq. repeat split; auto; discriminate.
    + assert (Hblank : isSpace (if isSpace c then c else " "%char) = true)
        by (destruct (isSpace c) eqn:E; [exact E | reflexivity]).
      rewrite Hblank.
      destruct (IH true) as [w [runs [Heq [Hw [Hruns [Hne [Hlead Hhd]]]]]]].
      destruct inRun.
      * exists w, runs. rewrite Heq. repeat split; auto.
      * exists [], (w :: runs). rewrite Heq. cbn [flat_map app].
        repeat split; auto.
        -- destruct runs as [|r runs]; [constructor |].
           cbn [removelast]. constructor; [| exact Hne].
           intros ->. specialize (Hlead ltac:(discriminate) eq_refl).
           discriminate.
        -- intros _ _ Hw0. cbn [hd] in Hw0. subst w.
           destruct runs as [|r runs]; [reflexivity |].
           specialize (Hlead ltac:(discriminate) eq_refl). discriminate.
Qed.

Lemma dropWhile_space_word (c : ascii) (rest : list ascii) :
  isWord c = true -> dropWhile isSpace (c :: rest) = c :: rest.
Proof. intros Hc. cbn. now rewrite (word_not_space c Hc). Qed.

Lemma trimEnd_snoc (l : list ascii) (x : ascii) :
  rev (dropWhile isSpace (rev (l ++ [x])))
  = if isSpace x then rev (dropWhile isSpace (rev l)) else l ++ [x].
Proof.
  rewrite rev_app_distr. cbn [rev app dropWhile].
  destruct (isSpace x); [reflexivity |]. cbn [rev]. now rewrite rev_involutive.
Qed.

(** Word runs joined by single spaces end with a word character. *)
Lemma joined_runs_end (w : list ascii) (runs : list (list ascii)) :
  Forall (fun c => isWord c = true) w ->
  Forall (fun run => Forall (fun c => isWord c = true) run) runs ->
  Forall (fun run => run <> []) runs ->
  w <> [] \/ runs <> [] ->
  exists l x, w ++ flat_map (fun run => " "%char :: run) runs = l ++ [x]
              /\ isWord x = true.
Proof.
  intros Hw Hruns Hne Hsome.
  destruct (exists_last (l := w ++ flat_map (fun run => " "%char :: run) runs))
    as [l [x Hlx]].
  { destruct Hsome as [H | H].
    - destruct w; [contradiction | discriminate].
    - destruct runs; [contradiction |]. destruct w; discriminate. }
  exists l, x. split; [exact Hlx |].
  assert (Hin : In x (w ++ flat_map (fun run => " "%char :: run) runs))
    by (rewrite Hlx; apply in_or_app; right; now left).
  destruct runs as [|r runs _] using rev_ind.
  - cbn in Hin. rewrite app_nil_r in Hin, Hlx.
    rewrite List.Forall_forall in Hw. now apply Hw.
  - apply Forall_app in Hruns, Hne. destruct Hruns as [_ Hr], Hne as [_ Hrne].
    inversion Hr as [|? ? Hrw _]; subst. inversion Hrne as [|? ? Hrn _]; subst.
    destruct (exists_last Hrn) as [r0 [y Hr0]]. subst r.
    rewrite flat_map_app in Hlx. cbn [flat_map] in Hlx.
    rewrite app_nil_r in Hlx.
    replace (w ++ flat_map (fun run => " "%char :: run) runs ++ " "%char :: r0 ++ [y])
      with ((w ++ flat_map (fun run => " "%char :: run) runs ++ " "%char :: r0) ++ [y])
      in Hlx by (rewrite <- !app_assoc; reflexivity).
    apply app_inj_tail in Hlx. destruct Hlx as [_ <-].
    rewrite List.Forall_forall in Hrw. apply Hrw, in_or_app. right. now left.
Qed.

(** X10.  A cleaned merchant name is empty or a sequence of words made of
    letters, digits and underscores, separated by single spaces, with no
    space at either end. *)
Theorem cleanMerchantName_words (merchantName : string) :
  cleanMerchantName merchantName = ""
  \/ exists (first : list ascii) (rest : list (list ascii)),
       list_ascii_of_string (cleanMerchantName merchantName)
       = first ++ flat_map (fun run => " "%char :: run) rest
       /\ isWordRun first /\ Forall isWordRun rest.
Proof.
  unfold cleanMerchantName.
  destruct (merchantName =? "")%string; [now left |].
  set (stripped := stripDashSuffix _).
  destruct (collapse_blank_shape stripped false)
    as [w [runs [Heq [Hw [Hruns [Hne [_ Hhd]]]]]]].
  rewrite Heq. clear Heq. unfold trim.
  (* leading spaces *)
  assert (Hlead : exists w' runs',
             dropWhile isSpace (w ++ flat_map (fun run => " "%char :: run) runs)
             = w' ++ flat_map (fun run => " "%char :: run) runs'
             /\ Forall (fun c => isWord c = true) w'
             /\ Forall (fun run => Forall (fun c => isWord c = true) run) runs'
             /\ Forall (fun run => run <> []) (removelast runs')
             /\ (w' = [] -> runs' = [])).
  { destruct w as [|c w].
    - destruct runs as [|r runs].
      + exists [], []. cbn. repeat split; auto.
      + cbn [app flat_map dropWhile]. change (isSpace " ") with true. cbn iota.
        destruct r as [|c r].
        * pose proof (Hhd ltac:(discriminate) eq_refl eq_refl) as Hone.
          injection Hone as ->.
          exists [], []. cbn. repeat split; auto.
        * inversion Hruns as [|? ? Hr Hrest]; subst.
          inversion Hr as [|? ? Hc Hrr]; subst.
          rewrite <- app_comm_cons, (dropWhile_space_word c _ Hc).
          exists (c :: r), runs. repeat split; auto; try discriminate.
          destruct runs as [|r' runs]; [constructor |].
          cbn [removelast] in Hne. now inversion Hne.
    - inversion Hw as [|? ? Hc _]; subst.
      rewrite <- app_comm_cons, (dropWhile_space_word c _ Hc).
      exists (c :: w), runs. repeat split; auto; discriminate. }
  destruct Hlead as [w' [runs' [-> [Hw' [Hruns' [Hne' Hempty]]]]]].
  clear w runs Hw Hruns Hne Hhd.
  (* trailing spaces *)
  destruct runs' as [|r runs' _] using rev_ind.
  - cbn [flat_map]. rewrite app_nil_r.
    destruct w' as [|c w'].
    + left. reflexivity.
    + right. exists (c :: w'), [].
      destruct (joined_runs_end (c :: w') [] Hw' ltac:(constructor)
                  ltac:(constructor) ltac:(left; discriminate))
        as [l [x [Hlx Hx]]].
      cbn [flat_map] in Hlx. rewrite app_nil_r in Hlx.
      rewrite Hlx, trimEnd_snoc, (word_not_space x Hx), <- Hlx.
      rewrite list_ascii_of_string_of_list_ascii. cbn [flat_map].
      rewrite app_nil_r. repeat split; auto; discriminate.
  - right.
    assert (Hw0 : w' <> []) by (intros ->; destruct runs'; discriminate (Hempty eq_refl)).
    rewrite removelast_last in Hne'.
    apply Forall_app in Hruns'. destruct Hruns' as [Hruns' Hr].
    inversion Hr as [|? ? Hrw _]; subst.
    destruct r as [|c r].
    + (* a trailing space *)
      exists w', runs'.
      rewrite flat_map_app. cbn [flat_map]. rewrite app_nil_r, app_assoc.
      rewrite trimEnd_snoc. change (isSpace " ") with true. cbn iota.
      destruct (joined_runs_end w' runs' Hw' Hruns' Hne' ltac:(now left))
        as [l [x [Hlx Hx]]].
      rewrite Hlx, trimEnd_snoc, (word_not_space x Hx), <- Hlx.
      rewrite list_ascii_of_string_of_list_ascii.
      repeat split; auto.
      rewrite List.Forall_forall in *. intros run Hin.
      split; [now apply Hne' | now apply Hruns'].
    + exists w', (runs' ++ [c :: r]).
      assert (Hall : Forall (fun run => run <> []) (runs' ++ [c :: r])).
      { apply Forall_app. split; [exact Hne' |].
        constructor; [discriminate | constructor]. }
      assert (Hwords : Forall (fun run => Forall (fun c => isWord c = true) run)
                         (runs' ++ [c :: r])).
      { apply Forall_app. split; [exact Hruns' | now constructor]. }
      destruct (joined_runs_end w' (runs' ++ [c :: r]) Hw' Hwords Hall
                  ltac:(now left)) as [l [x [Hlx Hx]]].
      rewrite Hlx, trimEnd_snoc, (word_not_space x Hx), <- Hlx.
      rewrite list_ascii_of_string_of_list_ascii.
      repeat split; auto.
      rewrite List.Forall_forall in *. intros run Hin.
      split; [now apply Hall | now apply Hwords].
Qed.

End MerchantNames.

(** ** Transfers and the accounts table *)

Section Ledger.

#[local] Open Scope Q_scope.

(** The paths of [transferFunds], fault by fault. *)
Lemma transferFunds_paths (faults : DbOp -> bool)
    (fromAccountId toAccountId : string) (amount : Q)
    (db : gmap string Account.t) :
  transferFunds faults fromAccountId toAccountId amount db
  = if faults Connect || faults StartTransaction || faults FindSource
    then (false, db)
    else
      match db !! fromAccountId with
      | None => (false, db)
      | Some sourceAccount =>
          if Qltb (Account.balance sourceAccount) amount then (false, db)
          else if faults FindDest then (false, db)
          else
            match db !! toAccountId with
            | None => (false, db)
            | Some destAccount =>
                if faults SaveSource || faults SaveDest || faults Commit
                then (false, db)
                else
                  (true,
                   <[Account.id destAccount :=
                       withBalance destAccount
                         (Account.balance destAccount + amount)]>
                     (<[Account.id sourceAccount :=
                          withBalance sourceAccount
                            (Account.balance sourceAccount - amount)]> db))
            end
      end.
Proof.
  unfold transferFunds, transferFundsM, tryCatchM, connect, startTransaction,
    findOne, save, commitTransaction, rollbackTransaction, attempt, getsM,
    modifyM, mbind, M_bind, bindM, mret, M_ret, retM.
  cbn [database pending isTransactionActive].
  destruct (faults Connect); [reflexivity |].
  destruct (faults StartTransaction); [reflexivity |].
  destruct (faults FindSource); [reflexivity |].
  cbn [orb database pending isTransactionActive].
  destruct (db !! fromAccountId) as [sourceAccount |]; [| reflexivity].
  destruct (Qltb (Account.balance sourceAccount) amount); [reflexivity |].
  destruct (faults FindDest); [reflexivity |].
  cbn [database pending isTransactionActive].
  destruct (db !! toAccountId) as [destAccount |]; [| reflexivity].
  destruct (faults SaveSource); [reflexivity |].
  destruct (faults SaveDest); [reflexivity |].
  destruct (faults Commit); reflexivity.
Qed.

(** X11.  A transfer answers [true] exactly when no database call fails,
    both accounts exist and the source holds at least the amount; the
    status of the accounts and the sign of the amount play no part. *)
Theorem transferFunds_succeeds_iff (faults : DbOp -> bool)
    (fromAccountId toAccountId : string) (amount : Q)
    (db : gmap string Account.t) :
  (transferFunds faults fromAccountId toAccountId amount db).1 = true
  <-> (forall op, faults op = false)
      /\ exists sourceAccount destAccount : Account.t,
           db !! fromAccountId = Some sourceAccount
           /\ db !! toAccountId = Some destAccount
           /\ amount <= Account.balance sourceAccount.
Proof.
  rewrite transferFunds_paths. split.
  - destruct (faults Connect) eqn:?, (faults StartTransaction) eqn:?,
      (faults FindSource) eqn:?; cbn [orb fst]; try discriminate.
    destruct (db !! fromAccountId) as [sourceAccount |]; [| discriminate].
    destruct (Qltb (Account.balance sourceAccount) amount) eqn:Hcheck;
      [discriminate |].
    destruct (faults FindDest) eqn:?; [discriminate |].
    destruct (db !! toAccountId) as [destAccount |]; [| discriminate].
    destruct (faults SaveSource) eqn:?, (faults SaveDest) eqn:?,
      (faults Commit) eqn:?; cbn [orb fst]; try discriminate.
    intros _. split.
    + intros []; assumption.
    + exists sourceAccount, destAccount. repeat split.
      now apply Qltb_ge.
  - intros [Hfaults [sourceAccount [destAccount [Hsource [Hdest Hamount]]]]].
    rewrite !Hfaults, Hsource, Hdest. cbn [orb].
    apply Qltb_ge in Hamount. rewrite Hamount. reflexivity.
Qed.

(** X12.  A transfer that answers [false] leaves the accounts table as it
    was, at whichever call it stopped: a failure between the two saves or
    at commit is rolled back. *)
Theorem transferFunds_failure_leaves_database (faults : DbOp -> bool)
    (fromAccountId toAccountId : string) (amount : Q)
    (db : gmap string Account.t) :
  (transferFunds faults fromAccountId toAccountId amount db).1 = false ->
  (transferFunds faults fromAccountId toAccountId amount db).2 = db.
Proof.
  rewrite transferFunds_paths.
  repeat match goal with
         | |- context [if ?b then _ else _] => destruct b
         | |- context [match ?o with Some _ => _ | None => _ end] => destruct o
         end; cbn [fst snd]; try reflexivity; discriminate.
Qed.

Lemma transferFunds_failure_leaves_database_witness :
  (transferFunds Sample.saveDestFails "src" "dst" 30 (Sample.twoAccounts 100 10)).2
  = Sample.twoAccounts 100 10.
Proof.
  apply (transferFunds_failure_leaves_database Sample.saveDestFails "src" "dst" 30
           (Sample.twoAccounts 100 10)).
  reflexivity.
Defined.




(** X14.  A transfer from an account to itself is not refused: when it
    succeeds, the balance read back is the old balance plus the amount. *)
Theorem transferFunds_to_same_account (faults : DbOp -> bool)
    (accountId : string) (amount : Q) (db : gmap string Account.t)
    (account : Account.t) :
  db !! accountId = Some account ->
  Account.id account = accountId ->
  (transferFunds faults accountId accountId amount db).1 = true ->
  getAccountBalance false
    (transferFunds faults accountId accountId amount db).2 accountId
  = Some (Account.balance account + amount).
Proof.
  intros Haccount Hid.
  rewrite transferFunds_paths, Haccount.
  repeat match goal with
         | |- context [if ?b then _ else _] => destruct b
         end; cbn [fst snd]; try discriminate.
  intros _. rewrite Hid. unfold getAccountBalance, repositoryFindOne.
  cbn [mbind result_bind bind try_or].
  rewrite lookup_insert_eq. reflexivity.
Qed.

Lemma transferFunds_to_same_account_witness :
  getAccountBalance false
    (transferFunds Sample.noFaults "src" "src" 30 (Sample.twoAccounts 100 10)).2
    "src"
  = Some (100 + 30).
Proof.
  apply (transferFunds_to_same_account Sample.noFaults "src" 30
           (Sample.twoAccounts 100 10) (Sample.account "src" 100)).
  - reflexivity.
  - reflexivity.
  - reflexivity.
Defined.



(** X16.  A transfer changes balances only: on a table whose rows are
    stored under their identifiers, every account is active afterwards
    exactly when it was active before, whether the transfer succeeded or
    not. *)
Theorem transferFunds_preserves_status (faults : DbOp -> bool) (fails : bool)
    (fromAccountId toAccountId : string) (amount : Q)
    (db : gmap string Account.t) (accountId : string) :
  keyedById db ->
  isAccountActive fails
    (transferFunds faults fromAccountId toAccountId amount db).2 accountId
  = isAccountActive fails db accountId.
Proof.
  intros Hkeyed. unfold isAccountActive, repositoryFindOne.
  destruct fails; [reflexivity |]. cbn [mbind result_bind bind try_or].
  rewrite transferFunds_paths.
  destruct (faults Connect || faults StartTransaction || faults FindSource);
    [reflexivity |].
  destruct (db !! fromAccountId) as [sourceAccount |] eqn:Hsource;
    [| reflexivity].
  destruct (Qltb (Account.balance sourceAccount) amount); [reflexivity |].
  destruct (faults FindDest); [reflexivity |].
  destruct (db !! toAccountId) as [destAccount |] eqn:Hdest; [| reflexivity].
  destruct (faults SaveSource || faults SaveDest || faults Commit);
    [reflexivity |].
  cbn [snd]. rewrite (Hkeyed _ _ Hsource), (Hkeyed _ _ Hdest).
  destruct (decide (accountId = toAccountId)) as [-> | Hto].
  { rewrite lookup_insert_eq, Hdest. reflexivity. }
  rewrite lookup_insert_ne by congruence.
  destruct (decide (accountId = fromAccountId)) as [-> | Hfrom].
  { rewrite lookup_insert_eq, Hsource. reflexivity. }
  rewrite lookup_insert_ne by congruence. reflexivity.
Qed.

Lemma transferFunds_preserves_status_witness :
  isAccountActive false
    (transferFunds Sample.noFaults "src" "dst" 30 (Sample.twoAccounts 100 10)).2
    "dst"
  = isAccountActive false (Sample.twoAccounts 100 10) "dst".
Proof.
  apply (transferFunds_preserves_status Sample.noFaults false "src" "dst" 30
           (Sample.twoAccounts 100 10) "dst").
  intros id account Hlookup.
  destruct (decide (id = "src")) as [-> | Hsrc].
  - now injection Hlookup as <-.
  - destruct (decide (id = "dst")) as [-> | Hdst].
    + now injection Hlookup as <-.
    + unfold Sample.twoAccounts in Hlookup.
      rewrite !lookup_insert_ne in Hlookup by congruence.
      rewrite lookup_empty in Hlookup. discriminate.
Defined.

End Ledger.

(** ** Order of evaluation *)

Section RuleOrder.

Lemma filter_insertSorted (p : Z) (x : Rule.t) (l : list Rule.t) :
  List.filter (fun rule => (Rule.priority rule =? p)%Z)
    (insertSorted comparePriority x l)
  = List.filter (fun rule => (Rule.priority rule =? p)%Z) (x :: l).
Proof.
  induction l as [|y l IH]; cbn [insertSorted]; [reflexivity |].
  unfold comparePriority at 1.
  destruct (Rule.priority x - Rule.priority y <=? 0)%Z eqn:Hle; [reflexivity |].
  apply Z.leb_gt in Hle.
  cbn [List.filter] in *. rewrite IH.
  destruct (Rule.priority x =? p)%Z eqn:Hx; [| reflexivity].
  apply Z.eqb_eq in Hx.
  destruct (Rule.priority y =? p)%Z eqn:Hy; [| reflexivity].
  apply Z.eqb_eq in Hy. lia.
Qed.

Lemma filter_sort (p : Z) (rules : list Rule.t) :
  List.filter (fun rule => (Rule.priority rule =? p)%Z) (sort comparePriority rules)
  = List.filter (fun rule => (Rule.priority rule =? p)%Z) rules.
Proof.
  induction rules as [|x rules IH]; [reflexivity |].
  cbn [sort fold_right]. fold (sort comparePriority rules).
  rewrite filter_insertSorted. cbn [List.filter]. now rewrite IH.
Qed.

(** X17.  Rules of equal priority are evaluated, and reported, in the
    order in which they were passed in. *)
Theorem evaluateRules_keeps_order_of_ties (env : Env)
    (transaction : Transaction.t) (rules : list Rule.t) :
  exists evaluated : list Rule.t,
    evaluateRules env transaction rules
    = Ok (map (fun rule => ruleResult rule (matchedFlag env transaction rule))
              evaluated)
    /\ forall priority : Z,
         List.filter (fun rule => (Rule.priority rule =? priority)%Z) evaluated
         = List.filter (fun rule => (Rule.priority rule =? priority)%Z) rules.
Proof.
  exists (sort comparePriority rules). split; [apply evaluateRules_eq |].
  intros priority. apply filter_sort.
Qed.

End RuleOrder.

(** ** Time windows *)

Section Windows.

#[local] Open Scope Q_scope.

(** X18.  An hour window written across midnight (from 22 to 6, say) never
    matches: a rule whose [hour_of_day_between] bounds are numbers with the
    upper one below the lower one is reported as not matched at every hour. *)
Theorem hour_window_across_midnight_never_matches (env : Env)
    (transaction : Transaction.t) (rules : list Rule.t) (rule : Rule.t)
    (lo hi : Q) :
  In rule rules ->
  In ("hour_of_day_between", VArr [VNum lo; VNum hi])
     (objectEntries (Rule.conditions rule)) ->
  hi < lo ->
  exists results : list RuleResult.t,
    evaluateRules env transaction rules = Ok results
    /\ In (ruleResult rule false) results.
Proof.
  intros Hin Hentry Hwrap. eexists. split; [apply evaluateRules_eq |].
  apply in_map_iff. exists rule. split.
  - f_equal. unfold matchedFlag.
    destruct (evaluateRule env transaction rule) as [[|]|e] eqn:Hrule;
      try reflexivity.
    exfalso. apply evaluateRule_true_loop, evaluateConditions_true_iff in Hrule.
    rewrite List.Forall_forall in Hrule. specialize (Hrule _ Hentry).
    cbn in Hrule. injection Hrule as Hrule.
    apply andb_true_iff in Hrule. destruct Hrule as [Hlo Hhi].
    apply Qle_bool_iff in Hlo, Hhi. lra.
  - apply (Permutation_in _ (Permutation_sym (sort_perm rules))), Hin.
Qed.

Lemma hour_window_across_midnight_never_matches_witness :
  exists results : list RuleResult.t,
    evaluateRules Sample.env
      (Sample.cardTransaction "Test Merchant" "tkn_valid123" "fp_abc123")
      [Sample.nightRule] = Ok results
    /\ In (ruleResult Sample.nightRule false) results.
Proof.
  apply (hour_window_across_midnight_never_matches Sample.env
           (Sample.cardTransaction "Test Merchant" "tkn_valid123" "fp_abc123")
           [Sample.nightRule] Sample.nightRule 22 6).
  - left. reflexivity.
  - left. reflexivity.
  - reflexivity.
Defined.

End Windows.

(** ** Card rules *)

Section CardRules.

Ltac case_block :=
  match goal with
  | |- context [match ?x with Some _ => _ | None => _ end] => destruct x
  | |- context [if ?x then _ else _] => destruct x
  | |- context [someM ?f ?l] => destruct (someM f l) as [[|]|]
  end;
  cbn [andThen mbind result_bind bind andb orb negb].

(** Only the exact string 'and' selects AND logic in a card rule:
    with any other operator value the answer is the one for 'or'. *)
Theorem evaluateCardRule_operator_defaults_to_or (env : Env) (operator : value)
    (others : list (string * value)) (transactionData : TxData.t) :
  strictEqStr operator "and" = false ->
  evaluateCardRule env (VObj (("operator", operator) :: others)) transactionData
  = evaluateCardRule env (VObj (("operator", VStr "or") :: others)) transactionData.
Proof.
  intros Hand. unfold evaluateCardRule.
  cbn [getProp lookupField String.eqb Ascii.eqb Bool.eqb truthy negb].
  set (op := if truthy operator then operator else VStr "or").
  assert (Hop : strictEqStr op "and" = false)
    by (subst op; destruct (truthy operator); [exact Hand | reflexivity]).
  clearbody op. unfold combine. rewrite Hop.
  change (strictEqStr (VStr "or") "or") with true.
  change (strictEqStr (VStr "or") "and") with false.
  cbn [andb].
  destruct (strictEqStr op "or"); cbn [andb]; [reflexivity |].
  repeat case_block; reflexivity.
Qed.

Lemma evaluateCardRule_operator_defaults_to_or_witness :
  evaluateCardRule Sample.env
    (VObj [("operator", VStr "AND"); ("brands", VArr [VStr "visa"]);
           ("highRiskTokens", VArr [VStr "tkn_risky123"])])
    (prepareTransactionData
       (Sample.cardTransaction "Test Merchant" "tkn_valid123" "fp_abc123"))
  = evaluateCardRule Sample.env
      (VObj [("operator", VStr "or"); ("brands", VArr [VStr "visa"]);
             ("highRiskTokens", VArr [VStr "tkn_risky123"])])
      (prepareTransactionData
         (Sample.cardTransaction "Test Merchant" "tkn_valid123" "fp_abc123")).
Proof.
  apply (evaluateCardRule_operator_defaults_to_or Sample.env (VStr "AND")).
  reflexivity.
Defined.

(** A card rule that asks for a valid expiry and nothing else holds
    exactly for a card whose expiry month and year are set and not before
    the current month: a card is still good in the month it expires. *)
Theorem evaluateCardRule_expiry (env : Env) (transactionData : TxData.t) :
  evaluateCardRule env (VObj [("requireValidExpiry", VBool true)]) transactionData
  = Ok true
  <-> exists expiryMonth expiryYear : Z,
        TxData.cardExpiryMonth transactionData = Some expiryMonth
        /\ TxData.cardExpiryYear transactionData = Some expiryYear
        /\ expiryMonth <> 0%Z /\ expiryYear <> 0%Z
        /\ (getFullYear (currentDate env) < expiryYear
            \/ (expiryYear = getFullYear (currentDate env)
                /\ getMonth (currentDate env) + 1 <= expiryMonth))%Z.
Proof.
  unfold evaluateCardRule.
  cbn [getProp lookupField String.eqb Ascii.eqb Bool.eqb truthy truthyProp
       andb negb andThen mbind result_bind bind].
  destruct (TxData.cardExpiryMonth transactionData) as [expiryMonth |];
    [| split; [discriminate | intros [? [? [? _]]]; discriminate]].
  destruct (TxData.cardExpiryYear transactionData) as [expiryYear |];
    [| split; [discriminate | intros [? [? [_ [? _]]]]; discriminate]].
  destruct (Z.eqb_spec expiryMonth 0) as [Hm | Hm]; cbn [negb andb].
  { split; [discriminate | intros [m [y [[= <-] [_ [H _]]]]]; contradiction]. }
  destruct (Z.eqb_spec expiryYear 0) as [Hy | Hy]; cbn [negb andb].
  { split; [discriminate | intros [m [y [_ [[= <-] [_ [H _]]]]]]; contradiction]. }
  unfold combine. cbn [strictEqStr String.eqb Ascii.eqb Bool.eqb andb].
  destruct (Z.ltb_spec expiryYear (getFullYear (currentDate env)));
    destruct (Z.eqb_spec expiryYear (getFullYear (currentDate env)));
    destruct (Z.ltb_spec expiryMonth (getMonth (currentDate env) + 1));
    cbn [orb andb negb]; split;
    try discriminate; try reflexivity;
    try (intros [m [y [[= <-] [[= <-] [_ [_ H']]]]]]; lia);
    intros _; exists expiryMonth, expiryYear; repeat split; auto; lia.
Qed.

End CardRules.

(** ** Behavioural checks *)

Section BehaviouralChecks.

#[local] Open Scope Q_scope.

(** Every behavioural finding is a matched result with action REVIEW. *)
Lemma pushIf_reviews (results : list RuleResult.t) (r : option RuleResult.t) :
  Forall (fun r => RuleResult.action r = REVIEW /\ RuleResult.matched r = true)
    results ->
  (forall found, r = Some found ->
     RuleResult.action found = REVIEW /\ RuleResult.matched found = true) ->
  Forall (fun r => RuleResult.action r = REVIEW /\ RuleResult.matched r = true)
    (pushIf results r)
  /\ (length (pushIf results r) <= S (length results))%nat.
Proof.
  intros Hall Hr. destruct r as [found |]; cbn [pushIf].
  - split; [apply Forall_app; split; [exact Hall | constructor; auto] |].
    rewrite length_app. cbn. lia.
  - split; [exact Hall | lia].
Qed.

Ltac finding :=
  repeat match goal with
         | |- context [match ?x with _ => _ end] => destruct x
         end;
  intros found Hfound; try discriminate Hfound;
  injection Hfound as <-; split; reflexivity.

Lemma detectNewPaymentMethod_review (transaction : Transaction.t)
    (history : list Transaction.t) (found : RuleResult.t) :
  detectNewPaymentMethod transaction history = Ok (Some found) ->
  RuleResult.action found = REVIEW /\ RuleResult.matched found = true.
Proof. revert found. unfold detectNewPaymentMethod. finding. Qed.

Lemma detectAmountAnomaly_review (env : Env) (transaction : Transaction.t)
    (history : list Transaction.t) (found : RuleResult.t) :
  detectAmountAnomaly env transaction history = Ok (Some found) ->
  RuleResult.action found = REVIEW /\ RuleResult.matched found = true.
Proof.
  revert found. unfold detectAmountAnomaly.
  destruct (length history <? 3)%nat; [discriminate |].
  cbv zeta. destruct (Qltb 3 _); [| discriminate].
  intros found Hfound. injection Hfound as <-. split; reflexivity.
Qed.

Lemma detectMerchantCategoryAnomaly_review (transaction : Transaction.t)
    (history : list Transaction.t) (found : RuleResult.t) :
  detectMerchantCategoryAnomaly transaction history = Ok (Some found) ->
  RuleResult.action found = REVIEW /\ RuleResult.matched found = true.
Proof.
  revert found. unfold detectMerchantCategoryAnomaly.
  destruct (Transaction.merchantCategoryCode transaction); [| discriminate].
  destruct (_ || _); [discriminate |].
  cbv zeta. destruct (negb _); [| discriminate].
  intros found Hfound. injection Hfound as <-. split; reflexivity.
Qed.

Lemma detectLocationAnomaly_review (env : Env) (transaction : Transaction.t)
    (history : list Transaction.t) (account : Account.t) (found : RuleResult.t) :
  detectLocationAnomaly env transaction history account = Ok (Some found) ->
  RuleResult.action found = REVIEW /\ RuleResult.matched found = true.
Proof.
  revert found. unfold detectLocationAnomaly.
  destruct (Transaction.countryCode transaction); [| discriminate].
  destruct (_ =? _)%string; [discriminate |].
  cbv zeta. destruct (_ && _); [| discriminate].
  intros found Hfound. injection Hfound as <-. split; reflexivity.
Qed.

Lemma detectTimePatternAnomaly_review (transaction : Transaction.t)
    (history : list Transaction.t) (found : RuleResult.t) :
  detectTimePatternAnomaly transaction history = Ok (Some found) ->
  RuleResult.action found = REVIEW /\ RuleResult.matched found = true.
Proof.
  revert found. unfold detectTimePatternAnomaly.
  destruct (length history <? 10)%nat; [discriminate |].
  cbv zeta. destruct (Qltb _ 5); [| discriminate].
  intros found Hfound. injection Hfound as <-. split; reflexivity.
Qed.

Lemma detectVelocityAnomaly_review (repo : TransactionRepository)
    (transaction : Transaction.t) (found : RuleResult.t) :
  detectVelocityAnomaly repo transaction = Ok (Some found) ->
  RuleResult.action found = REVIEW /\ RuleResult.matched found = true.
Proof.
  revert found. unfold detectVelocityAnomaly.
  assert (Haccount : forall found,
             (accountTxCount ←
                countByAccountSince repo (Transaction.accountId transaction) 60%Z;
              if (5 <=? accountTxCount)%nat
              then Ok (Some (behavioralResult "velocity_account"
                               "Account Velocity Check"
                               [("accountId", VStr (Transaction.accountId transaction));
                                ("timeWindowMinutes", VNum (inject_Z 60));
                                ("threshold", VNum (Qnat 5));
                                ("count", VNum (Qnat accountTxCount))]))
              else Ok None) = Ok (Some found) ->
             RuleResult.action found = REVIEW /\ RuleResult.matched found = true).
  { intros found.
    destruct (countByAccountSince repo _ _) as [n |];
      cbn [mbind result_bind bind]; [| discriminate].
    destruct (5 <=? n)%nat; [| discriminate].
    intros Hfound. injection Hfound as <-. split; reflexivity. }
  destruct (Transaction.cardFingerprint transaction) as [fingerprint |];
    cbn [mbind result_bind bind]; [| exact Haccount].
  destruct (fingerprint =? "")%string; cbn [mbind result_bind bind];
    [exact Haccount |].
  destruct (countByCardSince repo _ _) as [n |]; cbn [mbind result_bind bind];
    [| discriminate].
  destruct (3 <=? n)%nat; [| exact Haccount].
  intros found Hfound. injection Hfound as <-. split; reflexivity.
Qed.

(** The behavioural findings are matched results with action REVIEW. *)
Lemma evaluateBehavioralPatterns_reviews (env : Env)
    (repo : TransactionRepository) (transaction : Transaction.t)
    (account : Account.t) :
  exists results : list RuleResult.t,
    evaluateBehavioralPatterns env repo transaction account = Ok results
    /\ (length results <= 6)%nat
    /\ Forall (fun r => RuleResult.action r = REVIEW
                        /\ RuleResult.matched r = true) results.
Proof.
  unfold evaluateBehavioralPatterns.
  assert (Hnone : exists results : list RuleResult.t,
             Ok [] = Ok results
             /\ (length results <= 6)%nat
             /\ Forall (fun r => RuleResult.action r = REVIEW
                                 /\ RuleResult.matched r = true) results)
    by (exists []; repeat split; [cbn; lia | constructor]).
  destruct (getAccountTransactionHistory repo (Account.id account) 50)
    as [txHistory |]; cbn [mbind result_bind bind try_catch]; [| exact Hnone].
  destruct (detectNewPaymentMethod transaction txHistory) as [r1 |] eqn:H1;
    cbn [mbind result_bind bind try_catch]; [| exact Hnone].
  destruct (detectAmountAnomaly env transaction txHistory) as [r2 |] eqn:H2;
    cbn [mbind result_bind bind try_catch]; [| exact Hnone].
  destruct (detectMerchantCategoryAnomaly transaction txHistory) as [r3 |] eqn:H3;
    cbn [mbind result_bind bind try_catch]; [| exact Hnone].
  destruct (detectLocationAnomaly env transaction txHistory account)
    as [r4 |] eqn:H4;
    cbn [mbind result_bind bind try_catch]; [| exact Hnone].
  destruct (detectTimePatternAnomaly transaction txHistory) as [r5 |] eqn:H5;
    cbn [mbind result_bind bind try_catch]; [| exact Hnone].
  destruct (detectVelocityAnomaly repo transaction) as [r6 |] eqn:H6;
    cbn [mbind result_bind bind try_catch]; [| exact Hnone].
  eexists. split; [reflexivity |].
  destruct (pushIf_reviews [] r1 ltac:(constructor)) as [A1 L1].
  { intros found ->. exact (detectNewPaymentMethod_review _ _ _ H1). }
  destruct (pushIf_reviews _ r2 A1) as [A2 L2].
  { intros found ->. exact (detectAmountAnomaly_review _ _ _ _ H2). }
  destruct (pushIf_reviews _ r3 A2) as [A3 L3].
  { intros found ->. exact (detectMerchantCategoryAnomaly_review _ _ _ H3). }
  destruct (pushIf_reviews _ r4 A3) as [A4 L4].
  { intros found ->. exact (detectLocationAnomaly_review _ _ _ _ _ H4). }
  destruct (pushIf_reviews _ r5 A4) as [A5 L5].
  { intros found ->. exact (detectTimePatternAnomaly_review _ _ _ H5). }
  destruct (pushIf_reviews _ r6 A5) as [A6 L6].
  { intros found ->. exact (detectVelocityAnomaly_review _ _ _ H6). }
  split; [cbn [length] in *; lia | exact A6].
Qed.

(** X19.  Behavioural analysis never throws and only ever asks for a
    review: it returns at most six results, each one matched and with
    action REVIEW, never DECLINE, SWEEP or STEP_UP_AUTH. *)
Theorem evaluateBehavioralPatterns_only_reviews (env : Env)
    (repo : TransactionRepository) (transaction : Transaction.t)
    (account : Account.t) :
  exists results : list RuleResult.t,
    evaluateBehavioralPatterns env repo transaction account = Ok results
    /\ (length results <= 6)%nat
    /\ Forall (fun r => RuleResult.action r = REVIEW
                        /\ RuleResult.matched r = true) results.
Proof. exact (evaluateBehavioralPatterns_reviews env repo transaction account). Qed.


Lemma square_nonnegative (x : Q) : 0 <= x * x.
Proof.
  destruct (Qlt_le_dec x 0) as [Hneg | Hpos].
  - assert (Heq : x * x == (- x) * (- x)) by ring.
    rewrite Heq. apply Qmult_le_0_compat; lra.
  - now apply Qmult_le_0_compat.
Qed.

Lemma sum_nonnegative (l : list Q) (acc : Q) :
  Forall (fun q => 0 <= q) l -> 0 <= acc -> 0 <= fold_left Qplus l acc.
Proof.
  revert acc. induction l as [|q l IH]; intros acc Hall Hacc; [exact Hacc |].
  inversion Hall as [|? ? Hq Hl]; subst. cbn [fold_left].
  apply IH; [exact Hl | lra].
Qed.

(** X20.  The amount check looks upwards only: with a square root that is
    non-negative on non-negative numbers, a transaction whose amount is at
    or below the mean of the history is never flagged, however far below. *)
Theorem detectAmountAnomaly_ignores_low_amounts (env : Env)
    (transaction : Transaction.t) (history : list Transaction.t) :
  (forall q, 0 <= q -> 0 <= Math_sqrt env q) ->
  Transaction.amount transaction
  <= fold_left Qplus (map Transaction.amount history) 0
     / Qnat (length (map Transaction.amount history)) ->
  detectAmountAnomaly env transaction history = Ok None.
Proof.
  intros Hsqrt Hlow. unfold detectAmountAnomaly.
  destruct (length history <? 3)%nat; [reflexivity |]. cbv zeta.
  set (average := fold_left Qplus (map Transaction.amount history) 0
                  / Qnat (length (map Transaction.amount history))) in *.
  set (squareDiffs := map (fun amount => (amount - average) * (amount - average))
                        (map Transaction.amount history)).
  set (stdDev := Math_sqrt env _).
  assert (Hdev : 0 <= stdDev).
  { apply Hsqrt. unfold Qdiv. apply Qmult_le_0_compat.
    - apply sum_nonnegative; [| lra].
      subst squareDiffs. apply List.Forall_forall. intros q Hq.
      apply in_map_iff in Hq. destruct Hq as [a [<- _]]. apply square_nonnegative.
    - apply Qinv_le_0_compat. unfold Qnat, Qle. cbn. lia. }
  assert (Hz : Qltb 3 ((Transaction.amount transaction - average)
                       / (if Qeq_bool stdDev 0 then 1 else stdDev)) = false).
  { apply Qltb_ge.
    destruct (Qeq_bool stdDev 0) eqn:Hzero.
    - apply Qle_shift_div_r; lra.
    - apply Qeq_bool_neq in Hzero. apply Qle_shift_div_r; [| lra].
      destruct (Qlt_le_dec 0 stdDev) as [Hpos | Hneg]; [exact Hpos |].
      exfalso. apply Hzero. lra. }
  rewrite Hz. reflexivity.
Qed.

Lemma detectAmountAnomaly_ignores_low_amounts_witness :
  detectAmountAnomaly Sample.env
    (Sample.cardTransaction "Test Merchant" "tkn_valid123" "fp_abc123")
    (repeat (Sample.cardTransaction "Corner Shop" "tkn_valid123" "fp_abc123") 3)
  = Ok None.
Proof.
  apply (detectAmountAnomaly_ignores_low_amounts Sample.env).
  - intros q Hq. exact Hq.
  - apply Qle_bool_iff. reflexivity.
Defined.

Lemma existsb_app_one (x a : string) (set : list string) :
  existsb (String.eqb x) (set ++ [a])
  = existsb (String.eqb x) set || (x =? a)%string.
Proof. rewrite existsb_app. cbn. now rewrite orb_false_r. Qed.

Lemma existsb_setAdd (x : string) (codes set : list string) :
  existsb (String.eqb x) (fold_left setAdd codes set)
  = existsb (String.eqb x) set || existsb (String.eqb x) codes.
Proof.
  revert set. induction codes as [|a codes IH]; intros set; cbn [fold_left existsb].
  - now rewrite orb_false_r.
  - rewrite IH. unfold setAdd.
    destruct (existsb (String.eqb a) set) eqn:Hseen.
    + destruct (String.eqb_spec x a) as [-> | _]; [| reflexivity].
      rewrite Hseen. reflexivity.
    + rewrite existsb_app_one. now rewrite orb_assoc.
Qed.

Lemma existsb_codes (code : string) (history : list Transaction.t) :
  code <> "" ->
  existsb (String.eqb code)
    (flat_map (fun tx =>
                 match Transaction.merchantCategoryCode tx with
                 | Some code => if (code =? "")%string then [] else [code]
                 | None => []
                 end) history)
  = existsb (fun tx => strictEqOpt (Transaction.merchantCategoryCode tx) (Some code))
      history.
Proof.
  intros Hcode. induction history as [|tx history IH]; [reflexivity |].
  cbn [flat_map existsb]. rewrite existsb_app, IH. f_equal.
  destruct (Transaction.merchantCategoryCode tx) as [c |]; [| reflexivity].
  cbn [strictEqOpt].
  destruct (String.eqb_spec c "") as [-> | _]; cbn [existsb].
  - symmetry. apply String.eqb_neq. congruence.
  - rewrite orb_false_r. apply String.eqb_sym.
Qed.

(** X21.  With at least five transactions in the history, the category
    check flags a transaction exactly when no transaction of the history
    carries its merchant category code. *)
Theorem detectMerchantCategoryAnomaly_flags_iff_unseen
    (transaction : Transaction.t) (history : list Transaction.t) (code : string) :
  Transaction.merchantCategoryCode transaction = Some code ->
  code <> "" ->
  (5 <= length history)%nat ->
  (exists found,
      detectMerchantCategoryAnomaly transaction history = Ok (Some found))
  <-> Forall (fun tx => Transaction.merchantCategoryCode tx <> Some code) history.
Proof.
  intros Hcode Hne Hlen. unfold detectMerchantCategoryAnomaly. rewrite Hcode.
  apply String.eqb_neq in Hne as Hne'. rewrite Hne'.
  apply Nat.ltb_ge in Hlen. rewrite Hlen. cbn [orb].
  rewrite existsb_setAdd, existsb_codes by exact Hne. cbn [existsb orb].
  destruct (existsb _ history) eqn:Hseen; cbn [negb].
  - split; [intros [found Hfound]; discriminate Hfound |].
    intros Hall. exfalso.
    apply existsb_exists in Hseen. destruct Hseen as [tx [Hin Heq]].
    rewrite List.Forall_forall in Hall. apply (Hall tx Hin).
    destruct (Transaction.merchantCategoryCode tx) as [c |]; [| discriminate Heq].
    cbn [strictEqOpt] in Heq. apply String.eqb_eq in Heq. now subst c.
  - split; [| intros _; eexists; reflexivity].
    intros _. apply List.Forall_forall. intros tx Hin Heq.
    assert (Hcontra : existsb
              (fun tx => strictEqOpt (Transaction.merchantCategoryCode tx) (Some code))
              history = true).
    { apply existsb_exists. exists tx. split; [exact Hin |].
      rewrite Heq. cbn [strictEqOpt]. apply String.eqb_refl. }
    congruence.
Qed.

Lemma detectMerchantCategoryAnomaly_flags_iff_unseen_witness :
  (exists found,
      detectMerchantCategoryAnomaly (Sample.purchase "7995" "US" 10)
        (repeat (Sample.purchase "5411" "US" 10) 5) = Ok (Some found))
  <-> Forall (fun tx => Transaction.merchantCategoryCode tx <> Some "7995")
        (repeat (Sample.purchase "5411" "US" 10) 5).
Proof.
  apply (detectMerchantCategoryAnomaly_flags_iff_unseen
           (Sample.purchase "7995" "US" 10)
           (repeat (Sample.purchase "5411" "US" 10) 5) "7995").
  - reflexivity.
  - discriminate.
  - cbn. lia.
Defined.

Lemma lookupHour_absent (hour : Z) (counts : list (Z * nat)) :
  Forall (fun entry => (hour < fst entry)%Z) counts -> lookupHour hour counts = 0%nat.
Proof.
  induction 1 as [|[h n] counts Hlt _ IH]; [reflexivity |].
  cbn [lookupHour fst] in *.
  destruct (Z.eqb_spec h hour); [lia | exact IH].
Qed.

Lemma incrementHour_above (low hour : Z) (counts : list (Z * nat)) :
  (low < hour)%Z ->
  Forall (fun entry => (low < fst entry)%Z) counts ->
  Forall (fun entry => (low < fst entry)%Z) (incrementHour hour counts).
Proof.
  intros Hlow. induction 1 as [|[h n] counts Hlt Hall IH]; cbn [incrementHour].
  - constructor; [exact Hlow | constructor].
  - destruct (h =? hour)%Z; [constructor; assumption |].
    destruct (hour <? h)%Z; constructor; auto.
Qed.

Lemma incrementHour_sorted (hour : Z) (counts : list (Z * nat)) :
  StronglySorted (fun a b => (fst a < fst b)%Z) counts ->
  StronglySorted (fun a b => (fst a < fst b)%Z) (incrementHour hour counts).
Proof.
  induction 1 as [|[h n] counts Hsorted IH Hall]; cbn [incrementHour].
  - constructor; constructor.
  - destruct (Z.eqb_spec h hour) as [-> | Hne].
    + constructor; assumption.
    + destruct (Z.ltb_spec hour h) as [Hlt | Hge].
      * constructor; [constructor; assumption |].
        constructor; [exact Hlt |].
        eapply List.Forall_impl; [| exact Hall].
        intros entry Hentry. cbn [fst] in *. lia.
      * constructor; [exact IH |].
        apply (incrementHour_above h hour counts); [lia | exact Hall].
Qed.

Lemma lookupHour_incrementHour (hour added : Z) (counts : list (Z * nat)) :
  StronglySorted (fun a b => (fst a < fst b)%Z) counts ->
  lookupHour hour (incrementHour added counts)
  = (lookupHour hour counts + if (added =? hour)%Z then 1 else 0)%nat.
Proof.
  induction 1 as [|[h n] counts Hsorted IH Hall];
    cbn [incrementHour lookupHour]; [reflexivity |].
  destruct (Z.eqb_spec h added) as [-> | Hne]; cbn [lookupHour].
  - destruct (added =? hour)%Z; lia.
  - destruct (Z.ltb_spec added h) as [Hlt | Hge]; cbn [lookupHour].
    + destruct (Z.eqb_spec added hour) as [<- | _]; [| lia].
      destruct (Z.eqb_spec h added); [lia |].
      rewrite lookupHour_absent; [reflexivity |].
      eapply List.Forall_impl; [| exact Hall].
      intros entry Hentry. cbn [fst] in *. lia.
    + rewrite IH. destruct (Z.eqb_spec h hour) as [-> | _]; [| reflexivity].
      destruct (Z.eqb_spec added hour); lia.
Qed.

Lemma lookupHour_history (hour : Z) (history : list Transaction.t)
    (counts : list (Z * nat)) :
  StronglySorted (fun a b => (fst a < fst b)%Z) counts ->
  lookupHour hour
    (fold_left
       (fun counts tx => incrementHour (getHours (Transaction.createdAt tx)) counts)
       history counts)
  = (lookupHour hour counts
     + length (List.filter
                 (fun tx => (getHours (Transaction.createdAt tx) =? hour)%Z)
                 history))%nat.
Proof.
  revert counts. induction history as [|tx history IH]; intros counts Hsorted;
    cbn [fold_left List.filter]; [cbn; lia |].
  rewrite IH by now apply incrementHour_sorted.
  rewrite lookupHour_incrementHour by exact Hsorted.
  destruct (getHours (Transaction.createdAt tx) =? hour)%Z; cbn [length]; lia.
Qed.

Lemma hourPercentage_rare (count total : nat) :
  (0 < total)%nat ->
  Qltb (Qnat count / Qnat total * 100) 5 = true <-> (20 * count < total)%nat.
Proof.
  intros Htotal. rewrite Qltb_lt.
  assert (Hpos : 0 < Qnat total) by (unfold Qnat, Qlt; cbn; lia).
  assert (Hshape : Qnat count / Qnat total * 100 == Qnat count * 100 / Qnat total)
    by (field; lra).
  rewrite Hshape.
  assert (Hnat : Qnat count * 100 < 5 * Qnat total <-> (20 * count < total)%nat)
    by (unfold Qnat, Qlt; cbn; lia).
  rewrite <- Hnat. split.
  - intros Hlt.
    assert (Hback : Qnat count * 100 == Qnat count * 100 / Qnat total * Qnat total)
      by (field; lra).
    rewrite Hback. apply Qmult_lt_compat_r; assumption.
  - intros Hlt. apply Qlt_shift_div_r; assumption.
Qed.

(** X22.  With at least ten transactions in the history, the time check
    flags a transaction exactly when fewer than one in twenty of them were
    made in its hour of the day. *)
Theorem detectTimePatternAnomaly_flags_iff_rare_hour
    (transaction : Transaction.t) (history : list Transaction.t) :
  (10 <= length history)%nat ->
  (exists found, detectTimePatternAnomaly transaction history = Ok (Some found))
  <-> (20 * length (List.filter
                      (fun tx =>
                         (getHours (Transaction.createdAt tx)
                          =? getHours (Transaction.createdAt transaction))%Z)
                      history)
       < length history)%nat.
Proof.
  intros Hlen. unfold detectTimePatternAnomaly.
  apply Nat.ltb_ge in Hlen as Hlen'. rewrite Hlen'. cbv zeta.
  rewrite lookupHour_history by constructor. cbn [lookupHour Nat.add].
  rewrite <- hourPercentage_rare by lia.
  destruct (Qltb _ 5).
  - split; [reflexivity | intros _; eexists; reflexivity].
  - split; [intros [found Hfound]; discriminate Hfound | discriminate].
Qed.

Lemma detectTimePatternAnomaly_flags_iff_rare_hour_witness :
  (exists found,
      detectTimePatternAnomaly (Sample.purchase "5411" "US" 3)
        (repeat (Sample.purchase "5411" "US" 10) 10) = Ok (Some found))
  <-> (20 * length (List.filter
                      (fun tx =>
                         (getHours (Transaction.createdAt tx)
                          =? getHours (Transaction.createdAt
                                         (Sample.purchase "5411" "US" 3)))%Z)
                      (repeat (Sample.purchase "5411" "US" 10) 10))
       < length (repeat (Sample.purchase "5411" "US" 10) 10))%nat.
Proof.
  apply (detectTimePatternAnomaly_flags_iff_rare_hour
           (Sample.purchase "5411" "US" 3)
           (repeat (Sample.purchase "5411" "US" 10) 10)).
  cbn. lia.
Defined.

Lemma lookupCount_increment (key added : string) (counts : list (string * nat)) :
  lookupCount key (increment added counts)
  = (lookupCount key counts + if (added =? key)%string then 1 else 0)%nat.
Proof.
  induction counts as [|[k n] counts IH]; cbn [increment lookupCount].
  - destruct (added =? key)%string; reflexivity.
  - destruct (String.eqb_spec k added) as [-> | Hne]; cbn [lookupCount].
    + destruct (added =? key)%string; lia.
    + rewrite IH. destruct (String.eqb_spec k key) as [-> | _]; [| reflexivity].
      destruct (String.eqb_spec added key); [congruence | lia].
Qed.

Lemma lookupCount_codes (key : string) (codes : list string)
    (counts : list (string * nat)) :
  lookupCount key (fold_left (fun counts code => increment code counts) codes counts)
  = (lookupCount key counts
     + length (List.filter (fun code => (code =? key)%string) codes))%nat.
Proof.
  revert counts. induction codes as [|code codes IH]; intros counts;
    cbn [fold_left List.filter]; [cbn; lia |].
  rewrite IH, lookupCount_increment.
  destruct (code =? key)%string; cbn [length]; lia.
Qed.

Lemma lookupCount_In (key : string) (counts : list (string * nat)) :
  (0 < lookupCount key counts)%nat -> In (key, lookupCount key counts) counts.
Proof.
  induction counts as [|[k n] counts IH]; cbn [lookupCount]; [lia |].
  destruct (String.eqb_spec k key) as [-> | _]; intros Hpos.
  - now left.
  - right. now apply IH.
Qed.

Lemma country_codes_count (country : string) (history : list Transaction.t) :
  country <> "" ->
  length (List.filter (fun code => (code =? country)%string)
            (flat_map (fun tx =>
                         match Transaction.countryCode tx with
                         | Some code => if (code =? "")%string then [] else [code]
                         | None => []
                         end) history))
  = length (List.filter
              (fun tx => strictEqOpt (Transaction.countryCode tx) (Some country))
              history).
Proof.
  intros Hcountry. induction history as [|tx history IH]; [reflexivity |].
  cbn [flat_map List.filter]. rewrite List.filter_app, length_app, IH.
  destruct (Transaction.countryCode tx) as [code |]; [| reflexivity].
  cbn [strictEqOpt].
  destruct (String.eqb_spec code "") as [-> | _]; cbn [List.filter length].
  - destruct (String.eqb_spec "" country); [congruence | reflexivity].
  - destruct (code =? country)%string; reflexivity.
Qed.

(** X23.  For an account without stored metadata, a country that accounts
    for at least one transaction of the history, and for at least a tenth
    of them, is a usual country: a transaction made there is not flagged by
    the location check. *)
Theorem detectLocationAnomaly_usual_country (env : Env)
    (transaction : Transaction.t) (history : list Transaction.t)
    (account : Account.t) (country : string) :
  Transaction.countryCode transaction = Some country ->
  country <> "" ->
  Account.metadata account = None ->
  (1 <= length (List.filter
                  (fun tx => strictEqOpt (Transaction.countryCode tx) (Some country))
                  history))%nat ->
  (length history
   <= 10 * length (List.filter
                     (fun tx => strictEqOpt (Transaction.countryCode tx) (Some country))
                     history))%nat ->
  detectLocationAnomaly env transaction history account = Ok None.
Proof.
  intros Hcode Hcountry Hmeta Hone Htenth.
  unfold detectLocationAnomaly. rewrite Hcode, Hmeta.
  apply String.eqb_neq in Hcountry as Hcountry'. rewrite Hcountry'.
  cbn [length Nat.eqb andb].
  set (count := length (List.filter _ history)) in *.
  assert (Hhistory : (0 <? length history)%nat = true).
  { apply Nat.ltb_lt. destruct history; [cbn in count; lia | cbn; lia]. }
  rewrite Hhistory.
  set (countryCounts := fold_left _ _ []).
  set (minCount := Z.max 1 _).
  assert (Hstored : lookupCount country countryCounts = count).
  { subst countryCounts. rewrite lookupCount_codes. cbn [lookupCount Nat.add].
    now apply country_codes_count. }
  assert (Hmin : (minCount <= Z.of_nat count)%Z).
  { subst minCount. apply Z.max_lub; [lia |].
    rewrite <- (Qceiling_Z (Z.of_nat count)). apply Qceiling_resp_le.
    unfold Qnat, Qle. cbn. lia. }
  assert (Husual : existsb (String.eqb country)
                     (map fst
                        (filter
                           (fun entry => (minCount <=? Z.of_nat (snd entry))%Z)
                           countryCounts)) = true).
  { apply existsb_exists. exists country. split; [| apply String.eqb_refl].
    apply in_map_iff. exists (country, count). split; [reflexivity |].
    apply list_elem_of_In, list_elem_of_filter. split.
    - cbn [snd]. apply Is_true_true. now apply Z.leb_le.
    - apply list_elem_of_In. rewrite <- Hstored. apply lookupCount_In. lia. }
  rewrite Husual. cbn [negb]. now rewrite andb_false_r.
Qed.

Lemma detectLocationAnomaly_usual_country_witness :
  detectLocationAnomaly Sample.env (Sample.purchase "5411" "US" 3)
    (repeat (Sample.purchase "5411" "US" 10) 3) (Sample.account "acc-12345" 1000)
  = Ok None.
Proof.
  apply (detectLocationAnomaly_usual_country Sample.env
           (Sample.purchase "5411" "US" 3)
           (repeat (Sample.purchase "5411" "US" 10) 3)
           (Sample.account "acc-12345" 1000) "US").
  - reflexivity.
  - discriminate.
  - reflexivity.
  - cbn. lia.
  - cbn. lia.
Defined.

End BehaviouralChecks.

(** ** Similarity scores *)

Section Scores.

#[local] Open Scope Q_scope.

Lemma toLowerCase_length (s : string) :
  String.length (toLowerCase s) = String.length s.
Proof.
  unfold toLowerCase. rewrite <- !length_chars.
  rewrite list_ascii_of_string_of_list_ascii. apply length_map.
Qed.

(** A distance that does not exceed the longer length gives a similarity
    between 0 and 1. *)
Lemma normalized_similarity (distance maxLength : nat) :
  (distance <= maxLength)%nat ->
  0 <= (if (0 <? maxLength)%nat
        then 1 - inject_Z (Z.of_nat distance) / inject_Z (Z.of_nat maxLength)
        else 1)
  /\ (if (0 <? maxLength)%nat
      then 1 - inject_Z (Z.of_nat distance) / inject_Z (Z.of_nat maxLength)
      else 1) <= 1.
Proof.
  intros Hle. destruct (Nat.ltb_spec 0 maxLength) as [Hpos | _]; [| lra].
  assert (Hm : 0 < inject_Z (Z.of_nat maxLength)) by (unfold Qlt; cbn; lia).
  assert (Hd : 0 <= inject_Z (Z.of_nat distance)) by (unfold Qle; cbn; lia).
  assert (Hdm : inject_Z (Z.of_nat distance) <= inject_Z (Z.of_nat maxLength))
    by (unfold Qle; cbn; lia).
  assert (Hlow : 0 <= inject_Z (Z.of_nat distance) / inject_Z (Z.of_nat maxLength))
    by (apply Qle_shift_div_l; [exact Hm | lra]).
  assert (Hhigh : inject_Z (Z.of_nat distance) / inject_Z (Z.of_nat maxLength) <= 1)
    by (apply Qle_shift_div_r; [exact Hm | lra]).
  lra.
Qed.

(** X24.  When the string libraries keep their contract (an edit distance
    never exceeds the longer length, a similarity lies between 0 and 1),
    every confidence score lies between 0 and 1. *)
Theorem computeConfidenceScore_in_unit_interval (env : Env) (actual : string)
    (expected : value) (score : Q) :
  LibraryContract env ->
  computeConfidenceScore env actual expected = Ok score ->
  0 <= score /\ score <= 1.
Proof.
  intros [Hdistance Hsimilarity]. unfold computeConfidenceScore.
  destruct ((actual =? "")%string || negb (truthy expected)).
  { intros [= <-]. lra. }
  destruct expected as [ | | | expected | | ]; try discriminate.
  destruct (_ || _).
  { intros [= <-]. destruct (_ =? _)%string; lra. }
  cbv zeta. intros [= <-].
  set (cleanActual := cleanMerchantName actual).
  set (cleanExpected := cleanMerchantName expected).
  pose proof (Hsimilarity (toLowerCase cleanActual) (toLowerCase cleanExpected))
    as [Hjaro0 Hjaro1].
  fold (getJaroWinklerSimilarity env cleanActual cleanExpected) in Hjaro0, Hjaro1.
  assert (Hlev : 0 <= getLevenshteinSimilarity env cleanActual cleanExpected
                 /\ getLevenshteinSimilarity env cleanActual cleanExpected <= 1).
  { unfold getLevenshteinSimilarity. cbv zeta. apply normalized_similarity.
    rewrite <- (toLowerCase_length cleanActual), <- (toLowerCase_length cleanExpected).
    apply Hdistance. }
  assert (Hphon : 0 <= getPhoneticSimilarity env cleanActual cleanExpected
                  /\ getPhoneticSimilarity env cleanActual cleanExpected <= 1).
  { unfold getPhoneticSimilarity. cbv zeta. apply normalized_similarity.
    apply Hdistance. }
  destruct Hlev as [Hlev0 Hlev1], Hphon as [Hphon0 Hphon1].
  cbn [levenshtein jaroWinkler phonetic DEFAULT_WEIGHTS].
  lra.
Qed.

Lemma sample_env_contract : LibraryContract Sample.env.
Proof.
  split.
  - intros a b. cbn. lia.
  - intros a b. cbn. lra.
Qed.

Lemma computeConfidenceScore_in_unit_interval_witness :
  exists score : Q,
    computeConfidenceScore Sample.env "Starbucks" (VStr "Starbucks Coffee")
    = Ok score
    /\ 0 <= score /\ score <= 1.
Proof.
  eexists. split; [vm_compute; reflexivity |].
  apply (computeConfidenceScore_in_unit_interval Sample.env "Starbucks"
           (VStr "Starbucks Coffee")).
  - exact sample_env_contract.
  - vm_compute. reflexivity.
Defined.

End Scores.

(** ** Authorization *)

Section Authorization.

Import AuthorizationService.

#[local] Open Scope Q_scope.

Ltac run_service :=
  unfold mbind, Service_bind, bindS, mret, Service_ret, retS, tryCatchS, throwS,
    liftS, getRequest, assign, written, returned, attempt in *;
  cbn [request saves fst snd] in *.

(** The account lookup of the validation neither throws nor writes. *)
Lemma validateAccountId_run (w : World) (accountId : string) (st : State) :
  exists validated : option string,
    validateAccountId w accountId st = (Ok validated, st).
Proof.
  unfold validateAccountId, findOneById, findOneByNumber. run_service.
  destruct (isUuid accountId); [| destruct (startsWith _ _)];
    destruct (faults w FindAccountToValidate); eexists; reflexivity.
Qed.

Lemma save_run (w : World) (op : Op) (transaction : TransactionRow.t) (st : State) :
  save w op transaction st
  = if faults w op then (Throw (Error "database error"), st)
    else (Ok transaction,
          {| request := request st; saves := saves st ++ [transaction] |}).
Proof.
  unfold save. run_service. destruct (faults w op); reflexivity.
Qed.

Ltac rewrite_save := unfold save.

(** [createTransaction] leaves the identifiers, the amount and the
    metadata of the request alone, and writes at most the row it returns,
    with sanitized metadata. *)
Lemma createTransaction_run (w : World) (st : State) :
  exists (outcome : result TransactionRow.t) (st' : State),
    createTransaction w st = (outcome, st')
    /\ AuthorizationRequest.transactionId (request st')
       = AuthorizationRequest.transactionId (request st)
    /\ AuthorizationRequest.accountId (request st')
       = AuthorizationRequest.accountId (request st)
    /\ AuthorizationRequest.amount (request st')
       = AuthorizationRequest.amount (request st)
    /\ AuthorizationRequest.metadata (request st')
       = AuthorizationRequest.metadata (request st)
    /\ match outcome with
       | Ok transaction =>
           saves st' = saves st ++ [transaction]
           /\ Transaction.transactionId (TransactionRow.columns transaction)
              = AuthorizationRequest.transactionId (request st)
           /\ Transaction.accountId (TransactionRow.columns transaction)
              = AuthorizationRequest.accountId (request st)
           /\ cleanRow transaction = true
           /\ TransactionRow.status transaction = PENDING
       | Throw _ => saves st' = saves st
       end.
Proof.
  unfold createTransaction, tokenizeCard. rewrite_save. run_service.
  repeat (match goal with
          | |- context [if ?b then _ else _] => destruct b
          | |- context [match ?x with Some _ => _ | None => _ end] =>
              destruct x eqn:?
          | |- context [match ?x with Ok _ => _ | Throw _ => _ end] => destruct x
          end; cbv beta iota zeta; cbn [request saves fst snd]).
  all: eexists _, _; split; [reflexivity |]; cbn [request saves].
  all: repeat split; try reflexivity; try assumption.
  all: unfold cleanRow; cbn [TransactionRow.metadata];
    apply secureSanitizeObject_clean.
Qed.

(** The enrichment step never throws; it writes at most the row it
    returns, which differs from the one it was given in [enrichedData]
    alone. *)
Lemma enrich_run (w : World) (transaction : TransactionRow.t) (st : State) :
  exists (enriched : TransactionRow.t) (st' : State),
    enrich w transaction st = (Ok enriched, st')
    /\ request st' = request st
    /\ (saves st' = saves st \/ saves st' = saves st ++ [enriched])
    /\ Transaction.transactionId (TransactionRow.columns enriched)
       = Transaction.transactionId (TransactionRow.columns transaction)
    /\ Transaction.accountId (TransactionRow.columns enriched)
       = Transaction.accountId (TransactionRow.columns transaction)
    /\ TransactionRow.metadata enriched = TransactionRow.metadata transaction
    /\ TransactionRow.status enriched = TransactionRow.status transaction.
Proof.
  unfold enrich. rewrite_save. run_service.
  destruct (enrichment w transaction) as [[enrichedData |] | error];
    [destruct (faults w SaveEnriched) | |];
    eexists _, _; (split; [reflexivity |]); cbn; auto 10.
Qed.

(** The fund sweep neither throws nor writes; it answers [true] only when
    the sweep has covered the amount. *)
Lemma sweepFunds_run (w : World) (account : Account.t) (amount : Q) (st : State) :
  exists approved : bool,
    sweepFunds w account amount st = (Ok approved, st)
    /\ (approved = true -> sweepCovers w account amount).
Proof.
  unfold sweepFunds, findOneById, sweepCovers. run_service.
  destruct (Account.sweepAccountId account) as [sweepAccountId |];
    [| exists false; split; [reflexivity | discriminate]].
  destruct (Account.isSweepEnabled account);
    [| exists false; split; [reflexivity | discriminate]].
  destruct (negb (sweepAccountId =? "")%string); cbn [andb];
    [| exists false; split; [reflexivity | discriminate]].
  destruct (sweepTimedOut w);
    [exists false; split; [reflexivity | discriminate] |].
  destruct (BankingService.transferFunds _ _ _ _ _) as [answer table] eqn:Htransfer.
  cbn [fst snd]. destruct answer;
    [| exists false; split; [reflexivity | discriminate]].
  destruct (faults w FindUpdatedAccount);
    [exists false; split; [reflexivity | discriminate] |].
  destruct (table !! Account.id account) as [updatedAccount |] eqn:Hupdated;
    [| exists false; split; [reflexivity | discriminate]].
  eexists. split; [reflexivity |]. intros Hcovered.
  exists sweepAccountId, updatedAccount. rewrite Htransfer. cbn [fst snd].
  repeat split; try assumption. now apply Qle_bool_iff.
Qed.


Lemma cleanProperty_indexKey (i : nat) (v : value) :
  cleanProperty (indexKey i) v = true.
Proof.
  unfold cleanProperty, PCI_FIELDS. cbn [existsb].
  now rewrite !indexKey_numeral by reflexivity.
Qed.

Lemma arrayEntries_clean (items : list value) :
  forallb (everyProperty cleanProperty) items = true ->
  everyProperty cleanProperty (VObj (arrayEntries items)) = true.
Proof.
  unfold arrayEntries. cbn [everyProperty]. generalize 0%nat as i.
  induction items as [|v items IH]; intros i Hitems; [reflexivity |].
  cbn [mapi_from forallb] in *. apply andb_true_iff in Hitems.
  destruct Hitems as [Hv Hitems].
  now rewrite cleanProperty_indexKey, Hv, IH.
Qed.

(** Spreading clean data into an object gives clean data. *)
Lemma objectEntries_clean (v : value) :
  everyProperty cleanProperty v = true ->
  everyProperty cleanProperty (VObj (objectEntries v)) = true.
Proof.
  destruct v as [ | b | q | s | items | fields]; try reflexivity.
  - intros _. cbn [objectEntries]. apply arrayEntries_clean.
    induction (list_ascii_of_string s) as [|c cs IH]; [reflexivity |].
    cbn [map forallb everyProperty]. exact IH.
  - intros Hitems. cbn [objectEntries]. now apply arrayEntries_clean.
  - intros Hfields. exact Hfields.
Qed.

Lemma setField_clean (ruleId : string) (fields : list (string * value)) :
  everyProperty cleanProperty (VObj fields) = true ->
  everyProperty cleanProperty (VObj (setField "declineRuleId" (VStr ruleId) fields))
  = true.
Proof.
  cbn [everyProperty].
  induction fields as [|[k v] fields IH]; cbn [setField forallb]; [reflexivity |].
  intros Hfields. apply andb_true_iff in Hfields. destruct Hfields as [Hkv Hfields].
  destruct (String.eqb_spec k "declineRuleId") as [-> | _]; cbn [forallb].
  - now rewrite Hfields.
  - now rewrite Hkv, IH.
Qed.

Lemma approveTransaction_run (w : World) (transaction : TransactionRow.t)
    (st : State) :
  returned (approveTransaction w transaction) st
  = if faults w SaveDecision then (Ok (Throw (Error "database error")), st)
    else
      (Ok (Ok {| AuthorizationResponse.decision := approve;
                 AuthorizationResponse.transactionId :=
                   Transaction.transactionId (TransactionRow.columns transaction);
                 AuthorizationResponse.accountId :=
                   Transaction.accountId (TransactionRow.columns transaction);
                 AuthorizationResponse.reasonCode := None |}),
       {| request := request st;
          saves :=
            saves st
            ++ [{| TransactionRow.columns := TransactionRow.columns transaction;
                   TransactionRow.status := APPROVED;
                   TransactionRow.declineReason :=
                     TransactionRow.declineReason transaction;
                   TransactionRow.metadata := TransactionRow.metadata transaction;
                   TransactionRow.appliedRules :=
                     TransactionRow.appliedRules transaction |}] |}).
Proof.
  unfold approveTransaction. rewrite_save. run_service.
  destruct (faults w SaveDecision); reflexivity.
Qed.

(** A decline either fails at its save, or answers with the reason and
    writes one more clean row. *)
Lemma declineTransaction_run (w : World) (transaction : TransactionRow.t)
    (reasonCode : string) (ruleId : option string) (st : State) :
  cleanRow transaction = true ->
  Forall (fun row => cleanRow row = true) (saves st) ->
  exists (outcome : result AuthorizationResponse.t) (st' : State),
    returned (declineTransaction w transaction reasonCode ruleId) st
    = (Ok outcome, st')
    /\ Forall (fun row => cleanRow row = true) (saves st')
    /\ match outcome with
       | Ok response =>
           response
           = {| AuthorizationResponse.decision := decline;
                AuthorizationResponse.transactionId :=
                  Transaction.transactionId (TransactionRow.columns transaction);
                AuthorizationResponse.accountId :=
                  Transaction.accountId (TransactionRow.columns transaction);
                AuthorizationResponse.reasonCode := Some reasonCode |}
           /\ exists row : TransactionRow.t,
                saves st' = saves st ++ [row]
                /\ TransactionRow.status row = DECLINED
                /\ TransactionRow.declineReason row = Some reasonCode
                /\ TransactionRow.appliedRules row
                   = TransactionRow.appliedRules transaction
       | Throw _ => faults w SaveDecision = true /\ st' = st
       end.
Proof.
  intros Hrow Hsaves. unfold declineTransaction. rewrite_save. run_service.
  destruct (faults w SaveDecision) eqn:Hfault.
  - eexists _, _. split; [reflexivity |]. split; [exact Hsaves | now split].
  - eexists _, _. split; [reflexivity |].
    split; [| split; [reflexivity | eexists; repeat split]].
    cbn [saves]. apply Forall_app. split; [exact Hsaves |].
    constructor; [| constructor].
    unfold cleanRow in *. cbn [TransactionRow.metadata].
    destruct ruleId as [ruleId |]; [| exact Hrow].
    destruct (negb (ruleId =? "")%string); [| exact Hrow].
    apply setField_clean.
    destruct (TransactionRow.metadata transaction) as [metadata |];
      [now apply objectEntries_clean | reflexivity].
Qed.

Lemma isAction_eq (a b : RuleAction) : isAction a b = true <-> a = b.
Proof. destruct a, b; cbn; split; congruence. Qed.

(** The filters of [authorize], as conditions on the applied rules. *)
Lemma filter_matchedWith (action : RuleAction) (applied : list RuleResult.t) :
  (0 <? length (List.filter
                  (fun result => isAction (RuleResult.action result) action
                                 && RuleResult.matched result) applied))%nat = true
  <-> Exists (matchedWith action) applied.
Proof.
  induction applied as [|r applied IH]; cbn [List.filter].
  - split; [discriminate | intros H; inversion H].
  - rewrite Exists_cons, <- IH. unfold matchedWith.
    destruct (isAction (RuleResult.action r) action) eqn:Haction; cbn [andb].
    + apply isAction_eq in Haction.
      destruct (RuleResult.matched r); cbn [length]; [| intuition discriminate].
      split; [intros _; left; now split | reflexivity].
    + split; [now right |]. intros [[_ Heq] | H]; [| exact H].
      apply isAction_eq in Heq. congruence.
Qed.

Ltac run_body :=
  unfold mbind, Service_bind, bindS, mret, Service_ret, retS, liftS, getRequest,
    assign, attempt;
  cbn [request saves fst snd].

(** A decline is never an approval; it stands on the grounds that hold of
    the row it writes; when its save fails, nothing has been written. *)
Lemma declined_step (w : World) (original : AuthorizationRequest.t)
    (before : list TransactionRow.t)
    (transaction : TransactionRow.t) (reasonCode : string)
    (ruleId : option string) (st : State) :
  cleanRow transaction = true ->
  Forall (fun row => cleanRow row = true) (saves st) ->
  onlyPending before (saves st) ->
  (forall row : TransactionRow.t,
      TransactionRow.status row = DECLINED ->
      TransactionRow.declineReason row = Some reasonCode ->
      TransactionRow.appliedRules row = TransactionRow.appliedRules transaction ->
      declineGrounds w original
        {| AuthorizationResponse.decision := decline;
           AuthorizationResponse.transactionId :=
             Transaction.transactionId (TransactionRow.columns transaction);
           AuthorizationResponse.accountId :=
             Transaction.accountId (TransactionRow.columns transaction);
           AuthorizationResponse.reasonCode := Some reasonCode |}
        (saves st ++ [row])) ->
  exists (outcome : result (result AuthorizationResponse.t)) (st' : State),
    returned (declineTransaction w transaction reasonCode ruleId) st
    = (outcome, st')
    /\ Forall (fun row => cleanRow row = true) (saves st')
    /\ match outcome with
       | Throw _ => True
       | Ok (Throw _) =>
           faults w SaveDecision = true /\ onlyPending before (saves st')
       | Ok (Ok response) =>
           (AuthorizationResponse.decision response = approve ->
            approvalGrounds w original response (saves st'))
           /\ (AuthorizationResponse.decision response = decline ->
               declineGrounds w original response (saves st'))
       end.
Proof.
  intros Hrow Hall Hpending Hgrounds.
  destruct (declineTransaction_run w transaction reasonCode ruleId st Hrow Hall)
    as [outcome [st' [Hrun [Hsaved Hout]]]].
  exists (Ok outcome), st'. split; [exact Hrun |]. split; [exact Hsaved |].
  destruct outcome as [response | error].
  - destruct Hout as [-> [row [-> [Hstatus [Hreason Happlied]]]]].
    split; [cbn; discriminate |]. intros _. now apply Hgrounds.
  - destruct Hout as [Hfault ->]. now split.
Qed.

(** The first element that a filter keeps is the first that passes. *)
Lemma filter_head_find {A : Type} (f : A -> bool) (l : list A) (x : A)
    (rest : list A) :
  List.filter f l = x :: rest -> List.find f l = Some x.
Proof.
  induction l as [|y l IH]; cbn [List.filter List.find]; [discriminate |].
  destruct (f y); [now intros [= ->] | exact IH].
Qed.

Lemma authorizeBody_run (w : World) (st : State) :
  Forall (fun row => cleanRow row = true) (saves st) ->
  exists (outcome : result (result AuthorizationResponse.t)) (st' : State),
    authorizeBody w st = (outcome, st')
    /\ Forall (fun row => cleanRow row = true) (saves st')
    /\ match outcome with
       | Throw _ => True
       | Ok (Throw _) =>
           faults w SaveDecision = true /\ onlyPending (saves st) (saves st')
       | Ok (Ok response) =>
           (AuthorizationResponse.decision response = approve ->
            approvalGrounds w (request st) response (saves st'))
           /\ (AuthorizationResponse.decision response = decline ->
               declineGrounds w (request st) response (saves st'))
       end.
Proof.
  intros Hsaves. unfold authorizeBody. run_body.
  destruct (validateAccountId_run w (AuthorizationRequest.accountId (request st)) st)
    as [validated ->].
  destruct (negb (truthyStr validated)).
  { eexists _, _. split; [reflexivity |]. split; [exact Hsaves |].
    split; [discriminate | intros _; now left]. }
  set (accountId := match validated with Some a => a | None => "" end).
  destruct (createTransaction_run w
              {| request := AuthorizationRequest.setAccountId (request st) accountId;
                 saves := saves st |})
    as [created [st1 [-> [Htx [Hacc [Hamount [Hmeta Hcreated]]]]]]].
  cbn [request saves AuthorizationRequest.setAccountId
       AuthorizationRequest.transactionId AuthorizationRequest.accountId
       AuthorizationRequest.amount AuthorizationRequest.metadata] in *.
  destruct created as [transaction | error].
  2: { eexists _, _. split; [reflexivity |]. rewrite Hcreated. auto. }
  destruct Hcreated as [Hsaves1 [Htid [Haid [Hclean Hstatus1]]]].
  assert (Hsaved1 : Forall (fun row => cleanRow row = true) (saves st1)).
  { rewrite Hsaves1. apply Forall_app. split; [exact Hsaves | now constructor]. }
  assert (Hpending1 : onlyPending (saves st) (saves st1)).
  { exists [transaction]. split; [exact Hsaves1 | now constructor]. }
  unfold findOneById. run_body.
  destruct (faults w FindAccount).
  { eexists _, _. split; [reflexivity |]. auto. }
  destruct (accounts w !! AuthorizationRequest.accountId (request st1))
    as [account |] eqn:Haccount.
  2: { apply declined_step; try assumption. intros row _ _ _. now left. }
  assert (Hresponse : accounts w !! Transaction.accountId
                                     (TransactionRow.columns transaction)
                      = Some account) by (now rewrite Haid, <- Hacc).
  destruct (negb (Account.status account =? "active")%string) eqn:Hstatus.
  { apply declined_step; try assumption. intros row _ _ _.
    right. right. exists account. split; [exact Hresponse |].
    left. split; [reflexivity |].
    apply negb_true_iff in Hstatus. now apply String.eqb_neq. }
  apply negb_false_iff, String.eqb_eq in Hstatus.
  destruct (enrich_run w transaction st1)
    as [enriched [st2 [-> [Hrequest2 [Hsaves2 [Htid2 [Haid2 [Hmeta2 Hstatus2]]]]]]]].
  assert (Hclean2 : cleanRow enriched = true)
    by (unfold cleanRow in *; now rewrite Hmeta2).
  assert (Hsaved2 : Forall (fun row => cleanRow row = true) (saves st2)).
  { destruct Hsaves2 as [-> | ->]; [exact Hsaved1 |].
    apply Forall_app. split; [exact Hsaved1 | now constructor]. }
  assert (Hpending2 : onlyPending (saves st) (saves st2)).
  { destruct Hsaves2 as [-> | ->]; [exact Hpending1 |].
    exists [transaction; enriched].
    split; [rewrite Hsaves1, <- app_assoc; reflexivity |].
    constructor; [exact Hstatus1 |].
    constructor; [congruence | constructor]. }
  destruct (faults w FindGlobalRules).
  { eexists _, _. split; [reflexivity |]. auto. }
  destruct (evaluateRules _ _ _) as [ruleResults | error].
  2: { eexists _, _. split; [reflexivity |]. auto. }
  destruct (evaluateBehavioralPatterns _ _ _ _) as [behavioralResults | error].
  2: { eexists _, _. split; [reflexivity |]. auto. }
  set (applied := ruleResults ++ behavioralResults).
  set (decided := {| TransactionRow.columns := TransactionRow.columns enriched;
                     TransactionRow.status := TransactionRow.status enriched;
                     TransactionRow.declineReason :=
                       TransactionRow.declineReason enriched;
                     TransactionRow.metadata := TransactionRow.metadata enriched;
                     TransactionRow.appliedRules := Some applied |}).
  assert (Hclean3 : cleanRow decided = true) by exact Hclean2.
  set (stepUpAuthRules :=
         List.filter (fun result => isAction (RuleResult.action result) STEP_UP_AUTH
                                    && RuleResult.matched result) applied).
  set (declineRules :=
         List.filter (fun result => isAction (RuleResult.action result) DECLINE
                                    && RuleResult.matched result) applied).
  set (sweepRules :=
         List.filter (fun result => isAction (RuleResult.action result) SWEEP
                                    && RuleResult.matched result) applied).
  assert (Hresponse2 : accounts w !! Transaction.accountId
                                      (TransactionRow.columns decided)
                       = Some account)
    by (cbn [decided TransactionRow.columns]; now rewrite Haid2).
  assert (Hdeclined : forall (reasonCode : string) (st3 : State)
                             (row : TransactionRow.t),
             (reasonCode = "additional_auth_required"
              /\ Exists (matchedWith STEP_UP_AUTH) applied
              /\ additionalAuthProvided (request st) = false)
             \/ ((Exists (matchedWith STEP_UP_AUTH) applied ->
                  additionalAuthProvided (request st) = true)
                 /\ ((exists declineRule : RuleResult.t,
                         reasonCode = "rule_" +:+ RuleResult.ruleId declineRule
                         /\ firstMatchedWith DECLINE applied = Some declineRule)
                     \/ (reasonCode = "insufficient_funds"
                         /\ ~ Exists (matchedWith DECLINE) applied
                         /\ Account.balance account
                            < AuthorizationRequest.amount (request st)))) ->
             TransactionRow.status row = DECLINED ->
             TransactionRow.declineReason row = Some reasonCode ->
             TransactionRow.appliedRules row = TransactionRow.appliedRules decided ->
             declineGrounds w (request st)
               {| AuthorizationResponse.decision := decline;
                  AuthorizationResponse.transactionId :=
                    Transaction.transactionId (TransactionRow.columns decided);
                  AuthorizationResponse.accountId :=
                    Transaction.accountId (TransactionRow.columns decided);
                  AuthorizationResponse.reasonCode := Some reasonCode |}
               (saves st3 ++ [row])).
  { intros reasonCode st3 row Hcase Hrowstatus Hrowreason Hrowapplied.
    right. right. exists account. split; [exact Hresponse2 |].
    right. split; [exact Hstatus |]. exists row, applied.
    split; [apply last_snoc |]. split; [exact Hrowstatus |].
    split; [exact Hrowreason |]. split; [exact Hrowapplied |].
    cbn [AuthorizationResponse.reasonCode].
    destruct Hcase as [[-> Hcase] | [Hauth [[r [-> Hr]] | [-> Hcase]]]].
    - left. now split.
    - right. split; [exact Hauth |]. left. now exists r.
    - right. split; [exact Hauth |]. right. now split. }
  assert (Hauth : (0 <? length stepUpAuthRules)%nat
                  && negb (additionalAuthProvided (request st)) = false ->
                  Exists (matchedWith STEP_UP_AUTH) applied ->
                  additionalAuthProvided (request st) = true).
  { intros Hcheck Hexists. apply filter_matchedWith in Hexists.
    fold stepUpAuthRules in Hexists. rewrite Hexists in Hcheck.
    cbn [andb] in Hcheck. now apply negb_false_iff in Hcheck. }
  assert (Hsame : match AuthorizationRequest.metadata (request st1) with
                  | Some metadata =>
                      truthyProp (getProp metadata "additionalAuthProvided")
                  | None => false
                  end = additionalAuthProvided (request st))
    by (unfold additionalAuthProvided; now rewrite Hmeta).
  rewrite Hsame.
  destruct ((0 <? length stepUpAuthRules)%nat
            && negb (additionalAuthProvided (request st))) eqn:HstepUp.
  { apply declined_step; try assumption. intros row. apply Hdeclined.
    left. apply andb_true_iff in HstepUp. destruct HstepUp as [Hsome Hnone].
    split; [reflexivity |].
    split; [now apply filter_matchedWith | now apply negb_true_iff]. }
  specialize (Hauth eq_refl).
  destruct declineRules as [|declineRule declineRules'] eqn:Hdecline.
  2: { apply declined_step; try assumption. intros row. apply Hdeclined.
       right. split; [exact Hauth |]. left. exists declineRule.
       split; [reflexivity |]. exact (filter_head_find _ _ _ _ Hdecline). }
  assert (Hnone : ~ Exists (matchedWith DECLINE) applied).
  { intros Hexists. apply filter_matchedWith in Hexists.
    fold declineRules in Hexists. rewrite Hdecline in Hexists.
    discriminate Hexists. }
  assert (Hgrounds : forall st3 : State,
             AuthorizationRequest.amount (request st)
             <= Account.balance account
             \/ (Exists (matchedWith SWEEP) applied
                 /\ sweepCovers w account (AuthorizationRequest.amount (request st))) ->
             Forall (fun row => cleanRow row = true) (saves st3) ->
             onlyPending (saves st) (saves st3) ->
             exists (outcome : result (result AuthorizationResponse.t)) (st' : State),
               returned (approveTransaction w decided) st3 = (outcome, st')
               /\ Forall (fun row => cleanRow row = true) (saves st')
               /\ match outcome with
                  | Throw _ => True
                  | Ok (Throw _) =>
                      faults w SaveDecision = true
                      /\ onlyPending (saves st) (saves st')
                  | Ok (Ok response) =>
                      (AuthorizationResponse.decision response = approve ->
                       approvalGrounds w (request st) response (saves st'))
                      /\ (AuthorizationResponse.decision response = decline ->
                          declineGrounds w (request st) response (saves st'))
                  end).
  { intros st3 Hfunds Hsaved3 Hpending3. rewrite approveTransaction_run.
    destruct (faults w SaveDecision) eqn:Hfault.
    { eexists _, _. split; [reflexivity |]. split; [exact Hsaved3 | now split]. }
    eexists _, _. split; [reflexivity |]. cbn [saves]. split.
    { apply Forall_app. split; [exact Hsaved3 | now constructor]. }
    split; [| cbn; discriminate].
    intros _. exists account. eexists. exists applied.
    split; [exact Hresponse2 |].
    split; [exact Hstatus |].
    split; [apply last_snoc |].
    split; [reflexivity |]. split; [reflexivity |].
    split; [exact Hnone |]. split; [exact Hauth | exact Hfunds]. }
  destruct ((0 <? length sweepRules)%nat && Qltb _ _) eqn:Hsweep.
  - apply andb_true_iff in Hsweep. destruct Hsweep as [Hsweep Hshort].
    apply filter_matchedWith in Hsweep.
    destruct (sweepFunds_run w account (AuthorizationRequest.amount (request st1)) st2)
      as [approved [-> Hcovers]].
    destruct approved.
    + apply Hgrounds; [| exact Hsaved2 | exact Hpending2].
      right. split; [exact Hsweep |]. rewrite <- Hamount. now apply Hcovers.
    + rewrite Hshort. apply declined_step; try assumption.
      intros row. apply Hdeclined. right. split; [exact Hauth |]. right.
      split; [reflexivity |]. split; [exact Hnone |].
      rewrite <- Hamount. now apply Qltb_lt.
  - destruct (Qltb (Account.balance account)
                (AuthorizationRequest.amount (request st1))) eqn:Hshort.
    + apply declined_step; try assumption.
      intros row. apply Hdeclined. right. split; [exact Hauth |]. right.
      split; [reflexivity |]. split; [exact Hnone |].
      rewrite <- Hamount. now apply Qltb_lt.
    + apply Hgrounds; [| exact Hsaved2 | exact Hpending2].
      left. rewrite <- Hamount. now apply Qltb_ge.
Qed.

(** One run of [authorize]: what holds of its outcome and of the rows it
    has written. *)
Lemma authorize_run (w : World) (request : AuthorizationRequest.t) :
  Forall (fun row => cleanRow row = true) (authorize w request).2
  /\ match (authorize w request).1 with
     | Throw _ =>
         faults w SaveDecision = true
         /\ onlyPending [] (authorize w request).2
     | Ok response =>
         (AuthorizationResponse.decision response = approve ->
          approvalGrounds w request response (authorize w request).2)
         /\ (AuthorizationResponse.decision response = decline ->
             declineGrounds w request response (authorize w request).2)
     end.
Proof.
  unfold authorize, authorizeS.
  destruct (authorizeBody_run w {| request := request; saves := [] |}
              ltac:(constructor))
    as [outcome [st [-> [Hsaved Hout]]]].
  cbn [AuthorizationService.request saves] in Hout.
  destruct outcome as [[response | error] | error]; cbn [fst snd].
  - now split.
  - now split.
  - unfold save. run_service.
    destruct (faults w SaveFailed); cbn [fst snd saves].
    + split; [exact Hsaved |]. split; [discriminate |].
      intros _. right. now left.
    + split; [| split; [discriminate | intros _; right; now left]].
      apply Forall_app. split; [exact Hsaved | now constructor].
Qed.



(** X26.  The catch-all of [authorize] does not cover the save of the
    decision: [authorize] throws only when that save fails, and then every
    row it has written is still pending, with no decision and no failure
    on record. *)
Theorem authorize_throws_only_at_decision_save (w : World)
    (request : AuthorizationRequest.t) (error : exn) :
  (authorize w request).1 = Throw error ->
  faults w SaveDecision = true
  /\ Forall (fun row => TransactionRow.status row = PENDING) (authorize w request).2.
Proof.
  intros Hthrow. destruct (authorize_run w request) as [_ Hout].
  rewrite Hthrow in Hout. destruct Hout as [Hfault [rows [-> Hrows]]].
  split; [exact Hfault | exact Hrows].
Qed.

Lemma authorize_throws_only_at_decision_save_witness :
  faults (Sample.world Sample.saveDecisionFails) SaveDecision = true
  /\ Forall (fun row => TransactionRow.status row = PENDING)
       (authorize (Sample.world Sample.saveDecisionFails)
          (Sample.request "src" 30 None)).2.
Proof.
  apply (authorize_throws_only_at_decision_save
           (Sample.world Sample.saveDecisionFails) (Sample.request "src" 30 None)
           (Error "database error")).
  vm_compute. reflexivity.
Defined.

(** X27.  Whatever the request and whatever fails, every row that
    [authorize] writes to the transactions table carries clean metadata:
    PCI fields redacted and no valid PAN under 'pan', at every depth. *)
Theorem authorize_stores_clean_metadata (w : World)
    (request : AuthorizationRequest.t) :
  Forall (fun row => cleanRow row = true) (authorize w request).2.
Proof. exact (proj1 (authorize_run w request)). Qed.

(** A finding of the behavioural analysis passes none of the filters of
    [authorize]. *)
Lemma filter_reviews (action : RuleAction) (findings : list RuleResult.t) :
  action <> REVIEW ->
  Forall (fun r => RuleResult.action r = REVIEW /\ RuleResult.matched r = true)
    findings ->
  List.filter (fun result => isAction (RuleResult.action result) action
                             && RuleResult.matched result) findings = [].
Proof.
  intros Haction. induction 1 as [|r findings [Hr _] _ IH]; [reflexivity |].
  cbn [List.filter]. rewrite Hr.
  destruct action; try contradiction; cbn [isAction andb]; exact IH.
Qed.

Lemma decision_ignores_appliedRules (w : World) (columns : Transaction.t)
    (status : TransactionStatus) (declineReason : option string)
    (metadata : option value) (applied applied' : option (list RuleResult.t))
    (reasonCode : string) (ruleId : option string) (st : State) :
  exists (outcome : result AuthorizationResponse.t) (st1 st1' : State),
    returned (declineTransaction w
                {| TransactionRow.columns := columns;
                   TransactionRow.status := status;
                   TransactionRow.declineReason := declineReason;
                   TransactionRow.metadata := metadata;
                   TransactionRow.appliedRules := applied |}
                reasonCode ruleId) st = (Ok outcome, st1)
    /\ returned (declineTransaction w
                   {| TransactionRow.columns := columns;
                      TransactionRow.status := status;
                      TransactionRow.declineReason := declineReason;
                      TransactionRow.metadata := metadata;
                      TransactionRow.appliedRules := applied' |}
                   reasonCode ruleId) st = (Ok outcome, st1')
    /\ request st1' = request st1.
Proof.
  unfold declineTransaction, save. run_service.
  destruct (faults w SaveDecision); eexists _, _, _; repeat split.
Qed.

Lemma approval_ignores_appliedRules (w : World) (columns : Transaction.t)
    (status : TransactionStatus) (declineReason : option string)
    (metadata : option value) (applied applied' : option (list RuleResult.t))
    (st : State) :
  exists (outcome : result AuthorizationResponse.t) (st1 st1' : State),
    returned (approveTransaction w
                {| TransactionRow.columns := columns;
                   TransactionRow.status := status;
                   TransactionRow.declineReason := declineReason;
                   TransactionRow.metadata := metadata;
                   TransactionRow.appliedRules := applied |}) st
    = (Ok outcome, st1)
    /\ returned (approveTransaction w
                   {| TransactionRow.columns := columns;
                      TransactionRow.status := status;
                      TransactionRow.declineReason := declineReason;
                      TransactionRow.metadata := metadata;
                      TransactionRow.appliedRules := applied' |}) st
       = (Ok outcome, st1')
    /\ request st1' = request st1.
Proof.
  unfold approveTransaction, save. run_service.
  destruct (faults w SaveDecision); eexists _, _, _; repeat split.
Qed.

(** The [try] block of [authorize] with another transaction store behind
    the behavioural checks: same promise, same request afterwards. *)
Lemma authorizeBody_history (w : World) (repo : TransactionRepository)
    (st : State) :
  exists (outcome : result (result AuthorizationResponse.t)) (st1 st1' : State),
    authorizeBody w st = (outcome, st1)
    /\ authorizeBody (withTransactionHistory w repo) st = (outcome, st1')
    /\ request st1' = request st1.
Proof.
  unfold authorizeBody.
  change (validateAccountId (withTransactionHistory w repo))
    with (validateAccountId w).
  change (createTransaction (withTransactionHistory w repo))
    with (createTransaction w).
  change (findOneById (withTransactionHistory w repo)) with (findOneById w).
  change (declineTransaction (withTransactionHistory w repo))
    with (declineTransaction w).
  change (approveTransaction (withTransactionHistory w repo))
    with (approveTransaction w).
  change (enrich (withTransactionHistory w repo)) with (enrich w).
  change (sweepFunds (withTransactionHistory w repo)) with (sweepFunds w).
  change (attempt (withTransactionHistory w repo)) with (attempt w).
  cbn [withTransactionHistory env transactionHistory accounts accountRules
       globalRules].
  run_body.
  destruct (validateAccountId_run w (AuthorizationRequest.accountId (request st)) st)
    as [validated ->].
  destruct (negb (truthyStr validated)).
  { eexists _, _, _. repeat split. }
  destruct (createTransaction w _) as [[transaction | error] st1];
    [| eexists _, _, _; repeat split].
  unfold findOneById. run_body.
  destruct (faults w FindAccount); [eexists _, _, _; repeat split |].
  destruct (accounts w !! AuthorizationRequest.accountId (request st1))
    as [account |].
  2: { destruct (returned (declineTransaction w transaction "account_not_found" None)
                   st1) as [outcome st2].
       eexists _, _, _. repeat split. }
  destruct (negb (Account.status account =? "active")%string).
  { destruct (returned (declineTransaction w transaction "account_inactive" None)
                st1) as [outcome st2].
    eexists _, _, _. repeat split. }
  destruct (enrich w transaction st1) as [[enriched | error] st2];
    [| eexists _, _, _; repeat split].
  destruct (faults w FindGlobalRules); [eexists _, _, _; repeat split |].
  destruct (evaluateRules _ _ _) as [ruleResults | error];
    [| eexists _, _, _; repeat split].
  destruct (evaluateBehavioralPatterns_reviews (env w) (transactionHistory w)
              (TransactionRow.columns enriched) account)
    as [findings [-> [_ Hfindings]]].
  destruct (evaluateBehavioralPatterns_reviews (env w) repo
              (TransactionRow.columns enriched) account)
    as [findings' [-> [_ Hfindings']]].
  rewrite !List.filter_app.
  rewrite !(filter_reviews DECLINE findings), !(filter_reviews DECLINE findings'),
    !(filter_reviews STEP_UP_AUTH findings),
    !(filter_reviews STEP_UP_AUTH findings'),
    !(filter_reviews SWEEP findings), !(filter_reviews SWEEP findings')
    by (assumption || discriminate).
  rewrite !app_nil_r.
  destruct (_ && negb _).
  { destruct (decision_ignores_appliedRules w (TransactionRow.columns enriched)
                (TransactionRow.status enriched)
                (TransactionRow.declineReason enriched)
                (TransactionRow.metadata enriched)
                (Some (ruleResults ++ findings)) (Some (ruleResults ++ findings'))
                "additional_auth_required"
                (RuleResult.ruleId
                   <$> head (List.filter
                               (fun result =>
                                  isAction (RuleResult.action result) STEP_UP_AUTH
                                  && RuleResult.matched result) ruleResults))
                st2)
      as [outcome [s1 [s1' [-> [-> Hrequest]]]]].
    eexists _, _, _. repeat split. exact Hrequest. }
  destruct (List.filter
              (fun result => isAction (RuleResult.action result) DECLINE
                             && RuleResult.matched result) ruleResults)
    as [|declineRule declineRules].
  2: { destruct (decision_ignores_appliedRules w (TransactionRow.columns enriched)
                   (TransactionRow.status enriched)
                   (TransactionRow.declineReason enriched)
                   (TransactionRow.metadata enriched)
                   (Some (ruleResults ++ findings))
                   (Some (ruleResults ++ findings'))
                   ("rule_" +:+ RuleResult.ruleId declineRule) None st2)
         as [outcome [s1 [s1' [-> [-> Hrequest]]]]].
       eexists _, _, _. repeat split. exact Hrequest. }
  assert (Hsweep : exists (approved : bool),
             (if (0 <? length
                         (List.filter
                            (fun result =>
                               isAction (RuleResult.action result) SWEEP
                               && RuleResult.matched result) ruleResults))%nat
                 && Qltb (Account.balance account)
                      (AuthorizationRequest.amount (request st1))
              then sweepFunds w account (AuthorizationRequest.amount (request st1))
              else fun st0 => (Ok false, st0)) st2 = (Ok approved, st2)).
  { destruct (_ && _); [| now exists false].
    destruct (sweepFunds_run w account
                (AuthorizationRequest.amount (request st1)) st2)
      as [approved [-> _]].
    now exists approved. }
  destruct Hsweep as [approved ->].
  destruct (approval_ignores_appliedRules w (TransactionRow.columns enriched)
              (TransactionRow.status enriched)
              (TransactionRow.declineReason enriched)
              (TransactionRow.metadata enriched)
              (Some (ruleResults ++ findings)) (Some (ruleResults ++ findings'))
              st2)
    as [approval [a1 [a1' [Happrove [Happrove' Hrequest]]]]].
  destruct (decision_ignores_appliedRules w (TransactionRow.columns enriched)
              (TransactionRow.status enriched)
              (TransactionRow.declineReason enriched)
              (TransactionRow.metadata enriched)
              (Some (ruleResults ++ findings)) (Some (ruleResults ++ findings'))
              "insufficient_funds" None st2)
    as [refusal [d1 [d1' [Hdecline [Hdecline' Hrequest']]]]].
  destruct approved; [| destruct (Qltb _ _)].
  - rewrite Happrove, Happrove'. eexists _, _, _. repeat split. exact Hrequest.
  - rewrite Hdecline, Hdecline'. eexists _, _, _. repeat split. exact Hrequest'.
  - rewrite Happrove, Happrove'. eexists _, _, _. repeat split. exact Hrequest.
Qed.

(** X28.  The behavioural analysis is advisory: whatever the transaction
    store behind the behavioural checks answers, and whether it fails,
    [authorize] gives the same outcome. *)
Theorem authorize_ignores_behavioural_analysis (w : World)
    (repo : TransactionRepository) (request : AuthorizationRequest.t) :
  (authorize (withTransactionHistory w repo) request).1 = (authorize w request).1.
Proof.
  unfold authorize, authorizeS.
  destruct (authorizeBody_history w repo
              {| AuthorizationService.request := request; saves := [] |})
    as [outcome [st1 [st1' [-> [-> Hrequest]]]]].
  destruct outcome as [promise | error]; [reflexivity |].
  change (save (withTransactionHistory w repo)) with (save w).
  unfold save. run_service. rewrite Hrequest.
  destruct (faults w SaveFailed); reflexivity.
Qed.




End Authorization.

(** ** Enrichment and the rules *)

Section Enrichment.

Import EnrichmentService AuthorizationService.

(** X30.  Enrichment fills in 'US' for a missing country code, so a rule
    on the country 'US' does not match a transaction that came without a
    country code, and matches the same transaction once it is enriched:
    the outcome of the rule depends on whether the enrichment arrived. *)
Theorem enrichment_decides_country_rule (env : Env) (transaction : Transaction.t)
    (rule : Rule.t) (enrichedData : EnrichedData) :
  Transaction.enrichedData transaction = None ->
  truthyStr (Transaction.countryCode transaction) = false ->
  enrichTransactionData transaction = Some enrichedData ->
  Rule.conditions rule = VObj [("country_code_equals", VStr "US")] ->
  evaluateRule env transaction rule = Ok false
  /\ evaluateRule env (setEnrichedData transaction (stored enrichedData)) rule
     = Ok true.
Proof.
  intros Hplain Hcountry Henriched Hconditions.
  assert (Hus : countryCode enrichedData = "US").
  { unfold enrichTransactionData in Henriched.
    destruct (existsb _ INHERITED_MEMBERS); [discriminate |].
    injection Henriched as <-. cbn [countryCode].
    destruct (Transaction.countryCode transaction) as [code |]; [| reflexivity].
    cbn [truthyStr] in Hcountry. apply negb_false_iff in Hcountry.
    now rewrite Hcountry. }
  unfold evaluateRule. rewrite Hconditions.
  cbn [truthy negb objectEntries length Nat.eqb orb evaluateConditions getProp
       lookupField].
  unfold evaluateCondition.
  cbn [String.eqb Ascii.eqb Bool.eqb].
  unfold prepareTransactionData.
  cbn [TxData.countryCode TxData.paymentMethod setEnrichedData stored
       Transaction.enrichedData Transaction.countryCode
       Transaction.paymentMethod EnrichedData.countryCode].
  rewrite Hplain, Hus. unfold orElse.
  cbn [truthyStr String.eqb Ascii.eqb Bool.eqb negb].
  split.
  - unfold stringMatch.
    destruct (Transaction.countryCode transaction) as [code |]; [| reflexivity].
    cbn [truthyStr] in Hcountry. apply negb_false_iff in Hcountry.
    now rewrite Hcountry.
  - cbn. destruct (Transaction.paymentMethod transaction); reflexivity.
Qed.

Lemma enrichment_decides_country_rule_witness :
  evaluateRule Sample.env
    (Sample.cardTransaction "SQ*Corner Shop" "tkn_valid123" "fp_abc123")
    Sample.homeCountryRule = Ok false
  /\ evaluateRule Sample.env
       (setEnrichedData
          (Sample.cardTransaction "SQ*Corner Shop" "tkn_valid123" "fp_abc123")
          (stored
             {| merchantName := "Corner Shop";
                merchantCategory := "Unknown";
                merchantCategoryCode := "";
                location := "Unknown";
                countryCode := "US";
                isHighRisk := false;
                confidence := 0.95;
                enrichmentSource := "internal-db" |}))
       Sample.homeCountryRule = Ok true.
Proof.
  apply (enrichment_decides_country_rule Sample.env
           (Sample.cardTransaction "SQ*Corner Shop" "tkn_valid123" "fp_abc123")
           Sample.homeCountryRule).
  - reflexivity.
  - reflexivity.
  - vm_compute. reflexivity.
  - reflexivity.
Defined.

End Enrichment.
